(** * academic-mcp: the PDF acquisition pipeline and the adaptive chunk planner

    A shallow embedding of [src/pdf-utils.ts] (class [PDFUtils]) and of the
    tool handlers of the server that call it ([download_pdf],
    [read_pdf_text], [list_downloaded_pdfs], [cleanup_downloads]).

    Conventions of the embedding:
    - a JavaScript string is a [string]; its [.length] is the number of
      characters (code units below 256);
    - a JavaScript number is the rational it denotes, kept in [Q]: the
      page numbers and chunk sizes a caller passes are not validated by
      the source and need not be integers ([1.5] is [3 # 2]); an integer
      is [inject_Z z]; arithmetic is exact, as that of doubles is on
      integers and on fractions with few binary digits (rounding, [NaN]
      and the infinities are not represented); lengths and counts,
      integers by construction, are kept in [Z];
    - a thrown [Error] is the [Throw] outcome carrying [error.message];
    - the network, the [pdftotext]/[pdfinfo] tools and the clock are read
      from an explicit environment; the downloads directory is explicit
      state threaded through the calls. *)

From Stdlib Require Import ZArith QArith Qminmax Qround Bool List Ascii String Lia Lqa.
From Stdlib Require Import Numbers.DecimalString.
Import ListNotations.

Open Scope string_scope.
Open Scope Z_scope.

(** ** JavaScript string primitives used by the source *)

Module JS.

(** [s.length] *)
Definition strlen (s : string) : Z := Z.of_nat (String.length s).

(** The tail of [s] from character [n] on. *)
Fixpoint drop (n : nat) (s : string) : string :=
  match n, s with
  | O, _ => s
  | S _, EmptyString => EmptyString
  | S n', String _ s' => drop n' s'
  end.

(** [s.startsWith(p)] *)
Definition startsWith (p s : string) : bool := String.prefix p s.

(** [s.includes(sub)] *)
Fixpoint includes (sub s : string) : bool :=
  match s with
  | EmptyString => startsWith sub EmptyString
  | String _ s' => startsWith sub s || includes sub s'
  end.

(** [s.endsWith(suf)] *)
Definition endsWith (suf s : string) : bool :=
  let n := String.length s in
  let m := String.length suf in
  (m <=? n)%nat && String.eqb (drop (n - m) s) suf.

(** [s.substring(0, n)] for [0 <= n]. *)
Definition substring0 (n : Z) (s : string) : string :=
  String.substring 0 (Z.to_nat n) s.

(** [s.split(sep)] for a one-character separator: never empty. *)
Fixpoint split (sep : ascii) (s : string) : list string :=
  match s with
  | EmptyString => [EmptyString]
  | String c s' =>
      if Ascii.eqb c sep then EmptyString :: split sep s'
      else match split sep s' with
           | [] => [String c EmptyString]
           | h :: t => String c h :: t
           end
  end.

(** [parts[parts.length - 1]] *)
Definition lastOf (parts : list string) : string := List.last parts EmptyString.

(** [s.replace(pat, rep)] with a string pattern: the first occurrence only. *)
Fixpoint replaceFirst (pat rep s : string) : string :=
  if startsWith pat s then rep ++ drop (String.length pat) s
  else match s with
       | EmptyString => EmptyString
       | String c s' => String c (replaceFirst pat rep s')
       end.

(** [s.replace(/[class]/g, rep)]: every character of the class. *)
Fixpoint replaceAll (cls : ascii -> bool) (rep : ascii) (s : string) : string :=
  match s with
  | EmptyString => EmptyString
  | String c s' => String (if cls c then rep else c) (replaceAll cls rep s')
  end.

(** [s.replace(/suf$/, '')] for a literal suffix. *)
Definition stripSuffix (suf s : string) : string :=
  if endsWith suf s
  then String.substring 0 (String.length s - String.length suf) s
  else s.

Definition between (lo hi c : ascii) : bool :=
  (N_of_ascii lo <=? N_of_ascii c)%N && (N_of_ascii c <=? N_of_ascii hi)%N.

Definition isDigit (c : ascii) : bool := between "0" "9" c.
Definition isAlpha (c : ascii) : bool := between "a" "z" c || between "A" "Z" c.

(** [\w] *)
Definition isWord (c : ascii) : bool := isAlpha c || isDigit c || Ascii.eqb c "_".

(** [\s], on the characters below 256: tab, LF, VT, FF, CR, space, NBSP. *)
Definition isSpace (c : ascii) : bool :=
  between "009" "013" c || Ascii.eqb c " " || Ascii.eqb c "160".

(** [s.trim()] *)
Fixpoint trimStart (s : string) : string :=
  match s with
  | EmptyString => EmptyString
  | String c s' => if isSpace c then trimStart s' else s
  end.

Fixpoint trimEnd (s : string) : string :=
  match s with
  | EmptyString => EmptyString
  | String c s' =>
      match trimEnd s' with
      | EmptyString => if isSpace c then EmptyString else String c EmptyString
      | t => String c t
      end
  end.

Definition trim (s : string) : string := trimEnd (trimStart s).

(** A JavaScript value used as a condition: the empty string is falsy. *)
Definition truthy (s : string) : bool := negb (String.eqb s EmptyString).

(** [String(n)] for an integer. *)
Definition ofInt (n : Z) : string := NilZero.string_of_int (Z.to_int n).

(** [Math.min], [Math.max], [Math.floor]. *)
Definition min (a b : Q) : Q := Qmin a b.
Definition max (a b : Q) : Q := Qmax a b.
Definition floor (a : Q) : Q := inject_Z (Qfloor a).

(** [a <= b] and [a > b] on numbers. *)
Definition le (a b : Q) : bool := Qle_bool a b.
Definition gt (a b : Q) : bool := negb (Qle_bool a b).

(** The integer a number is, [None] for a number with a fractional part. *)
Definition asInteger (a : Q) : option Z :=
  if Qnum a mod Zpos (Qden a) =? 0 then Some (Qnum a / Zpos (Qden a)) else None.

Definition digit (d : Z) : ascii := ascii_of_N (48 + Z.to_N d).

(** The decimal digits of [rem / den] after the point, for
    [0 <= rem < den]: at most [count] of them. *)
Fixpoint fraction (count : nat) (rem den : Z) : string :=
  match count with
  | O => EmptyString
  | S k =>
      if rem =? 0 then EmptyString
      else String (digit (rem * 10 / den)) (fraction k (rem * 10 mod den) den)
  end.

(** [String(a)], as in a template literal and in [JSON.stringify]: an
    integer as its digits, a number with a fractional part as its decimal
    expansion ([1.5], [-0.25]), which is what JavaScript prints for the
    numbers with a short finite expansion (the exponent notation of very
    small and very large numbers is not modelled); at most 17 digits are
    produced after the point. *)
Definition ofNumber (a : Q) : string :=
  match asInteger a with
  | Some z => ofInt z
  | None =>
      let den := Zpos (Qden a) in
      let n := Z.abs (Qnum a) in
      (if Qnum a <? 0 then "-" else EmptyString)
      ++ ofInt (n / den) ++ "." ++ fraction 17 (n mod den) den
  end.

End JS.

(** ** [JSON.stringify(value, null, 2)] *)

Module JSON.

#[warning="-register-all"]
Inductive value : Type :=
| Null
| Bool (b : bool)
| Num (n : Q)
| Str (s : string)
| Arr (items : list value)
| Obj (fields : list (string * value)).

Definition hexDigit (n : N) : ascii :=
  match n with
  | 10%N => "a" | 11%N => "b" | 12%N => "c"
  | 13%N => "d" | 14%N => "e" | 15%N => "f"
  | _ => ascii_of_N (48 + n)
  end.

Definition dquote : ascii := ascii_of_N 34.

(** One character inside a string literal. *)
Definition escapeChar (c : ascii) : string :=
  let n := N_of_ascii c in
  if Ascii.eqb c dquote then String "\" (String dquote EmptyString)
  else if Ascii.eqb c "\" then "\\"
  else if (n =? 8)%N then "\b"
  else if (n =? 9)%N then "\t"
  else if (n =? 10)%N then "\n"
  else if (n =? 12)%N then "\f"
  else if (n =? 13)%N then "\r"
  else if (n <? 32)%N
       then "\u00" ++ String (hexDigit (n / 16)) (String (hexDigit (n mod 16)) EmptyString)
  else String c EmptyString.

Fixpoint escape (s : string) : string :=
  match s with
  | EmptyString => EmptyString
  | String c s' => escapeChar c ++ escape s'
  end.

Definition quote (s : string) : string :=
  String dquote (escape s) ++ String dquote EmptyString.

Definition newline : string := String "010" EmptyString.

Fixpoint pad (level : nat) : string :=
  match level with
  | O => EmptyString
  | S l => "  " ++ pad l
  end.

Definition joinLines (level : nat) (items : list string) : string :=
  String.concat ("," ++ newline ++ pad level) items.

Definition block (level : nat) (opening closing : string) (items : list string) : string :=
  opening ++ newline ++ pad (S level) ++ joinLines (S level) items
          ++ newline ++ pad level ++ closing.

Fixpoint stringifyAt (level : nat) (v : value) : string :=
  match v with
  | Null => "null"
  | Bool true => "true"
  | Bool false => "false"
  | Num n => JS.ofNumber n
  | Str s => quote s
  | Arr [] => "[]"
  | Arr items => block level "[" "]" (List.map (stringifyAt (S level)) items)
  | Obj [] => "{}"
  | Obj fields =>
      block level "{" "}"
        (List.map (fun kv => quote (fst kv) ++ ": " ++ stringifyAt (S level) (snd kv))
                  fields)
  end.

Definition stringify (v : value) : string := stringifyAt 0 v.

(** [obj.key], [None] for a missing property. *)
Definition field (key : string) (v : value) : option value :=
  match v with
  | Obj fields =>
      option_map snd (List.find (fun kv => String.eqb (fst kv) key) fields)
  | _ => None
  end.

End JSON.

(** ** The WHATWG [URL] class and [decodeURIComponent]

    Platform code, modelled on one-byte characters: a string parses as a
    URL when it starts with a scheme ([[A-Za-z][A-Za-z0-9+.-]*:]); the
    query runs from the first [?] to the first [#]; [searchParams.get]
    returns the form-decoded value of the first pair with that name.
    UTF-8 validation of decoded bytes is not modelled. *)

Module URL.

Definition hexValue (c : ascii) : option N :=
  let n := N_of_ascii c in
  if JS.isDigit c then Some (n - 48)%N
  else if JS.between "a" "f" c then Some (n - 87)%N
  else if JS.between "A" "F" c then Some (n - 55)%N
  else None.

Fixpoint schemeRest (s : string) : bool :=
  match s with
  | EmptyString => false
  | String c s' =>
      if Ascii.eqb c ":" then true
      else if JS.isAlpha c || JS.isDigit c
                || Ascii.eqb c "+" || Ascii.eqb c "." || Ascii.eqb c "-"
           then schemeRest s'
           else false
  end.

Definition hasScheme (s : string) : bool :=
  match s with
  | EmptyString => false
  | String c s' => JS.isAlpha c && schemeRest s'
  end.

(** [new URL(url).search] without its [?]; [None] when the constructor
    throws. *)
Definition query (url : string) : option string :=
  if hasScheme url then
    match JS.split "?" (List.hd EmptyString (JS.split "#" url)) with
    | _ :: q :: rest => Some (String.concat "?" (q :: rest))
    | _ => Some EmptyString
    end
  else None.

(** Percent-decoding of the form-urlencoded parser: [+] is a space and a
    malformed escape is kept as it is. *)
Fixpoint formDecode (s : string) : string :=
  match s with
  | EmptyString => EmptyString
  | String c s' =>
      if Ascii.eqb c "+" then String " " (formDecode s')
      else if Ascii.eqb c "%" then
        match s' with
        | String h (String l s'') =>
            match hexValue h, hexValue l with
            | Some a, Some b => String (ascii_of_N (16 * a + b)) (formDecode s'')
            | _, _ => String c (formDecode s')
            end
        | _ => String c (formDecode s')
        end
      else String c (formDecode s')
  end.

Definition pairOf (piece : string) : string * string :=
  match JS.split "=" piece with
  | name :: v :: rest => (formDecode name, formDecode (String.concat "=" (v :: rest)))
  | name :: [] => (formDecode name, EmptyString)
  | [] => (EmptyString, EmptyString)
  end.

(** [new URL(url).searchParams.get(name)] given the query string. *)
Definition searchParamsGet (q name : string) : option string :=
  let pieces := List.filter JS.truthy (JS.split "&" q) in
  option_map snd
    (List.find (fun kv => String.eqb (fst kv) name) (List.map pairOf pieces)).

(** [decodeURIComponent(s)]; [None] stands for the [URIError] thrown on a
    malformed escape. *)
Fixpoint decodeURIComponent (s : string) : option string :=
  match s with
  | EmptyString => Some EmptyString
  | String c s' =>
      if Ascii.eqb c "%" then
        match s' with
        | String h (String l s'') =>
            match hexValue h, hexValue l, decodeURIComponent s'' with
            | Some a, Some b, Some r => Some (String (ascii_of_N (16 * a + b)) r)
            | _, _, _ => None
            end
        | _ => None
        end
      else option_map (String c) (decodeURIComponent s')
  end.

End URL.

(** ** Effects: exceptions, the downloads directory and the event log *)

(** How a call ends: a value, or a thrown [Error] with its message. *)
Inductive outcome (A : Type) : Type :=
| Return (a : A)
| Throw (message : string).

Arguments Return {A} a.
Arguments Throw {A} message.

(** An entry of the downloads directory. *)
Inductive node : Type :=
| File (data : string)
| Directory.

(** What a call does to the outside: HTTP requests, the steps of the
    fallback, file writes and removals, and lines on stderr. *)
Inductive event : Type :=
| Fetched (url : string)
| Inferred (url : string) (filename : option string)
| Resolved (title : string)
| Queried (searchQuery : string)
| Wrote (filepath : string)
| Unlinked (filepath : string)
| Stderr (line : string).

(** The mutable part: the entries of the downloads directory, in the order
    [readdirSync] lists them, and the events so far (oldest first). *)
Record world : Type := {
  files : list (string * node);
  log : list event
}.

(** An entry of the arXiv feed: its [link] elements as (type, href). *)
Definition entry : Type := list (string * string).

(** The read-only part: the network, the clock, the directory path. *)
Record Env : Type := {
  httpGet : string -> outcome string;
  arxivApi : string -> outcome (list entry);
  now : Z;
  downloadsDir : string
}.

(** A computation reads and changes the world and returns or throws;
    [None] stands for a call that has not returned within the fuel it was
    given. *)
Definition M (A : Type) : Type := world -> option (outcome A * world).

Definition ret {A} (a : A) : M A := fun w => Some (Return a, w).

Definition throw {A} (message : string) : M A := fun w => Some (Throw message, w).

Definition bind {A B} (m : M A) (k : A -> M B) : M B :=
  fun w =>
    match m w with
    | Some (Return a, w') => k a w'
    | Some (Throw e, w') => Some (Throw e, w')
    | None => None
    end.

(** [try { m } catch (e) { handler(e) }] *)
Definition tryCatch {A} (m : M A) (handler : string -> M A) : M A :=
  fun w =>
    match m w with
    | Some (Return a, w') => Some (Return a, w')
    | Some (Throw e, w') => handler e w'
    | None => None
    end.

Definition emit (e : event) : M unit :=
  fun w => Some (Return tt, {| files := files w; log := log w ++ [e] |}).

(** An awaited call of the environment. *)
Definition await {A} (r : outcome A) : M A := fun w => Some (r, w).

Declare Scope monad_scope.
Delimit Scope monad_scope with M.
Notation "x <- m ;; k" := (bind m (fun x => k))
  (at level 61, m at next level, right associativity) : monad_scope.
Notation "m ;; k" := (bind m (fun _ => k))
  (at level 61, right associativity) : monad_scope.

(** [path.join(dir, name)] for a plain file name. *)
Definition pathJoin (dir name : string) : string := dir ++ "/" ++ name.

Module FS.

Definition lookup (name : string) (d : list (string * node)) : option node :=
  option_map snd (List.find (fun kv => String.eqb (fst kv) name) d).

Definition remove (name : string) (d : list (string * node)) : list (string * node) :=
  List.filter (fun kv => negb (String.eqb (fst kv) name)) d.

Fixpoint put (name : string) (data : string) (d : list (string * node))
  : list (string * node) :=
  match d with
  | [] => [(name, File data)]
  | (n, x) :: d' =>
      if String.eqb n name then (n, File data) :: d' else (n, x) :: put name data d'
  end.

(** The entry is a regular file. *)
Definition isFile (kv : string * node) : Prop :=
  match snd kv with File _ => True | Directory => False end.

(** [fs.readdirSync(downloadsDir)] *)
Definition readdirSync : M (list string) :=
  fun w => Some (Return (List.map fst (files w)), w).

(** [fs.writeFileSync(join(downloadsDir, name), data)]: creates or replaces
    a file; fails on a directory. *)
Definition writeFileSync (env : Env) (name data : string) : M unit :=
  fun w =>
    match lookup name (files w) with
    | Some Directory =>
        Some (Throw ("EISDIR: illegal operation on a directory, open '"
                     ++ pathJoin (downloadsDir env) name ++ "'"), w)
    | _ =>
        Some (Return tt,
              {| files := put name data (files w);
                 log := log w ++ [Wrote (pathJoin (downloadsDir env) name)] |})
    end.

(** [fs.unlinkSync(join(downloadsDir, name))]: removes a file; fails on a
    directory and on a missing entry. *)
Definition unlinkSync (env : Env) (name : string) : M unit :=
  fun w =>
    match lookup name (files w) with
    | Some (File _) =>
        Some (Return tt,
              {| files := remove name (files w);
                 log := log w ++ [Unlinked (pathJoin (downloadsDir env) name)] |})
    | Some Directory =>
        Some (Throw ("EPERM: operation not permitted, unlink '"
                     ++ pathJoin (downloadsDir env) name ++ "'"), w)
    | None =>
        Some (Throw ("ENOENT: no such file or directory, unlink '"
                     ++ pathJoin (downloadsDir env) name ++ "'"), w)
    end.

End FS.

(** [console.error(line)] *)
Definition consoleError (line : string) : M unit := emit (Stderr line).

(** [items.forEach(f)]: stops at the first throw. *)
Fixpoint forEach {A} (items : list A) (f : A -> M unit) : M unit :=
  match items with
  | [] => ret tt
  | x :: rest => bind (f x) (fun _ => forEach rest f)
  end.

(** ** The machine the extractor runs on

    Read-only for the text operations: which paths exist, whether the
    poppler tools ([pdftotext], [pdfinfo]) are installed, and, for a path
    they can open, the text of each page of the document. *)
Record Host : Type := {
  existsSync : string -> bool;
  popplerInstalled : bool;
  pdfPages : string -> option (list string)
}.

(** The command line [pdftotext [-f first] [-l last] "file" -], with the
    numbers the template literal prints into it. *)
Record pdftotextCommand : Type := {
  firstPage : option Q;
  lastPage : option Q;
  inputFile : string
}.

Module Poppler.

(** Pages [first..last] (1-based, inclusive) of a document. *)
Definition pageRange (first last : Z) (pages : list string) : list string :=
  List.firstn (Z.to_nat (last - first + 1)) (List.skipn (Z.to_nat (first - 1)) pages).

(** The value of an integer option as the tool reads it off the command
    line: [Some None] for an option that is not given, [None] for a value
    that is not written as an integer ([-f 1.5]). *)
Definition intOption (value : option Q) : option (option Z) :=
  match value with
  | None => Some None
  | Some a =>
      match JS.asInteger a with
      | Some z => Some (Some z)
      | None => None
      end
  end.

(** [execAsync(command)] for a [pdftotext] command: the tool's standard
    output. As the tool documents its options: [-f] and [-l] take an
    integer, and any other value is a usage error; without [-f] the first
    page is 1 and a value below 1 is raised to 1; without [-l], or with a
    value below 1 or past the end, the last page is the last of the
    document; a first page after the last is an error. Every error is a
    non-zero exit, so the promise rejects. *)
Definition pdftotext (h : Host) (command : pdftotextCommand) : outcome string :=
  if popplerInstalled h then
    match intOption (firstPage command), intOption (lastPage command) with
    | Some firstOption, Some lastOption =>
        match pdfPages h (inputFile command) with
        | Some pages =>
            let numPages := Z.of_nat (List.length pages) in
            let first :=
              match firstOption with
              | Some f => if f <? 1 then 1 else f
              | None => 1
              end in
            let last :=
              match lastOption with
              | Some l => if (l <? 1) || (l >? numPages) then numPages else l
              | None => numPages
              end in
            if last <? first
            then Throw "Command failed: Wrong page range given"
            else Return (String.concat EmptyString (pageRange first last pages))
        | None => Throw "Command failed: Couldn't open file"
        end
    | _, _ => Throw "Command failed: pdftotext: usage"
    end
  else Throw "Command failed: pdftotext: command not found".

(** [execAsync(`pdfinfo "file" | grep Pages`)] followed by
    [parseInt(stdout.split(':')[1].trim())]: the page count. The pipeline
    exits non-zero when [grep] sees no [Pages] line. *)
Definition pdfinfoPages (h : Host) (filepath : string) : outcome Z :=
  if popplerInstalled h then
    match pdfPages h filepath with
    | Some pages => Return (Z.of_nat (List.length pages))
    | None => Throw "Command failed: pdfinfo | grep Pages"
    end
  else Throw "Command failed: pdfinfo | grep Pages".

End Poppler.

(** ** Class [PDFUtils] *)

Module PDFUtils.

(** [isPaywalledSource]: the fixed domain list. *)
Definition paywalledDomains : list string :=
  [ "scholar.google.com"; "sciencedirect.com"; "ieee.org"; "acm.org";
    "springer.com"; "wiley.com"; "tandfonline.com"; "sagepub.com";
    "taylorfrancis.com"; "emerald.com"; "jstor.org" ].

Definition isPaywalledSource (url : string) : bool :=
  List.existsb (fun domain => JS.includes domain url) paywalledDomains.

(** The class [[_-]] *)
Definition isUnderscoreOrDash (c : ascii) : bool :=
  Ascii.eqb c "_" || Ascii.eqb c "-".

(** [a || b] on values that are a string or [null]. *)
Definition orElse (a b : option string) : option string :=
  match a with
  | Some s => if JS.truthy s then a else b
  | None => b
  end.

(** The three steps of [extractTitleFromUrl], in source order. Each yields
    [Some title] when it returns from the function and [None] when control
    falls through to the next step. *)
Definition titleFromFilename (filename : option string) : option string :=
  match filename with
  | Some f =>
      if JS.truthy f then
        let cleanFilename :=
          JS.replaceAll isUnderscoreOrDash " " (JS.stripSuffix ".pdf" f) in
        if JS.strlen cleanFilename >? 10 then Some cleanFilename else None
      else None
  | None => None
  end.

Definition titleFromParams (url : string) : option string :=
  match URL.query url with
  | Some q =>
      let titleParam :=
        orElse (URL.searchParamsGet q "title")
               (orElse (URL.searchParamsGet q "q") (URL.searchParamsGet q "query")) in
      match titleParam with
      | Some p => if JS.truthy p then URL.decodeURIComponent p else None
      | None => None
      end
  | None => None
  end.

Definition titleFromPath (url : string) : option string :=
  let pathParts := JS.split "/" url in
  let lastPart := JS.lastOf pathParts in
  if JS.truthy lastPart && (JS.strlen lastPart >? 10)
     && negb (JS.includes "." lastPart)
  then Some (JS.replaceAll isUnderscoreOrDash " " lastPart)
  else None.

Definition extractTitleFromUrl (url : string) (filename : option string)
  : option string :=
  match titleFromFilename filename with
  | Some title => Some title
  | None =>
      match titleFromParams url with
      | Some title => Some title
      | None => titleFromPath url
      end
  end.

(** [pdfUrl.match(/arxiv\.org\/pdf\/([^\/]+)/)?.[1]]: the leftmost
    occurrence of [arxiv.org/pdf/] followed by a non-empty run without
    [/]; the run is the capture. *)
Fixpoint untilSlash (s : string) : string :=
  match s with
  | EmptyString => EmptyString
  | String c s' => if Ascii.eqb c "/" then EmptyString else String c (untilSlash s')
  end.

Fixpoint arxivIdOf (s : string) : option string :=
  let here :=
    if JS.startsWith "arxiv.org/pdf/" s
    then untilSlash (JS.drop 14 s)
    else EmptyString in
  if JS.truthy here then Some here
  else match s with
       | EmptyString => None
       | String _ s' => arxivIdOf s'
       end.

(** The class [[^a-zA-Z0-9._-]] *)
Definition isUnsafe (c : ascii) : bool :=
  negb (JS.isAlpha c || JS.isDigit c
        || Ascii.eqb c "." || Ascii.eqb c "_" || Ascii.eqb c "-").

(** [filename.replace(/[^a-zA-Z0-9._-]/g, '_')] *)
Definition sanitize (filename : string) : string :=
  JS.replaceAll isUnsafe "_" filename.

(** A parameter that is [undefined] or the empty string fails [if (x)]. *)
Definition given (filename : option string) : bool :=
  match filename with
  | Some f => JS.truthy f
  | None => false
  end.

(** Lines 40-56 of [downloadPDF]: the name built from the URL when the
    caller gave none. [now] is [Date.now()]. *)
Definition filenameFromUrl (now : Z) (pdfUrl : string) : string :=
  let urlParts := JS.split "/" pdfUrl in
  let baseFilename := JS.lastOf urlParts in
  let baseFilename :=
    if JS.includes "arxiv.org" baseFilename then
      let arxivId :=
        match arxivIdOf pdfUrl with
        | Some id => id
        | None => "unknown"
        end in
      "arxiv_" ++ arxivId
    else if JS.includes "scholar.google" baseFilename then
      "scholar_" ++ JS.ofInt now
    else
      let stripped := JS.replaceFirst ".pdf" EmptyString baseFilename in
      if JS.truthy stripped then stripped else "paper_" ++ JS.ofInt now in
  baseFilename ++ ".pdf".

(** Lines 40-64 of [downloadPDF]: the value of [filename] when the file is
    written. *)
Definition storedFilename (now : Z) (pdfUrl : string) (filename : option string)
  : string :=
  let filename :=
    if given filename
    then match filename with Some f => f | None => EmptyString end
    else filenameFromUrl now pdfUrl in
  let filename :=
    if JS.endsWith ".pdf" filename then filename else filename ++ ".pdf" in
  sanitize filename.


(** *** The Alternate-Source Resolver and the Acquisition Manager *)

Local Open Scope monad_scope.

(** [entries[0].link.find(l => l.$.type === 'application/pdf')?.$.href || null]
    after [if (entries.length > 0)]; an entry without [link] elements has
    no [link] property and [.find] throws. *)
Definition pdfLinkOf (entries : list entry) : outcome (option string) :=
  match entries with
  | [] => Return None
  | [] :: _ => Throw "Cannot read properties of undefined (reading 'find')"
  | first :: _ =>
      match List.find (fun l => String.eqb (fst l) "application/pdf") first with
      | Some l => Return (if JS.truthy (snd l) then Some (snd l) else None)
      | None => Return None
      end
  end.

(** [title.replace(/[^\w\s]/g, ' ').trim()] *)
Definition fallbackQueryOf (title : string) : string :=
  JS.trim (JS.replaceAll (fun c => negb (JS.isWord c || JS.isSpace c)) " " title).

Definition findPaperOnArxiv (env : Env) (title : string) : M (option string) :=
  emit (Resolved title) ;;
  tryCatch
    (let searchQuery :=
       "ti:" ++ String JSON.dquote title ++ String JSON.dquote EmptyString in
     emit (Queried searchQuery) ;;
     entries <- await (arxivApi env searchQuery) ;;
     match entries with
     | [] =>
         let fallbackQuery := fallbackQueryOf title in
         emit (Queried fallbackQuery) ;;
         entries <- await (arxivApi env fallbackQuery) ;;
         await (pdfLinkOf entries)
     | _ :: _ => await (pdfLinkOf entries)
     end)
    (fun _ => consoleError "Error searching ArXiv for paper:" ;; ret None).

(** The [catch] block of [downloadPDF]. It sees the variable [filename]
    as the [try] block left it, so it takes that value as an argument;
    [again] is the nested call [this.downloadPDF]. The fallback yields
    [Some filepath] when the nested call returns, and [None] when control
    reaches the final [throw]. *)
Definition catchBlock (again : string -> option string -> M string) (env : Env)
  (pdfUrl : string) (filename : option string) (error : string) : M string :=
  consoleError "Error downloading PDF:" ;;
  recovered <-
    (if isPaywalledSource pdfUrl then
       consoleError "Detected paywalled source, attempting to find paper on ArXiv..." ;;
       emit (Inferred pdfUrl filename) ;;
       match extractTitleFromUrl pdfUrl filename with
       | Some paperTitle =>
           if JS.truthy paperTitle then
             tryCatch
               (arxivPdfUrl <- findPaperOnArxiv env paperTitle ;;
                match arxivPdfUrl with
                | Some substitute =>
                    consoleError ("Found paper on ArXiv: " ++ substitute) ;;
                    filepath <- again substitute filename ;;
                    ret (Some filepath)
                | None => ret None
                end)
               (fun _ => consoleError "Failed to find paper on ArXiv:" ;; ret None)
           else ret None
       | None => ret None
       end
     else ret None) ;;
  match recovered with
  | Some filepath => ret filepath
  | None => throw ("Failed to download PDF: " ++ error)
  end.

(** [downloadPDF]; the fuel bounds the depth of the nested calls. *)
Fixpoint downloadPDF (fuel : nat) (env : Env) (pdfUrl : string)
  (filename : option string) : M string :=
  match fuel with
  | O => fun _ => None
  | S fuel' =>
      emit (Fetched pdfUrl) ;;
      match httpGet env pdfUrl with
      | Throw error => catchBlock (downloadPDF fuel' env) env pdfUrl filename error
      | Return data =>
          let filename := storedFilename (now env) pdfUrl filename in
          let filepath := pathJoin (downloadsDir env) filename in
          tryCatch
            (FS.writeFileSync env filename data ;;
             consoleError ("PDF downloaded successfully: " ++ filepath) ;;
             ret filepath)
            (catchBlock (downloadPDF fuel' env) env pdfUrl (Some filename))
      end
  end.

(** *** The Page-Range Text Extractor *)

Definition extractionFailedMessage : string :=
  "PDF text extraction failed. Please ensure pdftotext is installed (brew install poppler on macOS).".

(** The command [readPDFText] builds: page options only when [startPage]
    is defined, and [-l] only inside that case. *)
Definition commandOf (filepath : string) (startPage endPage : option Q)
  : pdftotextCommand :=
  match startPage with
  | Some s => {| firstPage := Some s; lastPage := endPage; inputFile := filepath |}
  | None => {| firstPage := None; lastPage := None; inputFile := filepath |}
  end.

Definition readPDFText (h : Host) (filepath : string) (startPage endPage : option Q)
  : outcome string :=
  if negb (existsSync h filepath) then
    Throw ("Failed to read PDF: " ++ "PDF file not found: " ++ filepath)
  else
    match Poppler.pdftotext h (commandOf filepath startPage endPage) with
    | Return stdout => Return stdout
    | Throw _ => Return extractionFailedMessage
    end.

(** The result of [readPDFTextChunked]. *)
Record chunked : Type := {
  chunks : list string;
  totalPages : Z
}.

(** The [for] loop of [readPDFTextChunked], from the value [startPage] of
    its variable; [None] when the fuel does not reach the exit. The page
    count is an integer ([parseInt]); the chunk size is the caller's
    number, and so are the bounds computed from it. *)
Fixpoint chunkLoop (h : Host) (filepath : string) (chunkSize : Q) (totalPages : Z)
  (fuel : nat) (startPage : Q) : option (outcome (list string)) :=
  match fuel with
  | O => None
  | S fuel' =>
      if JS.le startPage (inject_Z totalPages) then
        let endPage := JS.min (startPage + chunkSize - 1)%Q (inject_Z totalPages) in
        match readPDFText h filepath (Some startPage) (Some endPage) with
        | Return chunkText =>
            match chunkLoop h filepath chunkSize totalPages fuel'
                    (startPage + chunkSize)%Q with
            | Some (Return rest) => Some (Return (chunkText :: rest))
            | other => other
            end
        | Throw e => Some (Throw e)
        end
      else Some (Return [])
  end.

Definition wrapChunked {A} (r : outcome A) : outcome A :=
  match r with
  | Return a => Return a
  | Throw e => Throw ("Failed to read PDF in chunks: " ++ e)
  end.

(** The steps given to the loop: one per chunk,
    [floor((totalPages - 1) / chunkSize) + 1] of them, and one for the
    exit test. *)
Definition loopSteps (chunkSize : Q) (totalPages : Z) : nat :=
  S (S (Z.to_nat (Qfloor (inject_Z (totalPages - 1) / chunkSize)))).

(** [readPDFTextChunked]. The steps given to the loop are enough whenever
    [chunkSize > 0]; with [chunkSize <= 0] the source loop never ends and
    the result is [None]. *)
Definition readPDFTextChunked (h : Host) (filepath : string) (chunkSize : Q)
  : option (outcome chunked) :=
  if negb (existsSync h filepath) then
    Some (wrapChunked (Throw ("PDF file not found: " ++ filepath)))
  else
    match Poppler.pdfinfoPages h filepath with
    | Throw e => Some (wrapChunked (Throw e))
    | Return totalPages =>
        if totalPages =? 0 then
          Some (wrapChunked (Throw "Could not determine PDF page count"))
        else
          match chunkLoop h filepath chunkSize totalPages
                  (loopSteps chunkSize totalPages) 1%Q with
          | Some (Return chunks) =>
              Some (Return {| chunks := chunks; totalPages := totalPages |})
          | Some (Throw e) => Some (wrapChunked (Throw e))
          | None => None
          end
    end.

(** *** The downloads directory *)

Definition listDownloadedPDFs (env : Env) (w : world) : list string :=
  List.map (pathJoin (downloadsDir env))
    (List.filter (JS.endsWith ".pdf") (List.map fst (files w))).

Definition cleanupDownloads (env : Env) : M unit :=
  tryCatch
    (names <- FS.readdirSync ;;
     forEach names (FS.unlinkSync env) ;;
     consoleError ("Cleaned up " ++ JS.ofInt (Z.of_nat (List.length names))
                   ++ " downloaded files"))
    (fun _ => consoleError "Error cleaning up downloads:").

(** *** [downloadAndReadPDF]

    The extractor runs on the machine the download wrote to. Its view of
    the downloads directory: a path exists when it is the path of an
    entry, and the document at the path of a file is what the tool makes
    of the file's bytes ([render], [None] for bytes it cannot open). *)
Definition dataAt (env : Env) (w : world) (path : string) : option string :=
  match List.find (fun kv => String.eqb (pathJoin (downloadsDir env) (fst kv)) path)
                  (files w) with
  | Some (_, File data) => Some data
  | _ => None
  end.

Definition hostAfter (env : Env) (installed : bool)
  (render : string -> option (list string)) (w : world) : Host :=
  {| existsSync := fun path =>
       List.existsb (fun kv => String.eqb (pathJoin (downloadsDir env) (fst kv)) path)
                    (files w);
     popplerInstalled := installed;
     pdfPages := fun path =>
       match dataAt env w path with
       | Some data => render data
       | None => None
       end |}.

Definition downloadAndReadPDF (fuel : nat) (env : Env) (installed : bool)
  (render : string -> option (list string)) (pdfUrl : string)
  (filename : option string) : M (string * string) :=
  filepath <- downloadPDF fuel env pdfUrl filename ;;
  text <- (fun w => Some (readPDFText (hostAfter env installed render w)
                            filepath None None, w)) ;;
  ret (filepath, text).

End PDFUtils.

(** ** The tool handlers of the server *)

Module Server.

(** What a tool call returns: [{content: [{type: 'text', text}]}] with
    [text = JSON.stringify(payload, null, 2)], or the outer [catch]'s
    [{content: [{type: 'text', text}], isError: true}]. *)
Inductive toolResult : Type :=
| Content (payload : JSON.value)
| IsError (text : string).

Definition textOf (r : toolResult) : string :=
  match r with
  | Content payload => JSON.stringify payload
  | IsError text => text
  end.

(** The outer [catch] of the request handler. *)
Definition caught (message : string) : toolResult := IsError ("Error: " ++ message).

(** *** [read_pdf_text] *)

(** [startPage], [endPage] and [chunkSize] are numbers (schema type
    [number]); the handler does not validate them. *)
Record ReadArgs : Type := {
  filepath : string;
  startPage : option Q;
  endPage : option Q;
  chunked : option bool;
  chunkSize : option Q
}.

Definition maxTokens : Z := 15000.

(** [responseText.length / 4] *)
Definition estimatedTokens (responseText : string) : Q :=
  inject_Z (JS.strlen responseText) / inject_Z 4.

(** [estimatedTokens <= maxTokens] *)
Definition withinBudget (responseText : string) : bool :=
  Qle_bool (estimatedTokens responseText) (inject_Z maxTokens).

(** [array.map((x, index) => f(x, index))] *)
Definition mapIndexed {A B} (f : A -> Z -> B) (items : list A) : list B :=
  List.map (fun ix => f (snd ix) (Z.of_nat (fst ix)))
           (List.combine (List.seq 0 (List.length items)) items).

(** The page window the handler reports for the chunk at [index]. *)
Definition startPageOf (currentChunkSize : Q) (index : Z) : Q :=
  (inject_Z index * currentChunkSize + 1)%Q.

Definition endPageOf (currentChunkSize : Q) (totalPages index : Z) : Q :=
  JS.min ((inject_Z index + 1) * currentChunkSize)%Q (inject_Z totalPages).

Definition chunkRecord (currentChunkSize : Q) (totalPages : Z) (chunk : string)
  (index : Z) : JSON.value :=
  JSON.Obj [ ("chunkIndex", JSON.Num (inject_Z index));
             ("startPage", JSON.Num (startPageOf currentChunkSize index));
             ("endPage", JSON.Num (endPageOf currentChunkSize totalPages index));
             ("text", JSON.Str chunk) ].

Definition chunkedResponse (filepath : string) (currentChunkSize : Q)
  (result : PDFUtils.chunked) : JSON.value :=
  JSON.Obj [ ("action", JSON.Str "read_pdf_text");
             ("filepath", JSON.Str filepath);
             ("chunked", JSON.Bool true);
             ("totalPages", JSON.Num (inject_Z (PDFUtils.totalPages result)));
             ("chunkSize", JSON.Num currentChunkSize);
             ("chunks",
              JSON.Arr (mapIndexed
                          (chunkRecord currentChunkSize (PDFUtils.totalPages result))
                          (PDFUtils.chunks result))) ].

(** The response built after the loop: page 1 only. *)
Definition firstPageResponse (filepath text : string) : JSON.value :=
  JSON.Obj [ ("action", JSON.Str "read_pdf_text");
             ("filepath", JSON.Str filepath);
             ("startPage", JSON.Num 1%Q);
             ("endPage", JSON.Num 1%Q);
             ("text", JSON.Str (JS.substring0 80000 text));
             ("truncated", JSON.Bool (JS.strlen text >? 80000));
             ("message", JSON.Str "PDF too large, showing first page only (truncated)") ].

(** An [undefined] property is left out by [JSON.stringify]. *)
Definition optionalNum (key : string) (n : option Q) : list (string * JSON.value) :=
  match n with
  | Some v => [(key, JSON.Num v)]
  | None => []
  end.

Definition plainResponse (filepath : string) (startPage endPage : option Q)
  (text : string) : JSON.value :=
  JSON.Obj ([ ("action", JSON.Str "read_pdf_text"); ("filepath", JSON.Str filepath) ]
            ++ optionalNum "startPage" startPage
            ++ optionalNum "endPage" endPage
            ++ [ ("text", JSON.Str text) ]).

(** How one pass through the body of the [while] loop ends: a [return]
    from the handler, or the next value of [currentChunkSize]. *)
Inductive pass : Type :=
| Returns (response : JSON.value)
| Continues (currentChunkSize : Q).

(** [Math.max(1, Math.floor(currentChunkSize / 2))] *)
Definition halved (currentChunkSize : Q) : Q :=
  JS.max 1%Q (JS.floor (currentChunkSize / 2)%Q).

(** The body of the [while] loop; [None] when [readPDFTextChunked] does
    not return. *)
Definition loopBody (h : Host) (filepath : string) (currentChunkSize : Q)
  : option pass :=
  match PDFUtils.readPDFTextChunked h filepath currentChunkSize with
  | Some (Return result) =>
      let response := chunkedResponse filepath currentChunkSize result in
      let responseText := JSON.stringify response in
      if withinBudget responseText then Some (Returns response)
      else Some (Continues (halved currentChunkSize))
  | Some (Throw _) => Some (Continues (halved currentChunkSize))
  | None => None
  end.

(** How the [while] loop ends: a [return] from inside, or its guard
    [currentChunkSize > 0] failing. *)
Inductive loopEnd : Type :=
| Returned (response : JSON.value)
| Exited.

(** The [while] loop from the value [currentChunkSize] of its variable.
    The first component lists the chunk sizes for which an extraction was
    attempted, in order; the second is [None] when the loop is still
    running after [fuel] guard tests. *)
Fixpoint chunkSearch (h : Host) (filepath : string) (fuel : nat)
  (currentChunkSize : Q) : list Q * option loopEnd :=
  match fuel with
  | O => ([], None)
  | S fuel' =>
      if JS.gt currentChunkSize 0%Q then
        match loopBody h filepath currentChunkSize with
        | Some (Returns response) => ([currentChunkSize], Some (Returned response))
        | Some (Continues next) =>
            let (sizes, ending) := chunkSearch h filepath fuel' next in
            (currentChunkSize :: sizes, ending)
        | None => ([currentChunkSize], None)
        end
      else ([], Some Exited)
  end.

(** The code after the loop. *)
Definition firstPageFallback (h : Host) (filepath : string) : toolResult :=
  match PDFUtils.readPDFText h filepath (Some 1%Q) (Some 1%Q) with
  | Return text => Content (firstPageResponse filepath text)
  | Throw e => caught e
  end.

(** The defaults of the destructuring [{chunked = false, chunkSize = 10}]. *)
Definition chunkedOf (args : ReadArgs) : bool :=
  match chunked args with Some b => b | None => false end.

Definition chunkSizeOf (args : ReadArgs) : Q :=
  match chunkSize args with Some n => n | None => 10%Q end.

(** The handler of [read_pdf_text]; [None] when it has not returned within
    [fuel] tests of the loop guard. *)
Definition read_pdf_text (h : Host) (fuel : nat) (args : ReadArgs)
  : option toolResult :=
  if chunkedOf args then
    let currentChunkSize := JS.min (chunkSizeOf args) 2%Q in
    match snd (chunkSearch h (filepath args) fuel currentChunkSize) with
    | Some (Returned response) => Some (Content response)
    | Some Exited => Some (firstPageFallback h (filepath args))
    | None => None
    end
  else
    match PDFUtils.readPDFText h (filepath args) (startPage args) (endPage args) with
    | Return text =>
        Some (Content (plainResponse (filepath args) (startPage args) (endPage args) text))
    | Throw e => Some (caught e)
    end.

(** The chunk sizes the handler attempts within [fuel] guard tests. *)
Definition attemptedSizes (h : Host) (fuel : nat) (args : ReadArgs) : list Q :=
  fst (chunkSearch h (filepath args) fuel (JS.min (chunkSizeOf args) 2%Q)).

(** *** [download_pdf], [list_downloaded_pdfs], [cleanup_downloads] *)

Definition download_pdf (fuel : nat) (env : Env) (pdfUrl : string)
  (filename : option string) (w : world) : option (toolResult * world) :=
  match PDFUtils.downloadPDF fuel env pdfUrl filename w with
  | Some (Return filepath, w') =>
      Some (Content (JSON.Obj [ ("action", JSON.Str "download_pdf");
                                ("pdfUrl", JSON.Str pdfUrl);
                                ("filepath", JSON.Str filepath);
                                ("message", JSON.Str "PDF downloaded successfully") ]),
            w')
  | Some (Throw e, w') => Some (caught e, w')
  | None => None
  end.

Definition list_downloaded_pdfs (env : Env) (w : world) : toolResult :=
  let downloadedPDFs := PDFUtils.listDownloadedPDFs env w in
  Content (JSON.Obj [ ("action", JSON.Str "list_downloaded_pdfs");
                      ("downloadsDirectory", JSON.Str (downloadsDir env));
                      ("files", JSON.Arr (List.map JSON.Str downloadedPDFs));
                      ("count", JSON.Num (inject_Z (Z.of_nat (List.length downloadedPDFs)))) ]).

Definition cleanupResponse : JSON.value :=
  JSON.Obj [ ("action", JSON.Str "cleanup_downloads");
             ("message", JSON.Str "All downloaded PDFs have been cleaned up") ].

Definition cleanup_downloads (env : Env) (w : world) : option (toolResult * world) :=
  match PDFUtils.cleanupDownloads env w with
  | Some (Return _, w') => Some (Content cleanupResponse, w')
  | Some (Throw e, w') => Some (caught e, w')
  | None => None
  end.

End Server.

(** ** Reading a plan back from a response *)

Module Plan.

Definition numField (key : string) (v : JSON.value) : Q :=
  match JSON.field key v with
  | Some (JSON.Num n) => n
  | _ => 0%Q
  end.

(** The (startPage, endPage) pairs of the [chunks] array of a response. *)
Definition windowsOf (response : JSON.value) : list (Q * Q) :=
  match JSON.field "chunks" response with
  | Some (JSON.Arr items) =>
      List.map (fun item => (numField "startPage" item, numField "endPage" item)) items
  | _ => []
  end.

(** The [text] of each element of the [chunks] array. *)
Definition textsOf (response : JSON.value) : list string :=
  match JSON.field "chunks" response with
  | Some (JSON.Arr items) =>
      List.map (fun item => match JSON.field "text" item with
                            | Some (JSON.Str t) => t
                            | _ => EmptyString
                            end) items
  | _ => []
  end.

(** Page [p] lies in the window [w]: pages are integers, the bounds of a
    window are the numbers the response reports. *)
Definition covers (w : Q * Q) (p : Z) : Prop :=
  (fst w <= inject_Z p /\ inject_Z p <= snd w)%Q.

(** The windows tile the pages [1..T] with pieces of at most [c] pages:
    the first starts at 1, each starts right after the one before it, the
    last ends at [T], none is empty, and each page lies in exactly one. *)
Definition tiles (c T : Q) (windows : list (Q * Q)) : Prop :=
  let n := List.length windows in
  let window i := List.nth i windows (0%Q, 0%Q) in
  (0 < n)%nat
  /\ (fst (window 0%nat) == 1)%Q
  /\ (forall i, (S i < n)%nat -> (snd (window i) + 1 == fst (window (S i)))%Q)
  /\ (snd (window (n - 1)%nat) == T)%Q
  /\ (forall i, (i < n)%nat ->
        (fst (window i) <= snd (window i))%Q
        /\ (snd (window i) - fst (window i) + 1 <= c)%Q)
  /\ (forall p : Z, (1 <= inject_Z p)%Q -> (inject_Z p <= T)%Q ->
        exists i, (i < n)%nat /\ covers (window i) p
                  /\ forall j, (j < n)%nat -> covers (window j) p -> j = i)
  /\ (forall i p, (i < n)%nat -> covers (window i) p ->
        (1 <= inject_Z p)%Q /\ (inject_Z p <= T)%Q).

(** The bound the specification states for the number of extraction
    attempts: [ceil(log2(initialChunkSize)) + 1]. For a number of at
    least 1, [ceil(log2(x))] is the least [k] with [x <= 2^k], which is
    that of the integer [ceil(x)]. *)
Definition attemptBound (initialChunkSize : Q) : Z :=
  Z.log2_up (Qceiling initialChunkSize) + 1.

End Plan.

(** ** The specification's words, for comparison with the source *)

Module Claimed.

(** The host of a URL: what stands between [//] and the next [/]. *)
Definition hostOf (url : string) : string :=
  List.nth 2 (JS.split "/" url) EmptyString.

(** The name derived when the caller supplies none: [arxiv_<id>] when the
    host indicates arxiv.org, a time-based name when it indicates
    scholar.google, else the final path segment without a trailing [.pdf],
    or a time-based name when that is empty. *)
Definition derivedName (now : Z) (url : string) : string :=
  if JS.includes "arxiv.org" (hostOf url) then
    "arxiv_" ++ match PDFUtils.arxivIdOf url with
                | Some id => id
                | None => "unknown"
                end
  else if JS.includes "scholar.google" (hostOf url) then
    "scholar_" ++ JS.ofInt now
  else
    let base := JS.stripSuffix ".pdf" (JS.lastOf (JS.split "/" url)) in
    if JS.truthy base then base else "paper_" ++ JS.ofInt now.

(** In all cases [.pdf] is appended if absent and the name is sanitized. *)
Definition storedFilename (now : Z) (url : string) : string :=
  let name := derivedName now url in
  PDFUtils.sanitize (if JS.endsWith ".pdf" name then name else name ++ ".pdf").

(** Where a candidate title comes from, in priority order. *)
Inductive source : Type :=
| CallerFilename
| QueryParameter
| PathSegment.

(** The acceptance rule as stated: longer than 10 characters, or, for the
    path segment, free of periods. *)
Definition accepts (from : source) (candidate : string) : bool :=
  (JS.strlen candidate >? 10)
  || match from with
     | PathSegment => negb (JS.includes "." candidate)
     | _ => false
     end.

End Claimed.

(** ** The candidates of title inference, in words *)

Module Title.

(** [_] and [-] turned into spaces. *)
Definition spaced (s : string) : string :=
  JS.replaceAll PDFUtils.isUnderscoreOrDash " " s.

(** A parameter that is absent or empty. *)
Definition blank (v : option string) : Prop := v = None \/ v = Some EmptyString.

(** [title] is the caller's filename without a trailing [.pdf], spaced,
    and is longer than 10 characters. *)
Definition fromFilename (filename : option string) (title : string) : Prop :=
  exists f, filename = Some f
            /\ title = spaced (JS.stripSuffix ".pdf" f)
            /\ 10 < JS.strlen title.

(** [title] is the URI-decoded value of the first non-empty parameter
    among [title], [q], [query] of a URL that parses; no length is
    required of it. *)
Definition fromParams (url : string) (title : string) : Prop :=
  exists q p,
    URL.query url = Some q
    /\ JS.truthy p = true
    /\ URL.decodeURIComponent p = Some title
    /\ (URL.searchParamsGet q "title" = Some p
        \/ (blank (URL.searchParamsGet q "title")
            /\ URL.searchParamsGet q "q" = Some p)
        \/ (blank (URL.searchParamsGet q "title")
            /\ blank (URL.searchParamsGet q "q")
            /\ URL.searchParamsGet q "query" = Some p)).

(** [title] is the final path segment, spaced; the segment is longer
    than 10 characters and has no period. *)
Definition fromPath (url : string) (title : string) : Prop :=
  let lastPart := JS.lastOf (JS.split "/" url) in
  10 < JS.strlen lastPart
  /\ JS.includes "." lastPart = false
  /\ title = spaced lastPart.

End Title.

(** ** Counting events *)

Module Trace.

Definition isFetched (e : event) : bool :=
  match e with Fetched _ => true | _ => false end.

Definition isResolved (e : event) : bool :=
  match e with Resolved _ => true | _ => false end.

Definition isInferred (e : event) : bool :=
  match e with Inferred _ _ => true | _ => false end.

(** The number of download fetches, of invocations of the
    Alternate-Source Resolver, and of title inferences in a trace. *)
Definition fetches (events : list event) : nat :=
  List.length (List.filter isFetched events).

Definition resolverCalls (events : list event) : nat :=
  List.length (List.filter isResolved events).

Definition inferences (events : list event) : nat :=
  List.length (List.filter isInferred events).

End Trace.

(** The result of a tool call carries the number [n] in one of its
    fields. *)
Definition reportsCount (r : Server.toolResult) (n : Z) : Prop :=
  match r with
  | Server.Content payload => exists key,
      JSON.field key payload = Some (JSON.Num (inject_Z n))
  | Server.IsError _ => False
  end.

(** Every PDF link the arXiv API serves is outside the paywalled list. *)
Definition substitutesFree (env : Env) : Prop :=
  forall query entries substitute,
    arxivApi env query = Return entries ->
    PDFUtils.pdfLinkOf entries = Return (Some substitute) ->
    PDFUtils.isPaywalledSource substitute = false.

(** ** Concrete machines for the examples *)

Module Demo.

Definition paper : string := "/tmp/science_mcp_downloads/paper.pdf".

(** A machine with poppler installed and one PDF, [paper], with the given
    pages. *)
Definition hostWith (pages : list string) : Host :=
  {| existsSync := fun path => String.eqb path paper;
     popplerInstalled := true;
     pdfPages := fun path => if String.eqb path paper then Some pages else None |}.

(** [count] copies of a character. *)
Fixpoint replicate (count : nat) (c : ascii) : string :=
  match count with
  | O => EmptyString
  | S n => String c (replicate n c)
  end.

(** A one-page document whose page holds 60000 characters: any response
    that carries the page is over the budget of 15000 tokens. *)
Definition longPage : string := replicate (Z.to_nat 60000) "a".

Definition fivePages : list string := ["one "; "two "; "three "; "four "; "five "].

(** The machine with the five-page document and the one with the
    one-page document too large for any response. *)
Definition fiveHost : Host := hostWith fivePages.
Definition longHost : Host := hostWith [longPage].

(** The machine with a three-page document. *)
Definition threeHost : Host := hostWith ["one "; "two "; "three "].

(** A machine without the file. *)
Definition emptyHost : Host :=
  {| existsSync := fun _ => false;
     popplerInstalled := true;
     pdfPages := fun _ => None |}.

(** *** The network *)

Definition attention : string := "https://arxiv.org/pdf/1706.03762".

Definition quoted (title : string) : string :=
  "ti:" ++ String JSON.dquote title ++ String JSON.dquote EmptyString.

(** Only the arXiv PDF can be fetched; the arXiv API knows the paper by
    its title. *)
Definition env : Env :=
  {| httpGet := fun url =>
       if String.eqb url attention then Return "%PDF-1.5 attention"
       else Throw "Request failed with status code 403";
     arxivApi := fun query =>
       if String.eqb query (quoted "Attention Is All You Need")
       then Return [[("text/html", "http://arxiv.org/abs/1706.03762");
                     ("application/pdf", attention)]]
       else Return [];
     now := 1700000000000;
     downloadsDir := "/tmp/science_mcp_downloads" |}.

(** The same network, except that the feed's first PDF link for the
    paper points to a publisher's copy, itself behind a paywall, whose
    own title leads to the arXiv PDF. *)
Definition mirror : string := "https://ieee.org/stamp?title=Attention+Is+All+You+Need+Mirror".

Definition relayEnv : Env :=
  {| httpGet := httpGet env;
     arxivApi := fun query =>
       if String.eqb query (quoted "Attention Is All You Need")
       then Return [[("application/pdf", mirror)]]
       else if String.eqb query (quoted "Attention Is All You Need Mirror")
       then Return [[("application/pdf", attention)]]
       else Return [];
     now := now env;
     downloadsDir := downloadsDir env |}.

Definition emptyWorld : world := {| files := []; log := [] |}.

(** A downloads directory holding three files. *)
Definition threeFiles : world :=
  {| files := [ ("a.pdf", File "%PDF-1.4 a");
                ("b.pdf", File "%PDF-1.4 b");
                ("notes.txt", File "notes") ];
     log := [] |}.

Definition chunkedArgs (size : option Q) : Server.ReadArgs :=
  {| Server.filepath := paper;
     Server.startPage := None;
     Server.endPage := None;
     Server.chunked := Some true;
     Server.chunkSize := size |}.

End Demo.

(** ** Class [ArxivClient]: building the search query *)

Module ArxivClient.

(** [s.toLowerCase()] on one-byte characters: A-Z and the Latin-1 capitals. *)
Definition lowerChar (c : ascii) : ascii :=
  let n := N_of_ascii c in
  if JS.between "A" "Z" c
     || (JS.between "192" "222" c && negb (Ascii.eqb c "215"))
  then ascii_of_N (n + 32)
  else c.

Fixpoint toLowerCase (s : string) : string :=
  match s with
  | EmptyString => EmptyString
  | String c s' => String (lowerChar c) (toLowerCase s')
  end.

(** [topicCategories], in the order [Object.entries] lists it. *)
Definition topicCategories : list (string * list string) :=
  [ ("quantum computing", ["quant-ph"; "cs.ET"]);
    ("quantum information", ["quant-ph"]);
    ("quantum mechanics", ["quant-ph"; "physics.atom-ph"]);
    ("machine learning", ["cs.LG"; "stat.ML"]);
    ("artificial intelligence", ["cs.AI"; "cs.LG"]);
    ("computer vision", ["cs.CV"]);
    ("natural language processing", ["cs.CL"]);
    ("deep learning", ["cs.LG"; "cs.NE"]);
    ("neural networks", ["cs.NE"; "cs.LG"]);
    ("cryptography", ["cs.CR"]);
    ("algorithms", ["cs.DS"]);
    ("physics", ["physics"]);
    ("mathematics", ["math"]);
    ("statistics", ["stat"]);
    ("biology", ["q-bio"]);
    ("economics", ["econ"]);
    ("robotics", ["cs.RO"]) ].

(** The quoted form ["s"]. *)
Definition inQuotes (s : string) : string :=
  String JSON.dquote s ++ String JSON.dquote EmptyString.

(** The query already uses the arXiv field syntax. *)
Definition hasSyntax (query : string) : bool :=
  JS.includes "cat:" query || JS.includes "ti:" query
  || JS.includes "abs:" query || JS.includes "au:" query.

(** [categories.map(cat => `cat:${cat}`).join(' OR ')] *)
Definition categoryQueryOf (categories : list string) : string :=
  String.concat " OR " (List.map (fun cat => "cat:" ++ cat) categories).

Definition optimizeQuery (query : string) : string :=
  if hasSyntax query then query
  else
    let lowerQuery := toLowerCase query in
    match List.find (fun tc => JS.includes (fst tc) lowerQuery) topicCategories with
    | Some (_, categories) =>
        "(" ++ categoryQueryOf categories ++ ") AND (ti:" ++ inQuotes query
            ++ " OR abs:" ++ inQuotes query ++ ")"
    | None =>
        let quotedQuery :=
          if JS.includes (String JSON.dquote EmptyString) query
          then query else inQuotes query in
        "ti:" ++ quotedQuery ++ " OR abs:" ++ quotedQuery
    end.

(** The query [getLatestPapers] and [searchByTopic] hand to
    [searchPapers], which sends [optimizeQuery] of it. *)
Definition latestQuery (category : string) : string :=
  if String.eqb category "all" then "all:" else "cat:" ++ category.

Definition topicQuery (topic : string) : string :=
  "all:" ++ inQuotes topic ++ " OR ti:" ++ inQuotes topic
         ++ " OR abs:" ++ inQuotes topic.

End ArxivClient.

(** ** Class [GoogleScholarClient]: reading the byline *)

Module GoogleScholarClient.

(** A position between a word character and what is not one: [\b], given
    the character before (if any) and the text from the position on. *)
Definition boundary (before : option ascii) (rest : string) : bool :=
  let left := match before with Some c => JS.isWord c | None => false end in
  let right := match rest with String c _ => JS.isWord c | EmptyString => false end in
  xorb left right.

(** [(19|20)\d{2}\b] at the head of [s]: the four characters matched. *)
Definition yearAtHead (s : string) : option string :=
  match s with
  | String a (String b (String c (String d rest))) =>
      if ((Ascii.eqb a "1" && Ascii.eqb b "9") || (Ascii.eqb a "2" && Ascii.eqb b "0"))
         && JS.isDigit c && JS.isDigit d && boundary (Some d) rest
      then Some (String a (String b (String c (String d EmptyString))))
      else None
  | _ => None
  end.

(** The leftmost match of [/\b(19|20)\d{2}\b/] in the text that follows
    the character [before]. *)
Fixpoint firstYear (before : option ascii) (s : string) : option string :=
  match (if boundary before s then yearAtHead s else None) with
  | Some year => Some year
  | None =>
      match s with
      | EmptyString => None
      | String c s' => firstYear (Some c) s'
      end
  end.

Definition extractYear (text : string) : string :=
  match firstYear None text with
  | Some year => year
  | None => EmptyString
  end.

End GoogleScholarClient.

(** ** Counting file writes *)

Module Artifacts.

Definition isWrote (e : event) : bool :=
  match e with Wrote _ => true | _ => false end.

Definition isQueried (e : event) : bool :=
  match e with Queried _ => true | _ => false end.

(** The number of file writes and of API queries in a trace. *)
Definition writes (events : list event) : nat :=
  List.length (List.filter isWrote events).

Definition queries (events : list event) : nat :=
  List.length (List.filter isQueried events).

(** The file name is made of safe characters only. *)
Definition safeName (name : string) : Prop :=
  List.Forall (fun c => PDFUtils.isUnsafe c = false) (list_ascii_of_string name).

(** What one call of [downloadPDF] from world [w] has done when it ends
    in world [w'] with outcome [r]: on a throw, nothing to the directory;
    on a return, one write, of the bytes fetched from some URL, under a
    safe name ending in [.pdf], whose path is the value returned. *)
Definition settled (env : Env) (w : world) (r : outcome string) (w' : world) : Prop :=
  exists events,
    log w' = (log w ++ events)%list
    /\ match r with
       | Throw _ => files w' = files w /\ writes events = 0%nat
       | Return filepath =>
           exists name url data,
             filepath = pathJoin (downloadsDir env) name
             /\ httpGet env url = Return data
             /\ JS.endsWith ".pdf" name = true
             /\ safeName name
             /\ files w' = FS.put name data (files w)
             /\ writes events = 1%nat
       end.

End Artifacts.

(** * Properties *)

(** ** Lists and indices *)

Section MapIndexed.

Context {A B : Type}.
Variable f : A -> Z -> B.

Lemma mapIndexed_length (items : list A) :
  List.length (Server.mapIndexed f items) = List.length items.
Proof.
  unfold Server.mapIndexed.
  rewrite List.length_map, List.length_combine, List.length_seq. lia.
Qed.

Lemma mapIndexed_nth (items : list A) (i : nat) (d : B) (d' : A) :
  (i < List.length items)%nat ->
  List.nth i (Server.mapIndexed f items) d = f (List.nth i items d') (Z.of_nat i).
Proof.
  intros Hi. unfold Server.mapIndexed.
  rewrite (List.nth_indep _ d (f d' (Z.of_nat 0))).
  - change (f d' (Z.of_nat 0))
      with ((fun ix : nat * A => f (snd ix) (Z.of_nat (fst ix))) (0%nat, d')).
    rewrite List.map_nth, List.combine_nth by (rewrite List.length_seq; reflexivity).
    simpl. rewrite List.seq_nth by assumption. reflexivity.
  - rewrite List.length_map, List.length_combine, List.length_seq. lia.
Qed.

End MapIndexed.

(** ** The primitives on concrete inputs *)

Example split_url :
  JS.split "/" "https://arxiv.org/pdf/1706.03762"
  = ["https:"; EmptyString; "arxiv.org"; "pdf"; "1706.03762"].
Proof. reflexivity. Qed.

Example ofInt_signs : (JS.ofInt 0, JS.ofInt 25, JS.ofInt (-3)) = ("0", "25", "-3").
Proof. reflexivity. Qed.

Example replaceFirst_first_only : JS.replaceFirst ".pdf" EmptyString "a.pdfx.pdf" = "ax.pdf".
Proof. reflexivity. Qed.

Example trim_both_ends : JS.trim "  a b  " = "a b".
Proof. reflexivity. Qed.

Example stringify_indents :
  JSON.stringify (JSON.Obj [("a", JSON.Num 1); ("b", JSON.Arr [JSON.Str "x"; JSON.Bool true])])
  = "{" ++ JSON.newline ++ "  " ++ JSON.quote "a" ++ ": 1," ++ JSON.newline
    ++ "  " ++ JSON.quote "b" ++ ": [" ++ JSON.newline
    ++ "    " ++ JSON.quote "x" ++ "," ++ JSON.newline
    ++ "    true" ++ JSON.newline ++ "  ]" ++ JSON.newline ++ "}".
Proof. reflexivity. Qed.

Example query_of_url :
  (URL.query "https://acm.org/doi?title=A+B%20C&q=z#frag", URL.query "no-scheme/x?q=1")
  = (Some "title=A+B%20C&q=z", None).
Proof. reflexivity. Qed.

Example searchParams_decoded :
  (URL.searchParamsGet "title=A+B%20C&q=z" "title", URL.searchParamsGet "title=A+B%20C&q=z" "query")
  = (Some "A B C", None).
Proof. reflexivity. Qed.

Example title_from_filename :
  PDFUtils.extractTitleFromUrl "https://sciencedirect.com/paper123.pdf"
    (Some "Attention_Is_All_You_Need.pdf") = Some "Attention Is All You Need".
Proof. reflexivity. Qed.

Example title_from_short_param :
  PDFUtils.extractTitleFromUrl "https://acm.org/doi?q=ab" None = Some "ab".
Proof. reflexivity. Qed.

Example title_from_short_path :
  PDFUtils.extractTitleFromUrl "https://acm.org/abc" None = None.
Proof. reflexivity. Qed.

Example stored_arxiv_pdf :
  PDFUtils.storedFilename 1700000000000 "https://arxiv.org/pdf/1706.03762" None
  = "1706.03762.pdf".
Proof. reflexivity. Qed.

Example stored_arxiv_root :
  PDFUtils.storedFilename 1700000000000 "https://arxiv.org" None = "arxiv_unknown.pdf".
Proof. reflexivity. Qed.

Example stored_empty_segment :
  PDFUtils.storedFilename 17 "https://x.org/a/" None = "paper_17.pdf".
Proof. reflexivity. Qed.

(** ** Numbers *)

(** On integers the arithmetic of numbers is that of [Z], term for term. *)
Lemma inject_add (a b : Z) : (inject_Z a + inject_Z b)%Q = inject_Z (a + b).
Proof. unfold Qplus, inject_Z. cbn. f_equal. ring. Qed.

Lemma inject_sub (a b : Z) : (inject_Z a - inject_Z b)%Q = inject_Z (a - b).
Proof. unfold Qminus, Qplus, Qopp, inject_Z. cbn. f_equal. ring. Qed.

Lemma inject_mul (a b : Z) : (inject_Z a * inject_Z b)%Q = inject_Z (a * b).
Proof. reflexivity. Qed.

Lemma inject_eq (a b : Z) : a = b -> (inject_Z a == inject_Z b)%Q.
Proof. intros ->. reflexivity. Qed.

Lemma le_inject (a b : Z) : JS.le (inject_Z a) (inject_Z b) = (a <=? b).
Proof. unfold JS.le, Qle_bool, inject_Z. cbn. rewrite !Z.mul_1_r. reflexivity. Qed.

Lemma min_inject (a b : Z) : JS.min (inject_Z a) (inject_Z b) = inject_Z (Z.min a b).
Proof.
  unfold JS.min, Qmin, GenericMinMax.gmin, Qcompare, Z.min, inject_Z. cbn.
  rewrite !Z.mul_1_r. destruct (a ?= b); reflexivity.
Qed.

Lemma max_inject (a b : Z) : JS.max (inject_Z a) (inject_Z b) = inject_Z (Z.max a b).
Proof.
  unfold JS.max, Qmax, GenericMinMax.gmax, Qcompare, Z.max, inject_Z. cbn.
  rewrite !Z.mul_1_r. destruct (a ?= b); reflexivity.
Qed.

Lemma asInteger_inject (z : Z) : JS.asInteger (inject_Z z) = Some z.
Proof.
  unfold JS.asInteger, inject_Z. cbn [Qnum Qden].
  rewrite Z.mod_1_r, Z.div_1_r. reflexivity.
Qed.

(** A number is an integer exactly when it equals one. *)
Lemma asInteger_some (a : Q) (z : Z) : JS.asInteger a = Some z -> (a == inject_Z z)%Q.
Proof.
  unfold JS.asInteger. destruct a as [n d]. cbn [Qnum Qden].
  destruct (n mod Z.pos d =? 0) eqn:E; [|discriminate].
  apply Z.eqb_eq in E. intros Heq. injection Heq as <-.
  unfold Qeq, inject_Z. cbn [Qnum Qden].
  pose proof (Z.div_mod n (Z.pos d) ltac:(lia)). nia.
Qed.

Lemma asInteger_none (a : Q) (z : Z) : JS.asInteger a = None -> ~ (a == inject_Z z)%Q.
Proof.
  unfold JS.asInteger. destruct a as [n d]. cbn [Qnum Qden].
  destruct (n mod Z.pos d =? 0) eqn:E; [discriminate|].
  apply Z.eqb_neq in E. intros _ Heq. apply E.
  unfold Qeq, inject_Z in Heq. cbn [Qnum Qden] in Heq.
  rewrite Z.mul_1_r in Heq. subst n. apply Z.mod_mul. lia.
Qed.

Lemma le_spec (a b : Q) : JS.le a b = true <-> (a <= b)%Q.
Proof. apply Qle_bool_iff. Qed.

Lemma le_false (a b : Q) : JS.le a b = false <-> (b < a)%Q.
Proof.
  unfold JS.le. split.
  - intros H. apply Qnot_le_lt. intros Hle. apply Qle_bool_iff in Hle. congruence.
  - intros H. destruct (Qle_bool a b) eqn:E; [|reflexivity].
    apply Qle_bool_iff in E. lra.
Qed.

Lemma gt_spec (a b : Q) : JS.gt a b = true <-> (b < a)%Q.
Proof.
  unfold JS.gt. rewrite negb_true_iff. apply le_false.
Qed.

Lemma gt_false (a b : Q) : JS.gt a b = false <-> (a <= b)%Q.
Proof.
  unfold JS.gt. rewrite negb_false_iff. apply le_spec.
Qed.

Lemma min_bounds (a b : Q) :
  (JS.min a b <= a)%Q /\ (JS.min a b <= b)%Q
  /\ (forall x, x <= a -> x <= b -> x <= JS.min a b)%Q
  /\ (forall x, x < a -> x < b -> x < JS.min a b)%Q.
Proof.
  unfold JS.min. split; [apply Q.le_min_l|]. split; [apply Q.le_min_r|]. split.
  - intros x Ha Hb. apply Q.min_glb; assumption.
  - intros x Ha Hb. apply Q.min_glb_lt; assumption.
Qed.

Example ofNumber_prints :
  (JS.ofNumber 3, JS.ofNumber (3 # 2), JS.ofNumber (5 # 2), JS.ofNumber (6 # 2),
   JS.ofNumber (- (1 # 4)))
  = ("3", "1.5", "2.5", "3", "-0.25").
Proof. reflexivity. Qed.

(** ** The extraction loop at any chunk size (lines 253-262) *)

Section ChunkLoop.

Variable h : Host.
Variable filepath : string.
Variable c : Q.

(** One step of the loop. *)
Lemma chunkLoop_step (T : Z) (fuel : nat) (s : Q) :
  PDFUtils.chunkLoop h filepath c T (S fuel) s
  = if JS.le s (inject_Z T) then
      match PDFUtils.readPDFText h filepath (Some s)
              (Some (JS.min (s + c - 1) (inject_Z T))) with
      | Return chunkText =>
          match PDFUtils.chunkLoop h filepath c T fuel (s + c)%Q with
          | Some (Return rest) => Some (Return (chunkText :: rest))
          | other => other
          end
      | Throw e => Some (Throw e)
      end
    else Some (Return []).
Proof. reflexivity. Qed.

(** With [chunkSize > 0] the loop reaches its exit: after [m] chunks when
    [totalPages - startPage < m * chunkSize]. *)
Lemma chunkLoop_returns (T : Z) (fuel : nat) :
  (0 < c)%Q ->
  forall (s : Q) (m : nat),
    (inject_Z T - s < inject_Z (Z.of_nat m) * c)%Q ->
    (m < fuel)%nat ->
    PDFUtils.chunkLoop h filepath c T fuel s <> None.
Proof.
  intros Hc. induction fuel as [|fuel IH]; intros s m Hm Hfuel; [lia|].
  cbn [PDFUtils.chunkLoop].
  destruct (JS.le s (inject_Z T)) eqn:Hs; [|discriminate].
  apply le_spec in Hs.
  destruct (PDFUtils.readPDFText h filepath (Some s) _); [|discriminate].
  destruct m as [|m].
  - exfalso. change (inject_Z (Z.of_nat 0)) with 0%Q in Hm. lra.
  - specialize (IH (s + c)%Q m).
    destruct (PDFUtils.chunkLoop h filepath c T fuel (s + c)%Q) as [[rest|e]|];
      try discriminate.
    apply IH; [|lia].
    rewrite Nat2Z.inj_succ in Hm. unfold Z.succ in Hm.
    rewrite inject_Z_plus in Hm. change (inject_Z 1) with 1%Q in Hm.
    set (k := inject_Z (Z.of_nat m)) in *. nra.
Qed.

(** The steps given to the loop by [readPDFTextChunked] are enough. *)
Lemma loopSteps_enough (T : Z) :
  (0 < c)%Q -> 1 <= T ->
  exists m : nat,
    (inject_Z T - 1 < inject_Z (Z.of_nat m) * c)%Q
    /\ (m < PDFUtils.loopSteps c T)%nat.
Proof.
  intros Hc HT. unfold PDFUtils.loopSteps.
  set (x := (inject_Z (T - 1) / c)%Q).
  assert (HT0 : (0 <= inject_Z (T - 1))%Q)
    by (change 0%Q with (inject_Z 0); rewrite <- Zle_Qle; lia).
  assert (Hx0 : (0 <= x)%Q)
    by (unfold x; apply Qle_shift_div_l; [exact Hc | lra]).
  assert (Hfloor : 0 <= Qfloor x)
    by (change 0 with (Qfloor 0); apply Qfloor_resp_le; exact Hx0).
  exists (S (Z.to_nat (Qfloor x))). split; [|lia].
  replace (Z.of_nat (S (Z.to_nat (Qfloor x)))) with (Qfloor x + 1) by lia.
  pose proof (Qlt_floor x) as Hlt.
  assert (Hxc : (x * c == inject_Z (T - 1))%Q) by (unfold x; field; lra).
  assert (Hmul : (x * c < inject_Z (Qfloor x + 1) * c)%Q)
    by (apply Qmult_lt_compat_r; assumption).
  rewrite <- (inject_sub T 1) in Hxc. change (inject_Z 1) with 1%Q in Hxc.
  set (k := inject_Z (Qfloor x + 1)) in *. lra.
Qed.

(** With the file present the loop does not throw: [readPDFText] returns
    a text for every window. *)
Lemma chunkLoop_no_throw (T : Z) (fuel : nat) :
  existsSync h filepath = true ->
  forall (s : Q) (e : string),
    PDFUtils.chunkLoop h filepath c T fuel s <> Some (Throw e).
Proof.
  intros Hexists. induction fuel as [|fuel IH]; intros s e; [discriminate|].
  cbn [PDFUtils.chunkLoop].
  destruct (JS.le s (inject_Z T)); [|discriminate].
  unfold PDFUtils.readPDFText at 1. rewrite Hexists. cbn [negb].
  destruct (Poppler.pdftotext h _).
  - specialize (IH (s + c)%Q e).
    destruct (PDFUtils.chunkLoop h filepath c T fuel (s + c)%Q) as [[rest|e']|];
      congruence.
  - specialize (IH (s + c)%Q e).
    destruct (PDFUtils.chunkLoop h filepath c T fuel (s + c)%Q) as [[rest|e']|];
      congruence.
Qed.

Lemma readPDFTextChunked_returns :
  (0 < c)%Q -> PDFUtils.readPDFTextChunked h filepath c <> None.
Proof.
  intros Hc. unfold PDFUtils.readPDFTextChunked.
  destruct (negb (existsSync h filepath)); [discriminate|].
  unfold Poppler.pdfinfoPages.
  destruct (popplerInstalled h); [|discriminate].
  destruct (pdfPages h filepath) as [pages|]; [|discriminate].
  destruct (Z.of_nat (List.length pages) =? 0) eqn:HT; [discriminate|].
  apply Z.eqb_neq in HT.
  destruct (loopSteps_enough (Z.of_nat (List.length pages)) Hc ltac:(lia))
    as (m & Hm & Hsteps).
  pose proof (chunkLoop_returns (Z.of_nat (List.length pages)) _ Hc 1%Q m Hm Hsteps)
    as Hloop.
  destruct (PDFUtils.chunkLoop h filepath c _ _ 1%Q) as [[texts|e]|];
    try discriminate.
  congruence.
Qed.

Lemma readPDFTextChunked_inv (result : PDFUtils.chunked) :
  PDFUtils.readPDFTextChunked h filepath c = Some (Return result) ->
  1 <= PDFUtils.totalPages result
  /\ PDFUtils.chunkLoop h filepath c (PDFUtils.totalPages result)
       (PDFUtils.loopSteps c (PDFUtils.totalPages result)) 1%Q
     = Some (Return (PDFUtils.chunks result)).
Proof.
  unfold PDFUtils.readPDFTextChunked.
  destruct (negb (existsSync h filepath)); [discriminate|].
  unfold Poppler.pdfinfoPages.
  destruct (popplerInstalled h); [|discriminate].
  destruct (pdfPages h filepath) as [pages|]; [|discriminate].
  destruct (Z.of_nat (List.length pages) =? 0) eqn:HT; [discriminate|].
  apply Z.eqb_neq in HT.
  destruct (PDFUtils.chunkLoop h filepath c _ _ 1%Q) as [[texts|e]|] eqn:Hloop;
    try discriminate.
  intros Heq. injection Heq as <-. cbn [PDFUtils.totalPages PDFUtils.chunks].
  split; [lia | exact Hloop].
Qed.

Lemma windowsOf_chunkedResponse (result : PDFUtils.chunked) :
  Plan.windowsOf (Server.chunkedResponse filepath c result)
  = Server.mapIndexed
      (fun (_ : string) index =>
         (Server.startPageOf c index,
          Server.endPageOf c (PDFUtils.totalPages result) index))
      (PDFUtils.chunks result).
Proof.
  unfold Plan.windowsOf, Server.chunkedResponse. cbn [JSON.field List.find fst snd].
  cbn. unfold Server.mapIndexed. rewrite List.map_map. reflexivity.
Qed.

Lemma textsOf_chunkedResponse (result : PDFUtils.chunked) :
  Plan.textsOf (Server.chunkedResponse filepath c result) = PDFUtils.chunks result.
Proof.
  unfold Plan.textsOf, Server.chunkedResponse. cbn.
  unfold Server.mapIndexed. rewrite List.map_map. cbn.
  generalize 0%nat. induction (PDFUtils.chunks result) as [|t ts IH]; intros n.
  - reflexivity.
  - cbn. f_equal. apply IH.
Qed.

End ChunkLoop.

(** ** The chunk plan at an integer chunk size (lines 253-262 and 662-667) *)

Section ChunkPlan.

Variable h : Host.
Variable filepath : string.
Variable c : Z.
Hypothesis c_positive : 1 <= c.

(** One step of the loop on integers. *)
Lemma chunkLoop_integer_step (T : Z) (fuel : nat) (s : Z) :
  PDFUtils.chunkLoop h filepath (inject_Z c) T (S fuel) (inject_Z s)
  = if s <=? T then
      match PDFUtils.readPDFText h filepath (Some (inject_Z s))
              (Some (inject_Z (Z.min (s + c - 1) T))) with
      | Return chunkText =>
          match PDFUtils.chunkLoop h filepath (inject_Z c) T fuel (inject_Z (s + c)) with
          | Some (Return rest) => Some (Return (chunkText :: rest))
          | other => other
          end
      | Throw e => Some (Throw e)
      end
    else Some (Return []).
Proof.
  cbn [PDFUtils.chunkLoop]. rewrite le_inject, inject_add.
  change 1%Q with (inject_Z 1). rewrite inject_sub, min_inject. reflexivity.
Qed.

(** The windows the handler reports are integers. *)
Lemma window_integer (T index : Z) :
  Server.startPageOf (inject_Z c) index = inject_Z (index * c + 1)
  /\ Server.endPageOf (inject_Z c) T index = inject_Z (Z.min ((index + 1) * c) T).
Proof.
  unfold Server.startPageOf, Server.endPageOf.
  change 1%Q with (inject_Z 1).
  rewrite inject_mul, !inject_add, inject_mul, min_inject. split; reflexivity.
Qed.

(** What a successful run of the extraction loop from [s] has produced:
    one text per window [s + k*c .. min(s + k*c + c - 1, T)]. *)
Lemma chunkLoop_shape (T : Z) (fuel : nat) :
  forall (s : Z) (texts : list string),
    PDFUtils.chunkLoop h filepath (inject_Z c) T fuel (inject_Z s)
    = Some (Return texts) ->
    Z.of_nat (List.length texts) = (if s <=? T then (T - s) / c + 1 else 0)
    /\ forall k : nat,
        (k < List.length texts)%nat ->
        PDFUtils.readPDFText h filepath
          (Some (inject_Z (s + Z.of_nat k * c)))
          (Some (inject_Z (Z.min (s + Z.of_nat k * c + c - 1) T)))
        = Return (List.nth k texts EmptyString).
Proof.
  induction fuel as [|fuel IH]; intros s texts Hrun.
  - discriminate.
  - rewrite chunkLoop_integer_step in Hrun. destruct (s <=? T) eqn:Hs.
    + destruct (PDFUtils.readPDFText h filepath (Some (inject_Z s))
                  (Some (inject_Z (Z.min (s + c - 1) T)))) as [text|e] eqn:Hread;
        [|discriminate].
      destruct (PDFUtils.chunkLoop h filepath (inject_Z c) T fuel (inject_Z (s + c)))
        as [[rest|e]|] eqn:Hrest; try discriminate.
      injection Hrun as <-.
      destruct (IH _ _ Hrest) as [Hlen Hnth].
      apply Z.leb_le in Hs. split.
      * cbn [List.length]. rewrite Nat2Z.inj_succ, Hlen.
        destruct (s + c <=? T) eqn:Hsc.
        -- apply Z.leb_le in Hsc.
           replace (T - s) with ((T - (s + c)) + 1 * c) by lia.
           rewrite Z.div_add by lia. lia.
        -- apply Z.leb_gt in Hsc.
           rewrite Z.div_small by lia. lia.
      * intros [|k] Hk.
        -- cbn [List.nth]. rewrite <- Hread.
           replace (s + Z.of_nat 0 * c) with s by (simpl; ring).
           reflexivity.
        -- cbn [List.nth]. cbn [List.length] in Hk.
           rewrite <- (Hnth k) by lia.
           replace (s + Z.of_nat (S k) * c) with (s + c + Z.of_nat k * c)
             by (rewrite Nat2Z.inj_succ; ring).
           reflexivity.
    + injection Hrun as <-. split; [reflexivity|].
      intros k Hk. inversion Hk.
Qed.

Lemma chunked_result_tiles (result : PDFUtils.chunked) :
  PDFUtils.readPDFTextChunked h filepath (inject_Z c) = Some (Return result) ->
  let windows := Plan.windowsOf (Server.chunkedResponse filepath (inject_Z c) result) in
  1 <= PDFUtils.totalPages result
  /\ Plan.tiles (inject_Z c) (inject_Z (PDFUtils.totalPages result)) windows
  /\ List.length windows = List.length (PDFUtils.chunks result)
  /\ (forall i, (i < List.length windows)%nat ->
        PDFUtils.readPDFText h filepath
          (Some (fst (List.nth i windows (0%Q, 0%Q))))
          (Some (snd (List.nth i windows (0%Q, 0%Q))))
        = Return (List.nth i (PDFUtils.chunks result) EmptyString)).
Proof.
  intros Hrun windows.
  destruct (readPDFTextChunked_inv h filepath (inject_Z c) result Hrun) as [HT Hloop].
  change 1%Q with (inject_Z 1) in Hloop.
  destruct (chunkLoop_shape _ _ _ _ Hloop) as [Hlen Htexts].
  set (T := PDFUtils.totalPages result) in *.
  set (texts := PDFUtils.chunks result) in *.
  assert (HlenT : Z.of_nat (List.length texts) = (T - 1) / c + 1).
  { rewrite Hlen. destruct (1 <=? T) eqn:E; [reflexivity|].
    apply Z.leb_gt in E. lia. }
  assert (Hq : 0 <= (T - 1) / c) by (apply Z.div_pos; lia).
  assert (Hlo : c * ((T - 1) / c) <= T - 1)
    by (apply Z.mul_div_le; lia).
  assert (Hhi : T - 1 < c * ((T - 1) / c + 1)).
  { pose proof (Z.mod_pos_bound (T - 1) c ltac:(lia)).
    pose proof (Z.div_mod (T - 1) c ltac:(lia)). lia. }
  assert (Hw : windows = Server.mapIndexed
                 (fun (_ : string) index =>
                    (Server.startPageOf (inject_Z c) index,
                     Server.endPageOf (inject_Z c) T index)) texts)
    by apply windowsOf_chunkedResponse.
  assert (Hn : List.length windows = List.length texts)
    by (rewrite Hw; apply mapIndexed_length).
  assert (Hnth : forall i, (i < List.length texts)%nat ->
            List.nth i windows (0%Q, 0%Q)
            = (inject_Z (Z.of_nat i * c + 1),
               inject_Z (Z.min ((Z.of_nat i + 1) * c) T))).
  { intros i Hi. rewrite Hw.
    rewrite (mapIndexed_nth _ texts i (0%Q, 0%Q) EmptyString Hi).
    destruct (window_integer T (Z.of_nat i)) as [-> ->]. reflexivity. }
  assert (Hfull : forall i, (S i < List.length texts)%nat ->
            (Z.of_nat i + 1) * c <= T - 1) by (intros i Hi; nia).
  split; [exact HT|]. split; [|split; [exact Hn|]].
  - unfold Plan.tiles. rewrite Hn.
    split; [lia|]. split; [rewrite Hnth by lia; apply inject_eq; lia|].
    split; [|split; [|split; [|split]]].
    + intros i Hi. rewrite !Hnth by lia. cbn [fst snd].
      change 1%Q with (inject_Z 1). rewrite inject_add. apply inject_eq.
      specialize (Hfull i Hi). rewrite Nat2Z.inj_succ. lia.
    + rewrite Hnth by lia. cbn [snd]. apply inject_eq.
      replace (Z.of_nat (List.length texts - 1) + 1)
        with (Z.of_nat (List.length texts)) by lia.
      rewrite HlenT. lia.
    + intros i Hi. rewrite Hnth by lia. cbn [fst snd].
      change 1%Q with (inject_Z 1). rewrite inject_sub, inject_add, <- !Zle_Qle.
      assert (Z.of_nat i * c <= T - 1) by nia. nia.
    + intros p Hp1 Hp2.
      change 1%Q with (inject_Z 1) in Hp1. rewrite <- Zle_Qle in Hp1, Hp2.
      assert (Hpq : 0 <= (p - 1) / c) by (apply Z.div_pos; lia).
      assert (Hplo : c * ((p - 1) / c) <= p - 1) by (apply Z.mul_div_le; lia).
      assert (Hphi : p - 1 < c * ((p - 1) / c + 1)).
      { pose proof (Z.mod_pos_bound (p - 1) c ltac:(lia)).
        pose proof (Z.div_mod (p - 1) c ltac:(lia)). lia. }
      assert (Hple : (p - 1) / c <= (T - 1) / c)
        by (apply Z.div_le_mono; lia).
      exists (Z.to_nat ((p - 1) / c)).
      split; [lia|]. split.
      * rewrite Hnth by lia. unfold Plan.covers. cbn [fst snd].
        rewrite <- !Zle_Qle. rewrite Z2Nat.id by lia. lia.
      * intros j Hj. rewrite Hnth by lia. unfold Plan.covers. cbn [fst snd].
        rewrite <- !Zle_Qle. intros [Hj1 Hj2].
        assert (Z.of_nat j = (p - 1) / c); [|lia].
        apply Z.div_unique with (r := p - 1 - c * Z.of_nat j); lia.
    + intros i p Hi. rewrite Hnth by lia. unfold Plan.covers. cbn [fst snd].
      change 1%Q with (inject_Z 1). rewrite <- !Zle_Qle.
      intros [Hp1 Hp2]. nia.
  - intros i Hi. rewrite Hn in Hi. rewrite Hnth by lia. cbn [fst snd].
    rewrite <- (Htexts i Hi). do 2 f_equal.
    + f_equal. lia.
    + do 2 f_equal. lia.
Qed.

End ChunkPlan.

(** ** The search over chunk sizes (lines 649-693) *)

Section ChunkSearch.

Variable h : Host.
Variable filepath : string.

(** The next size is an integer, at least 1. *)
Lemma halved_integer (c : Q) :
  Server.halved c = inject_Z (Z.max 1 (Qfloor (c / 2))).
Proof.
  unfold Server.halved, JS.floor. change 1%Q with (inject_Z 1). apply max_inject.
Qed.

Lemma halved_least (c : Q) : (1 <= Server.halved c)%Q.
Proof. unfold Server.halved, JS.max. apply Q.le_max_l. Qed.

Lemma halved_bounds (c : Q) : (1 <= c)%Q -> (1 <= Server.halved c <= c)%Q.
Proof.
  intros Hc. split; [apply halved_least|].
  unfold Server.halved, JS.max, JS.floor. apply Q.max_lub; [exact Hc|].
  pose proof (Qfloor_le (c / 2)) as Hfloor.
  assert (Hhalf : (c / 2 == c * (1 # 2))%Q) by (unfold Qdiv; reflexivity).
  lra.
Qed.

(** Below 4 the next size is 1. *)
Lemma halved_small (c : Q) : (c < 4)%Q -> Server.halved c = 1%Q.
Proof.
  intros Hc. rewrite halved_integer. change 1%Q with (inject_Z 1). f_equal.
  assert (Hfloor : Qfloor (c / 2) <= 1).
  { assert (Hlt : (c / 2 < 2)%Q)
      by (apply Qlt_shift_div_r; [reflexivity | lra]).
    pose proof (Qfloor_le (c / 2)) as Hle.
    assert (Hq : (inject_Z (Qfloor (c / 2)) < inject_Z 2)%Q)
      by (change (inject_Z 2) with 2%Q; lra).
    rewrite <- Zlt_Qlt in Hq. lia. }
  lia.
Qed.

Lemma loopBody_continues (c next : Q) :
  Server.loopBody h filepath c = Some (Server.Continues next) ->
  next = Server.halved c.
Proof.
  unfold Server.loopBody.
  destruct (PDFUtils.readPDFTextChunked h filepath c) as [[result|e]|];
    [ destruct (Server.withinBudget _) | | ]; congruence.
Qed.

(** From a positive size the body of the loop always ends. *)
Lemma loopBody_ends (c : Q) : (0 < c)%Q -> Server.loopBody h filepath c <> None.
Proof.
  intros Hc. unfold Server.loopBody.
  pose proof (readPDFTextChunked_returns h filepath c Hc) as Hret.
  destruct (PDFUtils.readPDFTextChunked h filepath c) as [[result|e]|];
    [ destruct (Server.withinBudget _) | | ]; congruence.
Qed.

(** Every size tried is at least 1 and no larger than the one before it. *)
Lemma chunkSearch_sizes (fuel : nat) :
  forall c : Q,
    (1 <= c)%Q ->
    let sizes := fst (Server.chunkSearch h filepath fuel c) in
    List.Forall (fun size => 1 <= size <= c)%Q sizes
    /\ forall i, (S i < List.length sizes)%nat ->
                 (List.nth (S i) sizes 0 <= List.nth i sizes 0)%Q.
Proof.
  induction fuel as [|fuel IH]; intros c Hc; cbn [Server.chunkSearch].
  - split; [constructor | intros i Hi; inversion Hi].
  - destruct (JS.gt c 0) eqn:Hpos; [|apply gt_false in Hpos; lra].
    destruct (Server.loopBody h filepath c) as [[response|next]|] eqn:Hbody.
    + split; [repeat constructor; lra | intros i Hi; cbn in Hi; lia].
    + apply loopBody_continues in Hbody. subst next.
      pose proof (halved_bounds c Hc) as Hh.
      specialize (IH (Server.halved c) (proj1 Hh)).
      destruct (Server.chunkSearch h filepath fuel (Server.halved c))
        as [sizes ending] eqn:Hsearch.
      cbn [fst] in *. destruct IH as [Hall Hsorted]. split.
      * constructor; [lra|].
        eapply List.Forall_impl; [|exact Hall]. cbn. intros; lra.
      * intros [|i] Hi; cbn [List.nth List.length] in *.
        -- destruct sizes as [|s0 sizes]; [cbn in Hi; lia|].
           inversion Hall; subst. cbn. lra.
        -- apply Hsorted. lia.
    + split; [repeat constructor; lra | intros i Hi; cbn in Hi; lia].
Qed.

(** From a positive size the guard of the loop never fails: the code
    after the loop is not reached. *)
Lemma chunkSearch_never_exits (fuel : nat) :
  forall c : Q,
    (0 < c)%Q -> snd (Server.chunkSearch h filepath fuel c) <> Some Server.Exited.
Proof.
  induction fuel as [|fuel IH]; intros c Hc; cbn [Server.chunkSearch].
  - discriminate.
  - destruct (JS.gt c 0) eqn:Hpos; [|apply gt_false in Hpos; lra].
    destruct (Server.loopBody h filepath c) as [[response|next]|] eqn:Hbody;
      try discriminate.
    apply loopBody_continues in Hbody. subst next.
    pose proof (halved_least c) as Hh.
    specialize (IH (Server.halved c) ltac:(lra)).
    destruct (Server.chunkSearch h filepath fuel (Server.halved c)). exact IH.
Qed.

(** A plan returned by the loop started at a size of at most 2 was built
    by its body at that size, or at size 1. *)
Lemma chunkSearch_returned (fuel : nat) :
  forall (c : Q) (response : JSON.value),
    (0 < c)%Q -> (c <= 2)%Q ->
    snd (Server.chunkSearch h filepath fuel c) = Some (Server.Returned response) ->
    exists size, (size = c \/ size = 1%Q)
                 /\ Server.loopBody h filepath size = Some (Server.Returns response).
Proof.
  induction fuel as [|fuel IH]; intros c response Hc Hc2; cbn [Server.chunkSearch].
  - discriminate.
  - destruct (JS.gt c 0) eqn:Hpos; [|apply gt_false in Hpos; lra].
    destruct (Server.loopBody h filepath c) as [[r|next]|] eqn:Hbody;
      try discriminate.
    + cbn. intros Heq. injection Heq as <-. exists c. split; [left; reflexivity | exact Hbody].
    + apply loopBody_continues in Hbody. subst next.
      rewrite (halved_small c) by lra.
      specialize (IH 1%Q response ltac:(lra) ltac:(lra)).
      destruct (Server.chunkSearch h filepath fuel 1%Q).
      cbn [snd] in *. intros Heq. destruct (IH Heq) as [size [Hsize Hrun]].
      exists size. split; [right; destruct Hsize; assumption | exact Hrun].
Qed.

(** Once the body asks for another pass at size 1, the loop is stuck: the
    next size is again 1. *)
Lemma chunkSearch_stuck_at_one (fuel : nat) :
  Server.loopBody h filepath 1%Q = Some (Server.Continues 1%Q) ->
  Server.chunkSearch h filepath fuel 1%Q = (List.repeat 1%Q fuel, None).
Proof.
  intros Hbody. induction fuel as [|fuel IH]; cbn [Server.chunkSearch].
  - reflexivity.
  - change (JS.gt 1 0) with true. cbv iota. rewrite Hbody, IH. reflexivity.
Qed.

Lemma chunkSearch_stuck_from_two (fuel : nat) :
  Server.loopBody h filepath 2%Q = Some (Server.Continues 1%Q) ->
  Server.loopBody h filepath 1%Q = Some (Server.Continues 1%Q) ->
  Server.chunkSearch h filepath (S fuel) 2%Q = (2%Q :: List.repeat 1%Q fuel, None).
Proof.
  intros H2 H1. cbn [Server.chunkSearch]. change (JS.gt 2 0) with true. cbv iota.
  rewrite H2, (chunkSearch_stuck_at_one fuel H1). reflexivity.
Qed.

(** From a size of zero or less the guard fails at once. *)
Lemma chunkSearch_skips (fuel : nat) (c : Q) :
  (c <= 0)%Q -> Server.chunkSearch h filepath (S fuel) c = ([], Some Server.Exited).
Proof.
  intros Hc. cbn [Server.chunkSearch].
  apply gt_false in Hc. rewrite Hc. reflexivity.
Qed.

End ChunkSearch.

(** ** The handler of [read_pdf_text] in chunked mode *)

(** The budget in characters: 15000 tokens of 4 characters. *)
Lemma withinBudget_chars (responseText : string) :
  Server.withinBudget responseText = (JS.strlen responseText <=? 60000).
Proof.
  unfold Server.withinBudget, Server.estimatedTokens, Server.maxTokens.
  unfold Qle_bool, Qdiv, Qmult, Qinv, inject_Z. cbn [Qnum Qden].
  destruct (Z.leb_spec (JS.strlen responseText) 60000);
    [apply Z.leb_le | apply Z.leb_gt]; lia.
Qed.

Lemma loopBody_returns_inv (h : Host) (filepath : string) (c : Q)
  (response : JSON.value) :
  Server.loopBody h filepath c = Some (Server.Returns response) ->
  exists result,
    PDFUtils.readPDFTextChunked h filepath c = Some (Return result)
    /\ response = Server.chunkedResponse filepath c result
    /\ Server.withinBudget (JSON.stringify response) = true.
Proof.
  unfold Server.loopBody.
  destruct (PDFUtils.readPDFTextChunked h filepath c) as [[result|e]|];
    try discriminate.
  destruct (Server.withinBudget _) eqn:Hfits; [|discriminate].
  intros Heq. injection Heq as <-. exists result. auto.
Qed.

Lemma substring0_length (n : nat) :
  forall s : string, (String.length (String.substring 0 n s) <= n)%nat.
Proof.
  induction n as [|n IH]; intros [|c s]; cbn; try lia.
  specialize (IH s). lia.
Qed.

Lemma substring0_bound (limit : Z) (s : string) :
  0 <= limit -> JS.strlen (JS.substring0 limit s) <= limit.
Proof.
  intros Hl. unfold JS.strlen, JS.substring0.
  pose proof (substring0_length (Z.to_nat limit) s). lia.
Qed.

(** The page-1 request on a machine where the tool opens the document. *)
Lemma readPDFText_first_page (h : Host) (filepath page : string) (rest : list string) :
  existsSync h filepath = true ->
  popplerInstalled h = true ->
  pdfPages h filepath = Some (page :: rest) ->
  PDFUtils.readPDFText h filepath (Some 1%Q) (Some 1%Q) = Return page.
Proof.
  intros Hex Hinst Hpages. unfold PDFUtils.readPDFText, Poppler.pdftotext.
  rewrite Hex. cbn [negb PDFUtils.commandOf inputFile firstPage lastPage].
  change (Poppler.intOption (Some 1%Q)) with (Some (Some 1)).
  rewrite Hinst, Hpages.
  assert (Hlast : (1 >? Z.of_nat (List.length (page :: rest))) = false).
  { pose proof (Nat2Z.inj_succ (List.length rest)) as Hsucc.
    change (S (List.length rest)) with (List.length (page :: rest)) in Hsucc.
    destruct (1 >? Z.of_nat (List.length (page :: rest))) eqn:E; [lia | reflexivity]. }
  rewrite Hlast. reflexivity.
Qed.

(** With the file present the extractor returns: it does not throw. *)
Lemma readPDFText_total (h : Host) (filepath : string) (startPage endPage : option Q) :
  existsSync h filepath = true ->
  exists text, PDFUtils.readPDFText h filepath startPage endPage = Return text.
Proof.
  intros Hex. unfold PDFUtils.readPDFText. rewrite Hex. cbn [negb].
  destruct (Poppler.pdftotext h _) as [stdout|e]; eauto.
Qed.

(** A plan the chunked handler returns was built inside the loop, at the
    starting size [min(chunkSize, 2)] or at size 1. *)
Lemma returned_plan_inv (h : Host) (fuel : nat) (args : Server.ReadArgs)
  (response : JSON.value) :
  Server.chunkedOf args = true ->
  (0 < Server.chunkSizeOf args)%Q ->
  Server.read_pdf_text h fuel args = Some (Server.Content response) ->
  exists size result,
    (size = JS.min (Server.chunkSizeOf args) 2 \/ size = 1%Q)
    /\ PDFUtils.readPDFTextChunked h (Server.filepath args) size = Some (Return result)
    /\ response = Server.chunkedResponse (Server.filepath args) size result
    /\ Server.withinBudget (JSON.stringify response) = true.
Proof.
  intros Hchunked Hsize Hrun.
  unfold Server.read_pdf_text in Hrun. rewrite Hchunked in Hrun.
  destruct (min_bounds (Server.chunkSizeOf args) 2) as (_ & Hle2 & _ & Hglb).
  assert (Hstart : (0 < JS.min (Server.chunkSizeOf args) 2)%Q)
    by (apply Hglb; [exact Hsize | reflexivity]).
  pose proof (chunkSearch_never_exits h (Server.filepath args) fuel _ Hstart) as Hexit.
  pose proof (chunkSearch_returned h (Server.filepath args) fuel
                (JS.min (Server.chunkSizeOf args) 2) response Hstart Hle2) as Hret.
  destruct (snd (Server.chunkSearch h (Server.filepath args) fuel
                   (JS.min (Server.chunkSizeOf args) 2)))
    as [[r|]|]; try congruence.
  injection Hrun as ->.
  destruct (Hret eq_refl) as [size [Hwhich Hbody]].
  destruct (loopBody_returns_inv _ _ _ _ Hbody) as [result [Hchunks [Heq Hfits]]].
  exists size, result. auto.
Qed.

(** With a requested size of 0 or less, what the handler returns is not a
    plan: it has no [chunkSize]. *)
Lemma nonpositive_request_no_plan (h : Host) (fuel : nat) (args : Server.ReadArgs)
  (response : JSON.value) :
  Server.chunkedOf args = true ->
  (Server.chunkSizeOf args <= 0)%Q ->
  Server.read_pdf_text h fuel args = Some (Server.Content response) ->
  JSON.field "chunkSize" response = None.
Proof.
  intros Hchunked Hsize. unfold Server.read_pdf_text. rewrite Hchunked.
  destruct (min_bounds (Server.chunkSizeOf args) 2) as (Hle & _).
  destruct fuel as [|fuel]; [discriminate|].
  rewrite chunkSearch_skips by lra. cbn [snd].
  unfold Server.firstPageFallback.
  destruct (PDFUtils.readPDFText h (Server.filepath args) (Some 1%Q) (Some 1%Q));
    [|discriminate].
  intros Heq. injection Heq as <-. reflexivity.
Qed.

(** C5, amended. Every plan the chunked [read_pdf_text] returns whose
    working chunk size [c], the one it reports, is an integer partitions
    the pages: with [T] the reported total page count, [T >= 1],
    [1 <= c <= 2], the first window starts at page 1, each window's end
    page plus one is the next window's start page, the last window ends
    at [T], no window is empty or longer than [c], every page of [1..T]
    lies in exactly one window and no window holds a page outside
    [1..T]; and the text of each chunk is what the extractor returns for
    its window. *)
Theorem chunk_plan_partitions_pages :
  forall (h : Host) (fuel : nat) (args : Server.ReadArgs) (response : JSON.value)
         (c : Z),
    Server.chunkedOf args = true ->
    Server.read_pdf_text h fuel args = Some (Server.Content response) ->
    JSON.field "chunkSize" response = Some (JSON.Num (inject_Z c)) ->
    let T := Plan.numField "totalPages" response in
    let windows := Plan.windowsOf response in
    (1 <= T)%Q
    /\ 1 <= c <= 2
    /\ Plan.tiles (inject_Z c) T windows
    /\ List.length (Plan.textsOf response) = List.length windows
    /\ forall i, (i < List.length windows)%nat ->
         PDFUtils.readPDFText h (Server.filepath args)
           (Some (fst (List.nth i windows (0%Q, 0%Q))))
           (Some (snd (List.nth i windows (0%Q, 0%Q))))
         = Return (List.nth i (Plan.textsOf response) EmptyString).
Proof.
  intros h fuel args response c Hchunked Hrun Hreported.
  destruct (Qlt_le_dec 0 (Server.chunkSizeOf args)) as [Hsize | Hsize];
    [|rewrite (nonpositive_request_no_plan h fuel args response Hchunked Hsize Hrun)
        in Hreported; discriminate].
  destruct (returned_plan_inv h fuel args response Hchunked Hsize Hrun)
    as (size & result & Hwhich & Hchunks & -> & _).
  assert (Hc : size = inject_Z c).
  { cbn in Hreported. congruence. }
  subst size.
  assert (Hbounds : (0 < inject_Z c)%Q /\ (inject_Z c <= 2)%Q).
  { destruct (min_bounds (Server.chunkSizeOf args) 2) as (_ & Hle2 & _ & Hglb).
    destruct Hwhich as [Hmin | Hone].
    - rewrite <- Hmin in Hle2. split; [|exact Hle2].
      rewrite Hmin. apply Hglb; [exact Hsize | reflexivity].
    - rewrite Hone. split; [reflexivity | discriminate]. }
  destruct Hbounds as [Hpos Htwo].
  change 0%Q with (inject_Z 0) in Hpos. change 2%Q with (inject_Z 2) in Htwo.
  rewrite <- Zlt_Qlt in Hpos. rewrite <- Zle_Qle in Htwo.
  assert (Hone : 1 <= c) by lia.
  destruct (chunked_result_tiles h (Server.filepath args) c Hone result Hchunks)
    as [HT [Htiles [Hlen Htexts]]].
  rewrite textsOf_chunkedResponse.
  change (Plan.numField "totalPages"
            (Server.chunkedResponse (Server.filepath args) (inject_Z c) result))
    with (inject_Z (PDFUtils.totalPages result)).
  split; [change 1%Q with (inject_Z 1); rewrite <- Zle_Qle; exact HT|].
  split; [lia|]. split; [exact Htiles|].
  split; [symmetry; exact Hlen | exact Htexts].
Qed.

(** The plan returned for the five-page document: chunk size 2. *)
Lemma chunk_plan_partitions_pages_witness :
  exists response,
    Server.chunkedOf (Demo.chunkedArgs (Some 10%Q)) = true
    /\ Server.read_pdf_text Demo.fiveHost 1 (Demo.chunkedArgs (Some 10%Q))
       = Some (Server.Content response)
    /\ JSON.field "chunkSize" response = Some (JSON.Num (inject_Z 2))
    /\ Plan.windowsOf response = [(1, 2); (3, 4); (5, 5)]%Q
    /\ Plan.tiles 2 5 (Plan.windowsOf response).
Proof.
  eexists. split; [reflexivity|]. split; [vm_compute; reflexivity|].
  split; [reflexivity|]. split; [reflexivity|].
  refine (proj1 (proj2 (proj2
    (chunk_plan_partitions_pages Demo.fiveHost 1 (Demo.chunkedArgs (Some 10%Q)) _ 2
       eq_refl eq_refl eq_refl)))).
Defined.

(** C5 fails as stated for a working chunk size that is not an integer:
    on a three-page document read with [chunkSize = 1.5] the handler
    returns a plan of two chunks, at working chunk size 1.5, with the
    windows [1..1.5] and [2.5..3]; page 2 lies in neither, and the end of
    the first window plus one is not the start of the second. The two
    requests the extraction loop made, for the pages 1 to 1.5 and 2.5 to
    3, were rejected by the tool, so both texts are the placeholder. *)
Lemma fractional_chunk_size_skips_page :
  exists response,
    Server.read_pdf_text Demo.threeHost 1 (Demo.chunkedArgs (Some (3 # 2)))
    = Some (Server.Content response)
    /\ Plan.numField "totalPages" response = 3%Q
    /\ Plan.numField "chunkSize" response = (3 # 2)
    /\ (1 <= Plan.numField "chunkSize" response)%Q
    /\ List.map (fun w => (Qred (fst w), Qred (snd w))) (Plan.windowsOf response)
       = [(1, 3 # 2); (5 # 2, 3)]%Q
    /\ (forall i, ~ Plan.covers (List.nth i (Plan.windowsOf response) (0%Q, 0%Q)) 2)
    /\ ~ Plan.tiles (Plan.numField "chunkSize" response)
           (Plan.numField "totalPages" response) (Plan.windowsOf response)
    /\ Plan.textsOf response
       = [PDFUtils.extractionFailedMessage; PDFUtils.extractionFailedMessage]
    /\ JS.includes (JSON.quote "endPage" ++ ": 1.5") (JSON.stringify response) = true
    /\ JS.includes (JSON.quote "startPage" ++ ": 2.5") (JSON.stringify response) = true.
Proof.
  eexists. split; [vm_compute; reflexivity|].
  assert (Hnone : forall i,
            ~ Plan.covers
                (List.nth i [((2 # 2)%Q, (3 # 2)%Q); ((5 # 2)%Q, (6 # 2)%Q)] (0%Q, 0%Q)) 2).
  { intros [|[|[|i]]]; unfold Plan.covers; cbn [List.nth fst snd];
      unfold Qle; cbn; lia. }
  split; [reflexivity|]. split; [reflexivity|]. split; [unfold Qle; cbn; lia|].
  split; [reflexivity|]. split; [exact Hnone|].
  split; [|split; [reflexivity|split; vm_compute; reflexivity]].
  intros (_ & _ & _ & _ & _ & Hcover & _).
  destruct (Hcover 2) as (i & _ & Hi & _);
    [unfold Qle; cbn; lia | unfold Qle; cbn; lia|].
  exact (Hnone i Hi).
Qed.

(** A one-page document read at chunk size 2 or 1: one chunk, the page. *)
Lemma one_page_chunked (page : string) (size : Q) :
  size = 2%Q \/ size = 1%Q ->
  PDFUtils.readPDFTextChunked (Demo.hostWith [page]) Demo.paper size
  = Some (Return {| PDFUtils.chunks := [page]; PDFUtils.totalPages := 1 |}).
Proof. intros [-> | ->]; reflexivity. Qed.

(** What the body of the loop does on the long document: over budget at
    both sizes. *)
Lemma longHost_over_budget (size : Q) :
  size = 2%Q \/ size = 1%Q ->
  exists result,
    PDFUtils.readPDFTextChunked Demo.longHost Demo.paper size = Some (Return result)
    /\ Server.withinBudget
         (JSON.stringify (Server.chunkedResponse Demo.paper size result)) = false
    /\ Server.loopBody Demo.longHost Demo.paper size = Some (Server.Continues 1%Q).
Proof.
  intros Hsize.
  exists {| PDFUtils.chunks := [Demo.longPage]; PDFUtils.totalPages := 1 |}.
  pose proof (one_page_chunked Demo.longPage size Hsize) as Hrun.
  fold Demo.longHost in Hrun.
  assert (Hover : Server.withinBudget
            (JSON.stringify
               (Server.chunkedResponse Demo.paper size
                  {| PDFUtils.chunks := [Demo.longPage]; PDFUtils.totalPages := 1 |}))
          = false)
    by (destruct Hsize as [-> | ->]; vm_compute; reflexivity).
  split; [exact Hrun|]. split; [exact Hover|].
  unfold Server.loopBody. rewrite Hrun. cbv zeta. rewrite Hover.
  destruct Hsize as [-> | ->]; reflexivity.
Qed.

(** The chunk sizes tried never increase, whatever the attempts give. *)
Lemma chunk_sizes_never_increase (h : Host) (fuel : nat) (args : Server.ReadArgs) :
  (1 <= Server.chunkSizeOf args)%Q ->
  let sizes := Server.attemptedSizes h fuel args in
  forall i, (S i < List.length sizes)%nat ->
            (List.nth (S i) sizes 0 <= List.nth i sizes 0)%Q.
Proof.
  intros Hsize. unfold Server.attemptedSizes.
  apply chunkSearch_sizes.
  destruct (min_bounds (Server.chunkSizeOf args) 2) as (_ & _ & Hglb & _).
  apply Hglb; [exact Hsize | discriminate].
Qed.

(** For a requested size above 0 the handler returns, if at all, from
    inside the loop: the page-1 response is never produced. *)
Lemma first_page_fallback_unreachable (h : Host) (fuel : nat) (args : Server.ReadArgs) :
  Server.chunkedOf args = true ->
  (0 < Server.chunkSizeOf args)%Q ->
  forall r, Server.read_pdf_text h fuel args = Some r ->
            exists size response,
              (0 < size)%Q
              /\ Server.loopBody h (Server.filepath args) size
                 = Some (Server.Returns response)
              /\ r = Server.Content response.
Proof.
  intros Hchunked Hsize r. unfold Server.read_pdf_text. rewrite Hchunked.
  destruct (min_bounds (Server.chunkSizeOf args) 2) as (_ & Hle2 & _ & Hglb).
  assert (Hstart : (0 < JS.min (Server.chunkSizeOf args) 2)%Q)
    by (apply Hglb; [exact Hsize | reflexivity]).
  pose proof (chunkSearch_never_exits h (Server.filepath args) fuel _ Hstart) as Hexit.
  pose proof (chunkSearch_returned h (Server.filepath args) fuel
                (JS.min (Server.chunkSizeOf args) 2)) as Hret.
  destruct (snd (Server.chunkSearch h (Server.filepath args) fuel
                   (JS.min (Server.chunkSizeOf args) 2)))
    as [[response|]|]; try congruence.
  intros Heq. injection Heq as <-.
  destruct (Hret response Hstart Hle2 eq_refl) as [size [Hb Hbody]].
  exists size, response. split; [|split; [exact Hbody | reflexivity]].
  destruct Hb as [-> | ->]; [exact Hstart | reflexivity].
Qed.

(** C1, on the one-page document of 60000 characters read with
    [chunked = true] and [chunkSize = 10]: the search starts at
    [min(10, 2) = 2], for which the stated bound is
    [ceil(log2(2)) + 1 = 2] attempts; the handler has not returned after
    any number of passes, and after [n + 1] passes it has made [n + 1]
    extraction attempts, at sizes 2, 1, 1, 1, ... *)
Theorem chunk_search_runs_past_bound :
  Plan.attemptBound (JS.min (Server.chunkSizeOf (Demo.chunkedArgs (Some 10%Q))) 2) = 2
  /\ forall n : nat,
       Server.read_pdf_text Demo.longHost (S n) (Demo.chunkedArgs (Some 10%Q)) = None
       /\ Server.attemptedSizes Demo.longHost (S n) (Demo.chunkedArgs (Some 10%Q))
          = 2%Q :: List.repeat 1%Q n.
Proof.
  split; [reflexivity|]. intros n.
  destruct (longHost_over_budget 2 (or_introl eq_refl)) as [_ [_ [_ H2]]].
  destruct (longHost_over_budget 1 (or_intror eq_refl)) as [_ [_ [_ H1]]].
  pose proof (chunkSearch_stuck_from_two Demo.longHost Demo.paper n H2 H1) as Hstuck.
  unfold Server.read_pdf_text, Server.attemptedSizes.
  change (Server.chunkedOf (Demo.chunkedArgs (Some 10%Q))) with true.
  change (Server.filepath (Demo.chunkedArgs (Some 10%Q))) with Demo.paper.
  change (JS.min (Server.chunkSizeOf (Demo.chunkedArgs (Some 10%Q))) 2) with 2%Q.
  cbv iota. rewrite Hstuck. split; reflexivity.
Qed.

(** C2, on the same call: both candidate sizes, 2 and 1, give a response
    estimated over 15000 tokens, the page-1 response the code after the
    loop would build exists, yet the handler returns nothing, whatever the
    number of passes allowed. *)
Theorem over_budget_never_reaches_first_page :
  (forall size, size = 2%Q \/ size = 1%Q ->
     exists result,
       PDFUtils.readPDFTextChunked Demo.longHost Demo.paper size = Some (Return result)
       /\ Server.withinBudget
            (JSON.stringify (Server.chunkedResponse Demo.paper size result)) = false)
  /\ Server.firstPageFallback Demo.longHost Demo.paper
     = Server.Content (Server.firstPageResponse Demo.paper Demo.longPage)
  /\ forall fuel : nat,
       Server.read_pdf_text Demo.longHost fuel (Demo.chunkedArgs (Some 10%Q)) = None.
Proof.
  split; [|split].
  - intros size Hsize.
    destruct (longHost_over_budget size Hsize) as [result [Hrun [Hover _]]].
    exists result. split; assumption.
  - unfold Server.firstPageFallback.
    rewrite (readPDFText_first_page Demo.longHost Demo.paper Demo.longPage [])
      by reflexivity.
    reflexivity.
  - intros [|n]; [reflexivity|].
    destruct (longHost_over_budget 2 (or_introl eq_refl)) as [_ [_ [_ H2]]].
    destruct (longHost_over_budget 1 (or_intror eq_refl)) as [_ [_ [_ H1]]].
    pose proof (chunkSearch_stuck_from_two Demo.longHost Demo.paper n H2 H1) as Hstuck.
    unfold Server.read_pdf_text.
    change (Server.chunkedOf (Demo.chunkedArgs (Some 10%Q))) with true.
    change (Server.filepath (Demo.chunkedArgs (Some 10%Q))) with Demo.paper.
    change (JS.min (Server.chunkSizeOf (Demo.chunkedArgs (Some 10%Q))) 2) with 2%Q.
    cbv iota. rewrite Hstuck. reflexivity.
Qed.

(** C10 fails as stated on a path that does not exist: with
    [chunkSize = 0] the handler goes to the page-1 request, which throws
    not-found, and the result is an error result, not a page-1 text. *)
Lemma nonpositive_chunk_size_missing_file :
  Server.chunkedOf (Demo.chunkedArgs (Some 0%Q)) = true
  /\ (Server.chunkSizeOf (Demo.chunkedArgs (Some 0%Q)) <= 0)%Q
  /\ Server.read_pdf_text Demo.emptyHost 1 (Demo.chunkedArgs (Some 0%Q))
     = Some (Server.IsError
               "Error: Failed to read PDF: PDF file not found: /tmp/science_mcp_downloads/paper.pdf")
  /\ forall response,
       Server.read_pdf_text Demo.emptyHost 1 (Demo.chunkedArgs (Some 0%Q))
       <> Some (Server.Content response).
Proof.
  split; [reflexivity|]. split; [cbv; discriminate|].
  split; [reflexivity | discriminate].
Qed.

(** C10, amended. A chunked [read_pdf_text] call with a requested chunk
    size of 0 or less starts the search at [min(size, 2) <= 0]: no
    extraction at any chunk size is attempted, and once the guard of the
    loop has been tested the handler's result is that of the code after
    the loop, the page-1 request. With the file present that request
    returns a text (page 1 itself when the tool opens the document), and
    the response covers page 1 only, carries the first 80000 characters
    of that text, at most 80000 characters long, and has [truncated] true
    exactly when the text is longer than 80000 characters. On a path that
    does not exist the page-1 request throws not-found, which the handler
    returns as an error result. *)
Theorem nonpositive_chunk_size_goes_to_first_page :
  forall (h : Host) (fuel : nat) (args : Server.ReadArgs),
    Server.chunkedOf args = true ->
    (Server.chunkSizeOf args <= 0)%Q ->
    (JS.min (Server.chunkSizeOf args) 2 <= 0)%Q
    /\ Server.attemptedSizes h (S fuel) args = []
    /\ Server.read_pdf_text h (S fuel) args
       = Some (Server.firstPageFallback h (Server.filepath args))
    /\ (existsSync h (Server.filepath args) = true ->
        exists text,
          PDFUtils.readPDFText h (Server.filepath args) (Some 1%Q) (Some 1%Q)
          = Return text
          /\ (forall page rest,
                popplerInstalled h = true ->
                pdfPages h (Server.filepath args) = Some (page :: rest) ->
                text = page)
          /\ exists response,
               Server.read_pdf_text h (S fuel) args = Some (Server.Content response)
               /\ JSON.field "startPage" response = Some (JSON.Num 1)
               /\ JSON.field "endPage" response = Some (JSON.Num 1)
               /\ JSON.field "text" response
                  = Some (JSON.Str (JS.substring0 80000 text))
               /\ JS.strlen (JS.substring0 80000 text) <= 80000
               /\ (JSON.field "truncated" response = Some (JSON.Bool true)
                   <-> 80000 < JS.strlen text)
               /\ (JSON.field "truncated" response = Some (JSON.Bool false)
                   <-> JS.strlen text <= 80000))
    /\ (existsSync h (Server.filepath args) = false ->
        Server.read_pdf_text h (S fuel) args
        = Some (Server.IsError ("Error: Failed to read PDF: PDF file not found: "
                                ++ Server.filepath args))).
Proof.
  intros h fuel args Hchunked Hsize.
  assert (Hstart : (JS.min (Server.chunkSizeOf args) 2 <= 0)%Q).
  { destruct (min_bounds (Server.chunkSizeOf args) 2) as (Hle & _). lra. }
  pose proof (chunkSearch_skips h (Server.filepath args) fuel _ Hstart) as Hskip.
  assert (Hrun : Server.read_pdf_text h (S fuel) args
                 = Some (Server.firstPageFallback h (Server.filepath args))).
  { unfold Server.read_pdf_text. rewrite Hchunked, Hskip. reflexivity. }
  split; [exact Hstart|]. split; [|split; [exact Hrun|split]].
  - unfold Server.attemptedSizes. rewrite Hskip. reflexivity.
  - intros Hexists.
    destruct (readPDFText_total h (Server.filepath args) (Some 1%Q) (Some 1%Q) Hexists)
      as [text Htext].
    exists text. split; [exact Htext|]. split.
    + intros page rest Hinst Hpages.
      rewrite (readPDFText_first_page h _ page rest Hexists Hinst Hpages) in Htext.
      congruence.
    + exists (Server.firstPageResponse (Server.filepath args) text).
      split; [rewrite Hrun; unfold Server.firstPageFallback; rewrite Htext; reflexivity|].
      split; [reflexivity|]. split; [reflexivity|]. split; [reflexivity|].
      split; [apply substring0_bound; lia|].
      change (JSON.field "truncated"
                (Server.firstPageResponse (Server.filepath args) text))
        with (Some (JSON.Bool (JS.strlen text >? 80000))).
      destruct (JS.strlen text >? 80000) eqn:Hlong; split; split;
        intros; try reflexivity; try discriminate; lia.
  - intros Hmissing. rewrite Hrun.
    unfold Server.firstPageFallback, PDFUtils.readPDFText. rewrite Hmissing.
    reflexivity.
Qed.

(** On the five-page document with [chunkSize = 0]: page 1 only. *)
Lemma nonpositive_chunk_size_goes_to_first_page_witness :
  Server.chunkedOf (Demo.chunkedArgs (Some 0%Q)) = true
  /\ (Server.chunkSizeOf (Demo.chunkedArgs (Some 0%Q)) <= 0)%Q
  /\ existsSync Demo.fiveHost (Server.filepath (Demo.chunkedArgs (Some 0%Q))) = true
  /\ Server.attemptedSizes Demo.fiveHost 1 (Demo.chunkedArgs (Some 0%Q)) = []
  /\ Server.read_pdf_text Demo.fiveHost 1 (Demo.chunkedArgs (Some 0%Q))
     = Some (Server.Content (Server.firstPageResponse Demo.paper "one "))
  /\ exists text,
       PDFUtils.readPDFText Demo.fiveHost Demo.paper (Some 1%Q) (Some 1%Q) = Return text
       /\ text = "one ".
Proof.
  assert (Hsize : (Server.chunkSizeOf (Demo.chunkedArgs (Some 0%Q)) <= 0)%Q)
    by (cbv; discriminate).
  pose proof (nonpositive_chunk_size_goes_to_first_page
                Demo.fiveHost 0 (Demo.chunkedArgs (Some 0%Q)) eq_refl Hsize)
    as [_ [Hnone [Hrun [Hpresent _]]]].
  destruct (Hpresent eq_refl) as [text [Htext [Hpage _]]].
  split; [reflexivity|]. split; [exact Hsize|]. split; [reflexivity|].
  split; [exact Hnone|]. split; [exact Hrun|].
  exists text. split; [exact Htext|].
  exact (Hpage "one " ["two "; "three "; "four "; "five "] eq_refl eq_refl).
Defined.

(** ** The Page-Range Text Extractor (lines 202-236) *)

Section Extractor.

Variable h : Host.
Variable filepath : string.

Lemma pageRange_from (s : Z) (pages : list string) :
  1 <= s <= Z.of_nat (List.length pages) ->
  Poppler.pageRange s (Z.of_nat (List.length pages)) pages
  = List.skipn (Z.to_nat (s - 1)) pages.
Proof.
  intros Hs. unfold Poppler.pageRange.
  apply List.firstn_all2. rewrite List.length_skipn. lia.
Qed.

(** An integer on the command line is read as that integer. *)
Lemma intOption_inject (value : option Z) :
  Poppler.intOption (option_map inject_Z value) = Some value.
Proof.
  destruct value as [z|]; [|reflexivity].
  cbn [option_map Poppler.intOption]. rewrite asInteger_inject. reflexivity.
Qed.

(** The tool's output for a command without [-l], on a document it opens,
    from an integer first page not past the end: the pages from the first
    page on (all of them when the first page is below 1 or not given). *)
Lemma pdftotext_to_end (first : option Z) (pages : list string) :
  popplerInstalled h = true ->
  pdfPages h filepath = Some pages ->
  pages <> [] ->
  match first with Some s => s | None => 1 end <= Z.of_nat (List.length pages) ->
  Poppler.pdftotext h {| firstPage := option_map inject_Z first; lastPage := None;
                         inputFile := filepath |}
  = Return (String.concat EmptyString
              (List.skipn (Z.to_nat (match first with Some s => s | None => 1 end - 1))
                          pages)).
Proof.
  intros Hinst Hpages Hnonempty Hfirst. unfold Poppler.pdftotext.
  cbn [inputFile firstPage lastPage]. rewrite Hinst, intOption_inject.
  cbn [Poppler.intOption]. rewrite Hpages.
  assert (Hlen : 1 <= Z.of_nat (List.length pages))
    by (destruct pages; [congruence | cbn [List.length]; lia]).
  set (n := Z.of_nat (List.length pages)) in *.
  set (given := match first with Some s => s | None => 1 end) in *.
  set (start := match first with
                | Some f => if f <? 1 then 1 else f
                | None => 1
                end).
  assert (Hstart : 1 <= start <= n /\ Z.to_nat (start - 1) = Z.to_nat (given - 1)).
  { unfold start, given in *. destruct first as [s|]; [|lia].
    destruct (s <? 1) eqn:E; lia. }
  destruct (n <? start) eqn:E; [lia|].
  unfold n. rewrite pageRange_from by (fold n; lia).
  rewrite (proj2 Hstart). reflexivity.
Qed.

End Extractor.



(** ** The Acquisition Manager (lines 30-97) *)

(** Unfolds the monad and brings the log to the form [log w ++ events]. *)
Ltac run_monad :=
  unfold consoleError, bind, tryCatch, emit, await, ret, throw; cbn [files log];
  repeat rewrite <- List.app_assoc; cbn [List.app].

(** Counts over a trace built with [++] and [::]. *)
Ltac count_events :=
  unfold Trace.fetches, Trace.resolverCalls, Trace.inferences in *;
  repeat (rewrite List.filter_app || rewrite List.length_app
          || cbn [List.filter List.length List.app
                  Trace.isFetched Trace.isResolved Trace.isInferred]);
  lia.

(** One level of [downloadPDF]. *)
Lemma downloadPDF_step (env : Env) (fuel : nat) (pdfUrl : string)
  (filename : option string) :
  PDFUtils.downloadPDF (S fuel) env pdfUrl filename
  = bind (emit (Fetched pdfUrl)) (fun _ =>
      match httpGet env pdfUrl with
      | Throw error =>
          PDFUtils.catchBlock (PDFUtils.downloadPDF fuel env) env pdfUrl filename error
      | Return data =>
          let stored := PDFUtils.storedFilename (now env) pdfUrl filename in
          let filepath := pathJoin (downloadsDir env) stored in
          tryCatch
            (bind (FS.writeFileSync env stored data) (fun _ =>
             bind (consoleError ("PDF downloaded successfully: " ++ filepath)) (fun _ =>
             ret filepath)))
            (PDFUtils.catchBlock (PDFUtils.downloadPDF fuel env) env pdfUrl (Some stored))
      end).
Proof. reflexivity. Qed.

Section Acquisition.

Variable env : Env.

(** The resolver returns, never throws, touches no file, fetches no PDF,
    and any URL it yields is the first PDF link of a feed the API served. *)
Lemma findPaperOnArxiv_runs (title : string) (w : world) :
  exists result events,
    PDFUtils.findPaperOnArxiv env title w
    = Some (Return result, {| files := files w; log := log w ++ events |})
    /\ Trace.fetches events = 0%nat
    /\ Trace.resolverCalls events = 1%nat
    /\ Trace.inferences events = 0%nat
    /\ forall substitute,
         result = Some substitute ->
         exists query entries,
           arxivApi env query = Return entries
           /\ PDFUtils.pdfLinkOf entries = Return (Some substitute).
Proof.
  unfold PDFUtils.findPaperOnArxiv. run_monad.
  destruct (arxivApi env _) as [[|first others]|e] eqn:Hfirst; run_monad.
  - destruct (arxivApi env (PDFUtils.fallbackQueryOf title))
      as [entries|e] eqn:Hsecond; run_monad.
    + destruct (PDFUtils.pdfLinkOf entries) as [link|e] eqn:Hlink; run_monad;
        do 2 eexists; (split; [reflexivity|]); repeat split;
        try discriminate.
      intros substitute ->. eauto.
    + do 2 eexists. split; [reflexivity|]. repeat split.
      discriminate.
  - destruct (PDFUtils.pdfLinkOf (first :: others)) as [link|e] eqn:Hlink;
      run_monad; do 2 eexists; (split; [reflexivity|]); repeat split;
      try discriminate.
    intros substitute ->. eauto.
  - do 2 eexists. split; [reflexivity|]. repeat split.
    discriminate.
Qed.

(** A call on a URL the classifier does not judge paywalled: one fetch,
    no inference, no resolver call, whatever the fetch or the write do. *)
Lemma downloadPDF_not_paywalled (fuel : nat) (pdfUrl : string)
  (filename : option string) (w : world) :
  PDFUtils.isPaywalledSource pdfUrl = false ->
  exists result files' events,
    PDFUtils.downloadPDF (S fuel) env pdfUrl filename w
    = Some (result, {| files := files'; log := log w ++ events |})
    /\ Trace.fetches events = 1%nat
    /\ Trace.resolverCalls events = 0%nat
    /\ Trace.inferences events = 0%nat.
Proof.
  intros Hfree. cbn [PDFUtils.downloadPDF]. run_monad.
  destruct (httpGet env pdfUrl) as [data|error].
  - unfold FS.writeFileSync. run_monad.
    destruct (FS.lookup _ (files w)) as [[content|]|];
      unfold PDFUtils.catchBlock; rewrite ?Hfree; run_monad;
      do 3 eexists; (split; [reflexivity|]); repeat split.
  - unfold PDFUtils.catchBlock. rewrite Hfree. run_monad.
    do 3 eexists. split; [reflexivity|]. repeat split.
Qed.

(** The [catch] block around a nested call that is allowed one more
    level: at most one resolver call and one further fetch. *)
Lemma catchBlock_runs (fuel : nat) (pdfUrl : string) (filename : option string)
  (error : string) (w : world) :
  substitutesFree env ->
  exists result files' events,
    PDFUtils.catchBlock (PDFUtils.downloadPDF (S fuel) env) env pdfUrl filename error w
    = Some (result, {| files := files'; log := log w ++ events |})
    /\ (Trace.fetches events <= 1)%nat
    /\ (Trace.resolverCalls events <= 1)%nat
    /\ (Trace.inferences events <= 1)%nat.
Proof.
  intros Hfree. unfold PDFUtils.catchBlock. run_monad.
  destruct (PDFUtils.isPaywalledSource pdfUrl); run_monad;
    [|do 3 eexists; split; [reflexivity | repeat split; count_events]].
  destruct (PDFUtils.extractTitleFromUrl pdfUrl filename) as [paperTitle|];
    run_monad;
    [|do 3 eexists; split; [reflexivity | repeat split; count_events]].
  destruct (JS.truthy paperTitle); run_monad;
    [|do 3 eexists; split; [reflexivity | repeat split; count_events]].
  match goal with
  | |- context [PDFUtils.findPaperOnArxiv env paperTitle ?w1] =>
      destruct (findPaperOnArxiv_runs paperTitle w1)
        as (found & searched & Hsearch & Hf1 & Hr1 & Hi1 & Hlink)
  end.
  rewrite Hsearch. cbn [files log].
  destruct found as [substitute|]; run_monad;
    [|do 3 eexists; split; [reflexivity | repeat split; count_events]].
  destruct (Hlink substitute eq_refl) as (query & entries & Hserved & Hfirst).
  pose proof (Hfree query entries substitute Hserved Hfirst) as Hopen.
  match goal with
  | |- context [PDFUtils.downloadPDF (S fuel) env substitute filename ?w2] =>
      destruct (downloadPDF_not_paywalled fuel substitute filename w2 Hopen)
        as (nested & files2 & fetched & Hnested & Hf2 & Hr2 & Hi2)
  end.
  rewrite Hnested. cbn [files log].
  destruct nested as [filepath|e]; run_monad;
    do 3 eexists; (split; [reflexivity | repeat split; count_events]).
Qed.

End Acquisition.

(** C3. When the classifier does not judge [pdfUrl] paywalled and the
    fetch fails with [cause], [downloadPDF] throws
    [Failed to download PDF: cause] at once: besides the fetch and one
    line on stderr nothing happens, so no title is inferred, the resolver
    is not invoked, no query is sent and no file is written. *)
Theorem failed_fetch_not_paywalled_propagates :
  forall (env : Env) (fuel : nat) (pdfUrl : string) (filename : option string)
         (w : world) (cause : string),
    PDFUtils.isPaywalledSource pdfUrl = false ->
    httpGet env pdfUrl = Throw cause ->
    PDFUtils.downloadPDF (S fuel) env pdfUrl filename w
    = Some (Throw ("Failed to download PDF: " ++ cause),
            {| files := files w;
               log := log w ++ [Fetched pdfUrl; Stderr "Error downloading PDF:"] |})
    /\ Server.download_pdf (S fuel) env pdfUrl filename w
       = Some (Server.IsError ("Error: Failed to download PDF: " ++ cause),
               {| files := files w;
                  log := log w ++ [Fetched pdfUrl; Stderr "Error downloading PDF:"] |})
    /\ Trace.inferences [Fetched pdfUrl; Stderr "Error downloading PDF:"] = 0%nat
    /\ Trace.resolverCalls [Fetched pdfUrl; Stderr "Error downloading PDF:"] = 0%nat.
Proof.
  intros env fuel pdfUrl filename w cause Hfree Hfail.
  assert (Hrun : PDFUtils.downloadPDF (S fuel) env pdfUrl filename w
                 = Some (Throw ("Failed to download PDF: " ++ cause),
                         {| files := files w;
                            log := log w ++ [Fetched pdfUrl;
                                             Stderr "Error downloading PDF:"] |})).
  { cbn [PDFUtils.downloadPDF]. run_monad. rewrite Hfail.
    unfold PDFUtils.catchBlock. rewrite Hfree. run_monad. reflexivity. }
  split; [exact Hrun|]. split; [|split; reflexivity].
  unfold Server.download_pdf. rewrite Hrun. reflexivity.
Qed.

(** A 403 from a host outside the paywalled list. *)
Lemma failed_fetch_not_paywalled_propagates_witness :
  PDFUtils.isPaywalledSource "https://example.org/x.pdf" = false
  /\ httpGet Demo.env "https://example.org/x.pdf"
     = Throw "Request failed with status code 403"
  /\ PDFUtils.downloadPDF 1 Demo.env "https://example.org/x.pdf" None Demo.emptyWorld
     = Some (Throw "Failed to download PDF: Request failed with status code 403",
             {| files := [];
                log := [Fetched "https://example.org/x.pdf";
                        Stderr "Error downloading PDF:"] |}).
Proof.
  split; [reflexivity|]. split; [reflexivity|].
  exact (proj1 (failed_fetch_not_paywalled_propagates
                  Demo.env 0 "https://example.org/x.pdf" None Demo.emptyWorld
                  "Request failed with status code 403" eq_refl eq_refl)).
Defined.

(** C4 fails as stated: with a feed whose PDF link is itself behind a
    paywall the nested call falls back again. On [Demo.relayEnv] one call
    of [downloadPDF] fetches three URLs and invokes the resolver twice
    before it returns the arXiv copy. *)
Lemma fallback_can_nest_twice :
  exists (filepath : string) (w : world),
    PDFUtils.downloadPDF 3 Demo.relayEnv "https://acm.org/Attention-Is-All-You-Need"
      None Demo.emptyWorld
    = Some (Return filepath, w)
    /\ Trace.fetches (log w) = 3%nat
    /\ Trace.resolverCalls (log w) = 2%nat.
Proof.
  do 2 eexists. split; [vm_compute; reflexivity|]. split; reflexivity.
Qed.

(** C4, amended. When every PDF link the arXiv API serves lies outside
    the paywalled-domain list, a call of [downloadPDF] that may nest one
    level returns or throws (it needs no deeper level), and in doing so
    fetches at least one and at most two URLs, infers a title at most
    once and invokes the Alternate-Source Resolver at most once. *)
Theorem fallback_runs_once :
  forall (env : Env) (fuel : nat) (pdfUrl : string) (filename : option string)
         (w : world),
    substitutesFree env ->
    exists result files' events,
      PDFUtils.downloadPDF (S (S fuel)) env pdfUrl filename w
      = Some (result, {| files := files'; log := log w ++ events |})
      /\ (1 <= Trace.fetches events <= 2)%nat
      /\ (Trace.resolverCalls events <= 1)%nat
      /\ (Trace.inferences events <= 1)%nat.
Proof.
  intros env fuel pdfUrl filename w Hfree.
  rewrite downloadPDF_step. run_monad.
  destruct (httpGet env pdfUrl) as [data|error].
  - cbv zeta. unfold FS.writeFileSync. run_monad.
    destruct (FS.lookup _ (files w)) as [[content|]|]; run_monad;
      try (do 3 eexists; split; [reflexivity | repeat split; count_events]).
    match goal with
    | |- context [PDFUtils.catchBlock _ env pdfUrl ?name ?error ?w1] =>
        destruct (catchBlock_runs env fuel pdfUrl name error w1 Hfree)
          as (result & files' & events & Hrun & Hf & Hr & Hi)
    end.
    rewrite Hrun. cbn [log]. rewrite <- List.app_assoc.
    do 3 eexists. split; [reflexivity | repeat split; count_events].
  - match goal with
    | |- context [PDFUtils.catchBlock _ env pdfUrl ?name ?error ?w1] =>
        destruct (catchBlock_runs env fuel pdfUrl name error w1 Hfree)
          as (result & files' & events & Hrun & Hf & Hr & Hi)
    end.
    rewrite Hrun. cbn [log]. rewrite <- List.app_assoc.
    do 3 eexists. split; [reflexivity | repeat split; count_events].
Qed.

Lemma demo_substitutes_free : substitutesFree Demo.env.
Proof.
  intros query entries substitute Hserved Hlink.
  cbn [arxivApi Demo.env] in Hserved.
  destruct (String.eqb query (Demo.quoted "Attention Is All You Need"));
    injection Hserved as <-; cbn in Hlink; [|discriminate].
  injection Hlink as <-. reflexivity.
Qed.

(** The scenario of the specification: the publisher answers 403, the
    caller's filename gives the title, the arXiv copy is stored. *)
Lemma fallback_runs_once_witness :
  substitutesFree Demo.env
  /\ exists result files' events,
       PDFUtils.downloadPDF 2 Demo.env "https://sciencedirect.com/paper123.pdf"
         (Some "Attention_Is_All_You_Need.pdf") Demo.emptyWorld
       = Some (result, {| files := files'; log := log Demo.emptyWorld ++ events |})
       /\ (1 <= Trace.fetches events <= 2)%nat
       /\ (Trace.resolverCalls events <= 1)%nat
       /\ (Trace.inferences events <= 1)%nat.
Proof.
  split; [exact demo_substitutes_free|].
  exact (fallback_runs_once Demo.env 0 "https://sciencedirect.com/paper123.pdf"
           (Some "Attention_Is_All_You_Need.pdf") Demo.emptyWorld
           demo_substitutes_free).
Defined.

Example fallback_scenario :
  exists w,
    PDFUtils.downloadPDF 2 Demo.env "https://sciencedirect.com/paper123.pdf"
      (Some "Attention_Is_All_You_Need.pdf") Demo.emptyWorld
    = Some (Return "/tmp/science_mcp_downloads/Attention_Is_All_You_Need.pdf", w)
    /\ files w = [("Attention_Is_All_You_Need.pdf", File "%PDF-1.5 attention")]
    /\ Trace.fetches (log w) = 2%nat
    /\ Trace.resolverCalls (log w) = 1%nat.
Proof. eexists. split; [vm_compute; reflexivity|]. repeat split. Qed.

(** ** The downloads directory (lines 280-302 and 754-787) *)

Section Cleanup.

Variable env : Env.

Lemma remove_absent (name : string) (entries : list (string * node)) :
  ~ List.In name (List.map fst entries) -> FS.remove name entries = entries.
Proof.
  induction entries as [|[n x] entries IH]; intros Habsent; cbn.
  - reflexivity.
  - cbn in Habsent. destruct (String.eqb n name) eqn:E.
    + apply String.eqb_eq in E. tauto.
    + cbn. f_equal. apply IH. tauto.
Qed.

Lemma lookup_head (name : string) (x : node) (entries : list (string * node)) :
  FS.lookup name ((name, x) :: entries) = Some x.
Proof. unfold FS.lookup. cbn. rewrite String.eqb_refl. reflexivity. Qed.

Lemma remove_head (name : string) (x : node) (entries : list (string * node)) :
  FS.remove name ((name, x) :: entries) = FS.remove name entries.
Proof. unfold FS.remove. cbn. rewrite String.eqb_refl. reflexivity. Qed.

Lemma unlinkSync_head (name data : string) (entries : list (string * node))
  (past : list event) :
  ~ List.In name (List.map fst entries) ->
  FS.unlinkSync env name {| files := (name, File data) :: entries; log := past |}
  = Some (Return tt,
          {| files := entries;
             log := past ++ [Unlinked (pathJoin (downloadsDir env) name)] |}).
Proof.
  intros Hfresh. unfold FS.unlinkSync. cbn [files log].
  rewrite lookup_head, remove_head, (remove_absent name entries Hfresh).
  reflexivity.
Qed.

(** Unlinking the entries of a directory of files, in the order
    [readdirSync] lists them, empties it. *)
Lemma forEach_unlink (entries : list (string * node)) :
  forall past : list event,
    List.NoDup (List.map fst entries) ->
    List.Forall FS.isFile entries ->
    forEach (List.map fst entries) (FS.unlinkSync env)
      {| files := entries; log := past |}
    = Some (Return tt,
            {| files := [];
               log := past ++ List.map (fun name => Unlinked (pathJoin (downloadsDir env) name))
                                       (List.map fst entries) |}).
Proof.
  induction entries as [|[name x] entries IH]; intros past Hnodup Hfiles.
  - cbn. rewrite List.app_nil_r. reflexivity.
  - inversion Hnodup as [|? ? Hfresh Hrest]; subst.
    inversion Hfiles as [|? ? Hfile Hothers]; subst.
    destruct x as [data|]; [|contradiction Hfile].
    cbn [List.map fst forEach]. unfold bind at 1.
    rewrite (unlinkSync_head name data entries past Hfresh).
    rewrite (IH _ Hrest Hothers). rewrite <- List.app_assoc. reflexivity.
Qed.

Lemma cleanupDownloads_runs (w : world) :
  List.NoDup (List.map fst (files w)) ->
  List.Forall FS.isFile (files w) ->
  PDFUtils.cleanupDownloads env w
  = Some (Return tt,
          {| files := [];
             log := log w
                    ++ List.map (fun name => Unlinked (pathJoin (downloadsDir env) name))
                                (List.map fst (files w))
                    ++ [Stderr ("Cleaned up "
                                ++ JS.ofInt (Z.of_nat (List.length (files w)))
                                ++ " downloaded files")] |}).
Proof.
  intros Hnodup Hfiles. destruct w as [entries past]. cbn [files log] in *.
  unfold PDFUtils.cleanupDownloads, tryCatch, bind at 1, FS.readdirSync.
  cbn [files log]. unfold bind at 1.
  rewrite (forEach_unlink entries past Hnodup Hfiles).
  unfold consoleError, emit. cbn [files log].
  rewrite List.length_map, <- List.app_assoc. reflexivity.
Qed.

End Cleanup.

(** C9 fails as stated: the result of [cleanup_downloads] carries no
    count. On a directory of three files the three are removed, and the
    result is the fixed message: no field holds the number 3 and the
    digit does not occur in its text. *)
Lemma cleanup_result_carries_no_count :
  exists (r : Server.toolResult) (w : world),
    Server.cleanup_downloads Demo.env Demo.threeFiles = Some (r, w)
    /\ files w = []
    /\ ~ reportsCount r 3
    /\ JS.includes "3" (Server.textOf r) = false.
Proof.
  do 2 eexists. split; [vm_compute; reflexivity|]. split; [reflexivity|].
  split; [|reflexivity].
  intros [key Hfield]. unfold JSON.field, List.find in Hfield.
  cbn [fst snd] in Hfield.
  destruct (String.eqb "action" key); [discriminate|].
  destruct (String.eqb "message" key); discriminate.
Qed.

(** C9, amended. On a downloads directory that holds [n] files and
    nothing else, [cleanup_downloads] removes all [n] (the directory is
    left empty, one unlink per file, in listing order), writes the count
    to stderr as [Cleaned up n downloaded files], and returns the fixed
    confirmation message; a [list_downloaded_pdfs] call after it reports
    no file and a count of 0. *)
Theorem cleanup_removes_every_file :
  forall (env : Env) (w : world),
    List.NoDup (List.map fst (files w)) ->
    List.Forall FS.isFile (files w) ->
    let n := Z.of_nat (List.length (files w)) in
    exists w',
      Server.cleanup_downloads env w
      = Some (Server.Content Server.cleanupResponse, w')
      /\ files w' = []
      /\ log w'
         = (log w
            ++ List.map (fun name => Unlinked (pathJoin (downloadsDir env) name))
                        (List.map fst (files w))
            ++ [Stderr ("Cleaned up " ++ JS.ofInt n ++ " downloaded files")])%list
      /\ PDFUtils.listDownloadedPDFs env w' = []
      /\ Server.list_downloaded_pdfs env w'
         = Server.Content
             (JSON.Obj [ ("action", JSON.Str "list_downloaded_pdfs");
                         ("downloadsDirectory", JSON.Str (downloadsDir env));
                         ("files", JSON.Arr []);
                         ("count", JSON.Num 0) ]).
Proof.
  intros env w Hnodup Hfiles n.
  eexists. split.
  - unfold Server.cleanup_downloads.
    rewrite (cleanupDownloads_runs env w Hnodup Hfiles). reflexivity.
  - repeat split.
Qed.

(** The directory of three files. *)
Lemma cleanup_removes_every_file_witness :
  exists w',
    Server.cleanup_downloads Demo.env Demo.threeFiles
    = Some (Server.Content Server.cleanupResponse, w')
    /\ files w' = []
    /\ log w' = [ Unlinked "/tmp/science_mcp_downloads/a.pdf";
                  Unlinked "/tmp/science_mcp_downloads/b.pdf";
                  Unlinked "/tmp/science_mcp_downloads/notes.txt";
                  Stderr "Cleaned up 3 downloaded files" ]
    /\ PDFUtils.listDownloadedPDFs Demo.env w' = [].
Proof.
  assert (Hnodup : List.NoDup (List.map fst (files Demo.threeFiles))).
  { repeat constructor; cbn; intuition discriminate. }
  assert (Hfiles : List.Forall FS.isFile (files Demo.threeFiles)).
  { repeat constructor. }
  destruct (cleanup_removes_every_file Demo.env Demo.threeFiles Hnodup Hfiles)
    as [w' [Hrun [Hempty [Hlog [Hlist _]]]]].
  exists w'. split; [exact Hrun|]. split; [exact Hempty|].
  split; [exact Hlog | exact Hlist].
Defined.

(** ** Naming the stored file (lines 40-64) *)

Lemma replaceAll_length (cls : ascii -> bool) (rep : ascii) (s : string) :
  String.length (JS.replaceAll cls rep s) = String.length s.
Proof. induction s as [|c s IH]; cbn; congruence. Qed.

Lemma replaceAll_drop (cls : ascii -> bool) (rep : ascii) (n : nat) :
  forall s, JS.drop n (JS.replaceAll cls rep s) = JS.replaceAll cls rep (JS.drop n s).
Proof.
  induction n as [|n IH]; intros [|c s]; cbn; try reflexivity. apply IH.
Qed.

Lemma append_length (s t : string) :
  String.length (s ++ t) = (String.length s + String.length t)%nat.
Proof. induction s as [|c s IH]; cbn; congruence. Qed.

(** The sanitized name has no character outside [[A-Za-z0-9._-]]. *)
Lemma sanitize_safe (name : string) :
  List.Forall (fun c => PDFUtils.isUnsafe c = false)
              (list_ascii_of_string (PDFUtils.sanitize name)).
Proof.
  induction name as [|c name IH]; cbn; constructor; try exact IH.
  destruct (PDFUtils.isUnsafe c) eqn:E; [reflexivity | exact E].
Qed.

(** Sanitizing a sanitized name changes nothing. *)
Lemma sanitize_idempotent (name : string) :
  PDFUtils.sanitize (PDFUtils.sanitize name) = PDFUtils.sanitize name.
Proof.
  induction name as [|c name IH]; cbn; [reflexivity|].
  unfold PDFUtils.sanitize in IH. rewrite IH. f_equal.
  destruct (PDFUtils.isUnsafe c) eqn:E; [reflexivity | rewrite E; reflexivity].
Qed.

(** Sanitizing keeps a [.pdf] ending. *)
Lemma sanitize_keeps_pdf (name : string) :
  JS.endsWith ".pdf" name = true ->
  JS.endsWith ".pdf" (PDFUtils.sanitize name) = true.
Proof.
  unfold JS.endsWith, PDFUtils.sanitize.
  rewrite replaceAll_length, replaceAll_drop.
  intros H. apply andb_true_iff in H as [Hlen Heq].
  apply String.eqb_eq in Heq. rewrite Heq, Hlen. reflexivity.
Qed.

(** Whatever the URL and the caller's filename, the stored name ends in
    [.pdf] and is made of safe characters only. *)
Lemma storedFilename_shape (now : Z) (pdfUrl : string) (filename : option string) :
  JS.endsWith ".pdf" (PDFUtils.storedFilename now pdfUrl filename) = true
  /\ List.Forall (fun c => PDFUtils.isUnsafe c = false)
       (list_ascii_of_string (PDFUtils.storedFilename now pdfUrl filename)).
Proof.
  unfold PDFUtils.storedFilename. split; [|apply sanitize_safe].
  apply sanitize_keeps_pdf.
  match goal with
  | |- context [if JS.endsWith ".pdf" ?name then _ else _] =>
      destruct (JS.endsWith ".pdf" name) eqn:E; [exact E|];
      generalize name
  end.
  intros name. unfold JS.endsWith.
  assert (Hdrop : forall s, JS.drop (String.length s) (s ++ ".pdf") = ".pdf")
    by (induction s as [|c s IH]; cbn; [reflexivity | exact IH]).
  rewrite append_length. cbn [String.length].
  replace (String.length name + 4 - 4)%nat with (String.length name) by lia.
  rewrite Hdrop.
  replace (4 <=? String.length name + 4)%nat with true
    by (symmetry; apply Nat.leb_le; lia).
  reflexivity.
Qed.

(** C7, on [download("https://arxiv.org/pdf/1706.03762")] without a
    filename: the host indicates arxiv.org and the path has the id
    segment [1706.03762], so the derivation as stated names the file
    [arxiv_1706.03762.pdf]; the code tests the final path segment for
    [arxiv.org], which it does not contain, and stores
    [1706.03762.pdf]. *)
Theorem arxiv_url_not_named_after_id :
  JS.includes "arxiv.org" (Claimed.hostOf Demo.attention) = true
  /\ PDFUtils.arxivIdOf Demo.attention = Some "1706.03762"
  /\ Claimed.storedFilename (now Demo.env) Demo.attention = "arxiv_1706.03762.pdf"
  /\ JS.includes "arxiv.org" (JS.lastOf (JS.split "/" Demo.attention)) = false
  /\ PDFUtils.storedFilename (now Demo.env) Demo.attention None = "1706.03762.pdf".
Proof. repeat split. Qed.

(** The same slip on the other branches: a scholar.google URL is named
    after its final segment, not after the time, and [.pdf] is removed at
    its first occurrence, not at the end. *)
Example scholar_url_name :
  PDFUtils.storedFilename 17 "https://scholar.google.com/scholar?q=x" None
  = "scholar_q_x.pdf"
  /\ Claimed.storedFilename 17 "https://scholar.google.com/scholar?q=x"
     = "scholar_17.pdf".
Proof. split; reflexivity. Qed.

Example inner_pdf_name :
  PDFUtils.storedFilename 17 "https://example.org/a.pdf.v2.pdf" None = "a.v2.pdf.pdf"
  /\ Claimed.storedFilename 17 "https://example.org/a.pdf.v2.pdf" = "a.pdf.v2.pdf".
Proof. split; reflexivity. Qed.

(** ** Title inference (lines 170-200) *)

(** C6 fails as stated, on both sides of the acceptance rule: the path
    segment [abc] has no period, yet no title is inferred from
    [https://acm.org/abc]; the query parameter [ab] is not longer than 10
    characters, yet it is the title inferred from
    [https://acm.org/doi?q=ab]. *)
Lemma title_acceptance_differs :
  (JS.lastOf (JS.split "/" "https://acm.org/abc") = "abc"
   /\ Claimed.accepts Claimed.PathSegment "abc" = true
   /\ PDFUtils.extractTitleFromUrl "https://acm.org/abc" None = None)
  /\ (URL.query "https://acm.org/doi?q=ab" = Some "q=ab"
      /\ URL.searchParamsGet "q=ab" "q" = Some "ab"
      /\ Claimed.accepts Claimed.QueryParameter "ab" = false
      /\ PDFUtils.extractTitleFromUrl "https://acm.org/doi?q=ab" None = Some "ab").
Proof. repeat split. Qed.

Section TitleInference.

Variable url : string.
Variable filename : option string.

Lemma titleFromFilename_iff (title : string) :
  PDFUtils.titleFromFilename filename = Some title
  <-> Title.fromFilename filename title.
Proof.
  unfold PDFUtils.titleFromFilename, Title.fromFilename, Title.spaced. split.
  - destruct filename as [f|]; [|discriminate].
    destruct (JS.truthy f); [|discriminate].
    destruct (JS.strlen _ >? 10) eqn:Hlong; [|discriminate].
    intros Heq. injection Heq as <-. exists f. repeat split. lia.
  - intros [f [-> [-> Hlong]]].
    destruct (JS.truthy f) eqn:Hgiven.
    + destruct (JS.strlen _ >? 10) eqn:E; [reflexivity | lia].
    + unfold JS.truthy in Hgiven. apply negb_false_iff, String.eqb_eq in Hgiven.
      subst f. cbv in Hlong. discriminate.
Qed.

Lemma titleFromPath_iff (title : string) :
  PDFUtils.titleFromPath url = Some title <-> Title.fromPath url title.
Proof.
  unfold PDFUtils.titleFromPath, Title.fromPath, Title.spaced. cbv zeta.
  set (lastPart := JS.lastOf (JS.split "/" url)). split.
  - destruct (JS.truthy lastPart); cbn [andb]; [|discriminate].
    destruct (JS.strlen lastPart >? 10) eqn:Hlong; cbn [andb]; [|discriminate].
    destruct (JS.includes "." lastPart); cbn [negb]; [discriminate|].
    intros Heq. injection Heq as <-. repeat split. lia.
  - intros [Hlong [Hdot ->]].
    assert (Hgiven : JS.truthy lastPart = true).
    { destruct lastPart; [cbv in Hlong; discriminate | reflexivity]. }
    rewrite Hgiven, Hdot.
    destruct (JS.strlen lastPart >? 10) eqn:E; [reflexivity | lia].
Qed.

Lemma truthy_false (s : string) : JS.truthy s = false -> s = EmptyString.
Proof.
  unfold JS.truthy. intros Hs. apply negb_false_iff, String.eqb_eq in Hs. exact Hs.
Qed.

(** The value [a || b || c] of the three parameters is the first of them
    that is a non-empty string. *)
Lemma orElse_first (a b c : option string) (p : string) :
  JS.truthy p = true ->
  PDFUtils.orElse a (PDFUtils.orElse b c) = Some p
  <-> (a = Some p
       \/ (Title.blank a /\ b = Some p)
       \/ (Title.blank a /\ Title.blank b /\ c = Some p)).
Proof.
  intros Hp. unfold PDFUtils.orElse, Title.blank. split.
  - destruct a as [x|]; [destruct (JS.truthy x) eqn:Hx|];
      (destruct b as [y|]; [destruct (JS.truthy y) eqn:Hy|]);
      intros Heq; try (injection Heq as <-); auto;
      try (apply truthy_false in Hx; subst x);
      try (apply truthy_false in Hy; subst y);
      try (right; left; split; [auto | congruence]);
      right; right; repeat split; auto.
  - intros [-> | [[Ha ->] | [Ha [Hb ->]]]].
    + rewrite Hp. reflexivity.
    + rewrite Hp. destruct Ha as [-> | ->]; reflexivity.
    + destruct Ha as [-> | ->]; destruct Hb as [-> | ->]; reflexivity.
Qed.

Lemma titleFromParams_iff (title : string) :
  PDFUtils.titleFromParams url = Some title <-> Title.fromParams url title.
Proof.
  unfold PDFUtils.titleFromParams, Title.fromParams. split.
  - destruct (URL.query url) as [q|]; [|discriminate].
    destruct (PDFUtils.orElse _ _) as [p|] eqn:Hparam; [|discriminate].
    destruct (JS.truthy p) eqn:Hp; [|discriminate].
    intros Hdecode. exists q, p. repeat split; try assumption.
    apply orElse_first; assumption.
  - intros (q & p & -> & Hp & Hdecode & Hfirst).
    apply (orElse_first _ _ _ p Hp) in Hfirst. rewrite Hfirst, Hp. exact Hdecode.
Qed.

End TitleInference.

(** C6, amended. [extractTitleFromUrl] considers the caller's filename,
    then the query parameters [title], [q], [query], then the final path
    segment, and returns the first candidate accepted, where: the
    filename (trailing [.pdf] removed, [_] and [-] spaced) is accepted
    when longer than 10 characters; the first non-empty query parameter
    is accepted whatever its length, once URI-decoded; the path segment
    is accepted only when it is longer than 10 characters and has no
    period. It returns no title exactly when none is accepted. *)
Theorem title_inference_order :
  forall (url : string) (filename : option string),
    match PDFUtils.extractTitleFromUrl url filename with
    | Some title =>
        Title.fromFilename filename title
        \/ ((forall t, ~ Title.fromFilename filename t)
            /\ Title.fromParams url title)
        \/ ((forall t, ~ Title.fromFilename filename t)
            /\ (forall t, ~ Title.fromParams url t)
            /\ Title.fromPath url title)
    | None =>
        (forall t, ~ Title.fromFilename filename t)
        /\ (forall t, ~ Title.fromParams url t)
        /\ (forall t, ~ Title.fromPath url t)
    end.
Proof.
  intros url filename. unfold PDFUtils.extractTitleFromUrl.
  destruct (PDFUtils.titleFromFilename filename) as [t1|] eqn:H1.
  { left. apply titleFromFilename_iff. exact H1. }
  assert (N1 : forall t, ~ Title.fromFilename filename t).
  { intros t Ht. apply titleFromFilename_iff in Ht. congruence. }
  destruct (PDFUtils.titleFromParams url) as [t2|] eqn:H2.
  { right; left. split; [exact N1|]. apply titleFromParams_iff. exact H2. }
  assert (N2 : forall t, ~ Title.fromParams url t).
  { intros t Ht. apply titleFromParams_iff in Ht. congruence. }
  destruct (PDFUtils.titleFromPath url) as [t3|] eqn:H3.
  { right; right. split; [exact N1|]. split; [exact N2|].
    apply titleFromPath_iff. exact H3. }
  split; [exact N1|]. split; [exact N2|].
  intros t Ht. apply titleFromPath_iff in Ht. congruence.
Qed.

(** The converse: an accepted candidate of the highest priority is the
    title returned. *)
Lemma title_inference_complete (url : string) (filename : option string)
  (title : string) :
  (Title.fromFilename filename title ->
   PDFUtils.extractTitleFromUrl url filename = Some title)
  /\ ((forall t, ~ Title.fromFilename filename t) ->
      Title.fromParams url title ->
      PDFUtils.extractTitleFromUrl url filename = Some title)
  /\ ((forall t, ~ Title.fromFilename filename t) ->
      (forall t, ~ Title.fromParams url t) ->
      Title.fromPath url title ->
      PDFUtils.extractTitleFromUrl url filename = Some title).
Proof.
  unfold PDFUtils.extractTitleFromUrl. split; [|split].
  - intros H. apply titleFromFilename_iff in H. rewrite H. reflexivity.
  - intros N1 H.
    destruct (PDFUtils.titleFromFilename filename) as [t|] eqn:E.
    + apply titleFromFilename_iff in E. destruct (N1 t E).
    + apply titleFromParams_iff in H. rewrite H. reflexivity.
  - intros N1 N2 H.
    destruct (PDFUtils.titleFromFilename filename) as [t|] eqn:E1.
    + apply titleFromFilename_iff in E1. destruct (N1 t E1).
    + destruct (PDFUtils.titleFromParams url) as [t|] eqn:E2.
      * apply titleFromParams_iff in E2. destruct (N2 t E2).
      * apply titleFromPath_iff in H. exact H.
Qed.

(** * Further properties of the code *)

(** ** Substrings *)

Section Substrings.

Lemma startsWith_app (p s t : string) :
  JS.startsWith p s = true -> JS.startsWith p (s ++ t) = true.
Proof.
  unfold JS.startsWith. revert s.
  induction p as [|a p IH]; intros s H.
  - destruct (s ++ t); reflexivity.
  - destruct s as [|b s]; cbn in *; [discriminate|].
    destruct (Ascii.ascii_dec a b); [apply IH; exact H | discriminate].
Qed.

Lemma startsWith_self (p t : string) : JS.startsWith p (p ++ t) = true.
Proof.
  unfold JS.startsWith. induction p as [|a p IH]; cbn.
  - destruct t; reflexivity.
  - destruct (Ascii.ascii_dec a a); [exact IH | congruence].
Qed.

Lemma startsWith_split (p s : string) :
  JS.startsWith p s = true -> exists t, s = p ++ t.
Proof.
  unfold JS.startsWith. revert s.
  induction p as [|a p IH]; intros s H.
  - exists s. reflexivity.
  - destruct s as [|b s]; cbn in H; [discriminate|].
    destruct (Ascii.ascii_dec a b) as [->|]; [|discriminate].
    destruct (IH s H) as [t ->]. exists t. reflexivity.
Qed.

Lemma includes_app_r (sub s t : string) :
  JS.includes sub s = true -> JS.includes sub (s ++ t) = true.
Proof.
  induction s as [|c s IH]; cbn [JS.includes String.append]; intros H.
  - apply startsWith_split in H as [u Hu].
    destruct sub; [|discriminate].
    destruct t; reflexivity.
  - apply orb_true_iff in H as [H | H].
    + change (String c (s ++ t)) with (String c s ++ t).
      rewrite (startsWith_app _ _ t H). reflexivity.
    + rewrite (IH H). apply orb_true_r.
Qed.

Lemma includes_app_l (sub s t : string) :
  JS.includes sub s = true -> JS.includes sub (t ++ s) = true.
Proof.
  intros H. induction t as [|c t IH]; cbn [JS.includes String.append].
  - exact H.
  - rewrite IH. apply orb_true_r.
Qed.

Lemma includes_head (sub t : string) : JS.includes sub (sub ++ t) = true.
Proof.
  destruct (sub ++ t) as [|c u] eqn:E; cbn [JS.includes].
  - rewrite <- E. apply startsWith_self.
  - rewrite <- E, startsWith_self. reflexivity.
Qed.

(** [s.includes(sub)] holds exactly when [sub] occurs somewhere in [s]. *)
Lemma includes_iff (sub s : string) :
  JS.includes sub s = true <-> exists a b, s = a ++ sub ++ b.
Proof.
  split.
  - induction s as [|c s IH]; cbn [JS.includes]; intros H.
    + apply startsWith_split in H as [t Ht]. exists EmptyString, t. exact Ht.
    + apply orb_true_iff in H as [H | H].
      * apply startsWith_split in H as [t Ht]. exists EmptyString, t. exact Ht.
      * destruct (IH H) as (a & b & ->). exists (String c a), b. reflexivity.
  - intros (a & b & ->). apply includes_app_l, includes_head.
Qed.

End Substrings.

(** ** The Paywall Classifier (lines 99-115) *)

Lemma isPaywalledSource_occurs (url : string) :
  PDFUtils.isPaywalledSource url = true
  <-> exists domain before after,
        List.In domain PDFUtils.paywalledDomains
        /\ url = before ++ domain ++ after.
Proof.
  unfold PDFUtils.isPaywalledSource.
  rewrite List.existsb_exists. split.
  - intros (domain & Hin & Hinc). apply includes_iff in Hinc as (a & b & ->).
    exists domain, a, b. split; [exact Hin | reflexivity].
  - intros (domain & a & b & Hin & ->). exists domain. split; [exact Hin|].
    apply includes_iff. eauto.
Qed.

(** X1. The classifier looks for the listed domains anywhere in the URL:
    a URL is judged paywalled exactly when one of the eleven listed
    domains occurs in it as a substring, whether in the host, the path
    or the query. *)
Theorem paywalled_iff_domain_occurs :
  forall url : string,
    PDFUtils.isPaywalledSource url = true
    <-> exists domain before after,
          List.In domain PDFUtils.paywalledDomains
          /\ url = before ++ domain ++ after.
Proof. exact isPaywalledSource_occurs. Qed.

(** X2. Wrapping a URL judged paywalled in more text keeps the judgment;
    in particular a URL of any host that mentions a listed domain in its
    query string is judged paywalled. *)
Theorem paywalled_survives_embedding :
  forall url before after : string,
    PDFUtils.isPaywalledSource url = true ->
    PDFUtils.isPaywalledSource (before ++ url ++ after) = true.
Proof.
  intros url before after H.
  apply isPaywalledSource_occurs in H as (domain & a & b & Hin & ->).
  apply isPaywalledSource_occurs.
  exists domain, (before ++ a), (b ++ after). split; [exact Hin|].
  induction before as [|c before IH]; cbn [String.append].
  - induction a as [|c a IHa]; cbn [String.append].
    + induction domain as [|c d IHd]; cbn [String.append]; [reflexivity|].
      f_equal. clear IHd Hin.
      induction d as [|c' d IHd]; cbn [String.append]; [reflexivity|].
      f_equal. exact IHd.
    + f_equal. exact IHa.
  - f_equal. exact IH.
Qed.

Lemma paywalled_survives_embedding_witness :
  PDFUtils.isPaywalledSource "ieee.org" = true
  /\ PDFUtils.isPaywalledSource "https://arxiv.org/abs/1706.03762?ref=ieee.org&v=2" = true.
Proof.
  split; [reflexivity|].
  exact (paywalled_survives_embedding "ieee.org"
           "https://arxiv.org/abs/1706.03762?ref=" "&v=2" eq_refl).
Defined.

(** ** [ArxivClient.optimizeQuery] (arxiv.ts, lines 45-64) *)

Lemma append_assoc (a b c : string) : (a ++ b) ++ c = a ++ b ++ c.
Proof. induction a as [|x a IH]; cbn; congruence. Qed.

(** Whatever the branch, the query built uses the field syntax. *)
Lemma optimizeQuery_hasSyntax (query : string) :
  ArxivClient.hasSyntax (ArxivClient.optimizeQuery query) = true.
Proof.
  unfold ArxivClient.optimizeQuery.
  destruct (ArxivClient.hasSyntax query) eqn:Hsyntax; [exact Hsyntax|].
  cbv zeta.
  destruct (List.find _ ArxivClient.topicCategories) as [[topic categories]|].
  - unfold ArxivClient.hasSyntax.
    assert (H : JS.includes "ti:"
                  ("(" ++ ArxivClient.categoryQueryOf categories ++ ") AND (ti:"
                       ++ ArxivClient.inQuotes query ++ " OR abs:"
                       ++ ArxivClient.inQuotes query ++ ")") = true).
    { apply (includes_app_l "ti:" _ "(").
      apply includes_app_l.
      apply (includes_app_l "ti:" _ ") AND (").
      reflexivity. }
    rewrite H. rewrite orb_true_r. reflexivity.
  - unfold ArxivClient.hasSyntax.
    match goal with
    | |- context [JS.includes "ti:" ("ti:" ++ ?rest)] =>
        rewrite (includes_head "ti:" rest)
    end.
    rewrite orb_true_r. reflexivity.
Qed.

Lemma optimizeQuery_unchanged (query : string) :
  ArxivClient.hasSyntax query = true -> ArxivClient.optimizeQuery query = query.
Proof. intros H. unfold ArxivClient.optimizeQuery. rewrite H. reflexivity. Qed.

(** X3. [optimizeQuery] is idempotent: its result always uses the arXiv
    field syntax, so optimizing it again changes nothing. *)
Theorem optimizeQuery_idempotent :
  forall query : string,
    ArxivClient.optimizeQuery (ArxivClient.optimizeQuery query)
    = ArxivClient.optimizeQuery query.
Proof.
  intros query.
  pose proof (optimizeQuery_hasSyntax query) as H.
  unfold ArxivClient.optimizeQuery at 1. rewrite H. reflexivity.
Qed.

(** X4. The query sent always contains the caller's query verbatim, and a
    query that already uses [cat:], [ti:], [abs:] or [au:] is sent as it
    is. *)
Theorem optimizeQuery_keeps_query :
  forall query : string,
    JS.includes query (ArxivClient.optimizeQuery query) = true
    /\ (ArxivClient.hasSyntax query = true ->
        ArxivClient.optimizeQuery query = query).
Proof.
  intros query. split.
  - unfold ArxivClient.optimizeQuery.
    destruct (ArxivClient.hasSyntax query).
    + apply includes_iff. exists EmptyString, EmptyString.
      cbn. clear. induction query as [|c q IH]; cbn; congruence.
    + cbv zeta.
      destruct (List.find _ ArxivClient.topicCategories) as [[topic categories]|].
      * apply (includes_app_l query _ "(").
        apply includes_app_l.
        apply (includes_app_l query _ ") AND (ti:").
        unfold ArxivClient.inQuotes.
        apply (includes_app_l query _ (String JSON.dquote EmptyString)).
        rewrite !append_assoc. apply includes_head.
      * apply (includes_app_l query _ "ti:").
        destruct (JS.includes _ query).
        -- apply includes_head.
        -- unfold ArxivClient.inQuotes.
           apply (includes_app_l query _ (String JSON.dquote EmptyString)).
           rewrite !append_assoc. apply includes_head.
  - intros H. unfold ArxivClient.optimizeQuery. rewrite H. reflexivity.
Qed.

Lemma optimizeQuery_keeps_query_witness :
  ArxivClient.hasSyntax "cat:cs.LG AND au:Hinton" = true
  /\ ArxivClient.optimizeQuery "cat:cs.LG AND au:Hinton" = "cat:cs.LG AND au:Hinton".
Proof.
  split; [reflexivity|].
  exact (proj2 (optimizeQuery_keeps_query "cat:cs.LG AND au:Hinton") eq_refl).
Defined.

(** X5. The queries built by [searchByTopic], for every topic, and by
    [getLatestPapers], for every category other than [all], pass
    [optimizeQuery] unchanged; for the default category [all] the query
    [all:] has none of the four markers and is turned into a title and
    abstract search for the text [all:]. *)
Theorem client_queries_through_optimizeQuery :
  (forall topic : string,
     ArxivClient.optimizeQuery (ArxivClient.topicQuery topic)
     = ArxivClient.topicQuery topic)
  /\ (forall category : string,
        category <> "all" ->
        ArxivClient.optimizeQuery (ArxivClient.latestQuery category)
        = "cat:" ++ category)
  /\ ArxivClient.optimizeQuery (ArxivClient.latestQuery "all")
     = "ti:" ++ ArxivClient.inQuotes "all:" ++ " OR abs:" ++ ArxivClient.inQuotes "all:".
Proof.
  split; [|split].
  - intros topic. apply optimizeQuery_unchanged.
    unfold ArxivClient.hasSyntax, ArxivClient.topicQuery.
    assert (H : JS.includes "ti:"
                  ("all:" ++ ArxivClient.inQuotes topic ++ " OR ti:"
                          ++ ArxivClient.inQuotes topic ++ " OR abs:"
                          ++ ArxivClient.inQuotes topic) = true).
    { apply (includes_app_l "ti:" _ "all:").
      apply includes_app_l.
      apply (includes_app_l "ti:" _ " OR ").
      reflexivity. }
    rewrite H. rewrite orb_true_r. reflexivity.
  - intros category Hother. unfold ArxivClient.latestQuery.
    destruct (String.eqb category "all") eqn:E;
      [apply String.eqb_eq in E; contradiction|].
    apply optimizeQuery_unchanged.
    unfold ArxivClient.hasSyntax.
    rewrite (includes_head "cat:" category). reflexivity.
  - reflexivity.
Qed.

Lemma client_queries_through_optimizeQuery_witness :
  ArxivClient.optimizeQuery (ArxivClient.latestQuery "cs.CL") = "cat:cs.CL".
Proof.
  apply (proj1 (proj2 client_queries_through_optimizeQuery) "cs.CL").
  discriminate.
Defined.

(** X6. A query without field syntax that names a known topic, in any
    letter case, is restricted to the topic's categories; when several
    topics occur, the first in the table decides. For [quantum computing]:
    the categories quant-ph and cs.ET, whatever else the query names. *)
Theorem optimizeQuery_first_topic :
  forall query : string,
    ArxivClient.hasSyntax query = false ->
    JS.includes "quantum computing" (ArxivClient.toLowerCase query) = true ->
    ArxivClient.optimizeQuery query
    = "(cat:quant-ph OR cat:cs.ET) AND (ti:" ++ ArxivClient.inQuotes query
        ++ " OR abs:" ++ ArxivClient.inQuotes query ++ ")".
Proof.
  intros query Hsyntax Htopic. unfold ArxivClient.optimizeQuery.
  rewrite Hsyntax. cbv zeta.
  unfold ArxivClient.topicCategories. cbn [List.find fst]. rewrite Htopic.
  reflexivity.
Qed.

Lemma optimizeQuery_first_topic_witness :
  ArxivClient.optimizeQuery "Machine Learning for QUANTUM Computing"
  = "(cat:quant-ph OR cat:cs.ET) AND (ti:"
      ++ ArxivClient.inQuotes "Machine Learning for QUANTUM Computing"
      ++ " OR abs:" ++ ArxivClient.inQuotes "Machine Learning for QUANTUM Computing"
      ++ ")".
Proof.
  exact (optimizeQuery_first_topic "Machine Learning for QUANTUM Computing"
           eq_refl eq_refl).
Defined.

(** ** [GoogleScholarClient.extractYear] (scholar.ts, lines 101-104) *)

Lemma yearAtHead_shape (s year : string) :
  GoogleScholarClient.yearAtHead s = Some year ->
  String.length year = 4%nat
  /\ (JS.startsWith "19" year = true \/ JS.startsWith "20" year = true)
  /\ List.Forall (fun c => JS.isDigit c = true) (list_ascii_of_string year)
  /\ JS.startsWith year s = true.
Proof.
  unfold GoogleScholarClient.yearAtHead.
  destruct s as [|a [|b [|c [|d rest]]]]; try discriminate.
  destruct (_ && _) eqn:Hmatch; [|discriminate].
  intros Heq. injection Heq as <-.
  apply andb_true_iff in Hmatch as [Hmatch _].
  apply andb_true_iff in Hmatch as [Hmatch Hd].
  apply andb_true_iff in Hmatch as [Hcentury Hc].
  split; [reflexivity|].
  assert (Hab : (a = "1"%char /\ b = "9"%char) \/ (a = "2"%char /\ b = "0"%char)).
  { apply orb_true_iff in Hcentury as [H | H];
      apply andb_true_iff in H as [Ha Hb];
      apply Ascii.eqb_eq in Ha, Hb; auto. }
  split; [|split].
  - destruct Hab as [[-> ->] | [-> ->]]; [left | right]; reflexivity.
  - destruct Hab as [[-> ->] | [-> ->]]; repeat constructor; assumption.
  - change (String a (String b (String c (String d rest))))
      with (String a (String b (String c (String d EmptyString))) ++ rest).
    apply startsWith_self.
Qed.

Lemma firstYear_shape (s : string) :
  forall (before : option ascii) (year : string),
    GoogleScholarClient.firstYear before s = Some year ->
    String.length year = 4%nat
    /\ (JS.startsWith "19" year = true \/ JS.startsWith "20" year = true)
    /\ List.Forall (fun c => JS.isDigit c = true) (list_ascii_of_string year)
    /\ JS.includes year s = true.
Proof.
  induction s as [|c s IH]; intros before year; cbn [GoogleScholarClient.firstYear].
  - destruct (GoogleScholarClient.boundary before EmptyString); discriminate.
  - destruct (if GoogleScholarClient.boundary before (String c s)
              then GoogleScholarClient.yearAtHead (String c s) else None)
      as [found|] eqn:Hhere.
    + intros Heq. injection Heq as ->.
      destruct (GoogleScholarClient.boundary before (String c s)); [|discriminate].
      destruct (yearAtHead_shape _ _ Hhere) as (Hlen & Hcent & Hdig & Hstart).
      repeat split; try assumption.
      cbn [JS.includes]. rewrite Hstart. reflexivity.
    + intros Hlater. destruct (IH _ _ Hlater) as (Hlen & Hcent & Hdig & Hinc).
      repeat split; try assumption.
      cbn [JS.includes]. rewrite Hinc. apply orb_true_r.
Qed.

Lemma firstYear_needs_digit (s : string) :
  forall before : option ascii,
    List.Forall (fun c => JS.isDigit c = false) (list_ascii_of_string s) ->
    GoogleScholarClient.firstYear before s = None.
Proof.
  induction s as [|c s IH]; intros before Hnone;
    cbn [GoogleScholarClient.firstYear].
  - destruct (GoogleScholarClient.boundary before EmptyString); reflexivity.
  - cbn in Hnone. inversion Hnone as [|? ? Hc Hrest]; subst.
    assert (Hhead : GoogleScholarClient.yearAtHead (String c s) = None).
    { unfold GoogleScholarClient.yearAtHead.
      destruct s as [|b [|c' [|d rest]]]; try reflexivity.
      destruct (Ascii.eqb c "1") eqn:E1;
        [apply Ascii.eqb_eq in E1; subst c; discriminate Hc|].
      destruct (Ascii.eqb c "2") eqn:E2;
        [apply Ascii.eqb_eq in E2; subst c; discriminate Hc|].
      reflexivity. }
    rewrite Hhead.
    destruct (GoogleScholarClient.boundary before (String c s)); apply IH; exact Hrest.
Qed.

(** X7. [extractYear] returns either the empty string or a year that
    occurs in the byline: four digits starting with 19 or 20. A byline
    without any digit gives the empty string. *)
Theorem extractYear_shape :
  forall text : string,
    let year := GoogleScholarClient.extractYear text in
    (year = EmptyString
     \/ (String.length year = 4%nat
         /\ (JS.startsWith "19" year = true \/ JS.startsWith "20" year = true)
         /\ List.Forall (fun c => JS.isDigit c = true) (list_ascii_of_string year)
         /\ JS.includes year text = true))
    /\ (List.Forall (fun c => JS.isDigit c = false) (list_ascii_of_string text) ->
        year = EmptyString).
Proof.
  intros text. unfold GoogleScholarClient.extractYear. split.
  - destruct (GoogleScholarClient.firstYear None text) as [year|] eqn:Hyear.
    + right. exact (firstYear_shape text None year Hyear).
    + left. reflexivity.
  - intros Hnone. rewrite (firstYear_needs_digit text None Hnone). reflexivity.
Qed.

Lemma extractYear_shape_witness :
  GoogleScholarClient.extractYear "A Vaswani, N Shazeer - Advances in neural ..., 2017 - proceedings.neurips.cc"
  = "2017"
  /\ GoogleScholarClient.extractYear "J Doe - arXiv preprint arXiv:12017.1" = EmptyString
  /\ GoogleScholarClient.extractYear "no digits here" = EmptyString.
Proof.
  split; [reflexivity|]. split; [reflexivity|].
  apply (proj2 (extractYear_shape "no digits here")).
  repeat constructor.
Defined.

(** ** What a download leaves behind (lines 30-97) *)

(** Counts of writes and queries over a trace built with [++] and [::]. *)
Ltac count_writes :=
  unfold Artifacts.writes, Artifacts.queries in *;
  repeat (rewrite List.filter_app || rewrite List.length_app
          || cbn [List.filter List.length List.app
                  Artifacts.isWrote Artifacts.isQueried]);
  lia.

Section Artifact.

Variable env : Env.

Lemma settled_later (w w1 w' : world) (r : outcome string) (before : list event) :
  files w1 = files w ->
  log w1 = (log w ++ before)%list ->
  Artifacts.writes before = 0%nat ->
  Artifacts.settled env w1 r w' ->
  Artifacts.settled env w r w'.
Proof.
  intros Hfiles Hlog Hnone (events & Hevents & Hdone).
  exists (before ++ events)%list. split.
  - rewrite Hevents, Hlog, List.app_assoc. reflexivity.
  - destruct r as [filepath|e].
    + destruct Hdone as (name & url & data & Hp & Hget & Hpdf & Hsafe & Hput & Hone).
      exists name, url, data. rewrite <- Hfiles.
      repeat split; try assumption. count_writes.
    + destruct Hdone as [Hsame Hzero]. split; [congruence | count_writes].
Qed.

(** The resolver writes nothing and leaves the directory as it is. *)
Lemma findPaperOnArxiv_quiet (title : string) (w : world) :
  exists result events,
    PDFUtils.findPaperOnArxiv env title w
    = Some (Return result, {| files := files w; log := log w ++ events |})
    /\ Artifacts.writes events = 0%nat.
Proof.
  unfold PDFUtils.findPaperOnArxiv. run_monad.
  destruct (arxivApi env _) as [[|first others]|e]; run_monad.
  - destruct (arxivApi env (PDFUtils.fallbackQueryOf title)) as [entries|e];
      run_monad.
    + destruct (PDFUtils.pdfLinkOf entries) as [link|e]; run_monad;
        do 2 eexists; (split; [reflexivity | count_writes]).
    + do 2 eexists. split; [reflexivity | count_writes].
  - destruct (PDFUtils.pdfLinkOf (first :: others)) as [link|e]; run_monad;
      do 2 eexists; (split; [reflexivity | count_writes]).
  - do 2 eexists. split; [reflexivity | count_writes].
Qed.

Lemma catchBlock_settled (again : string -> option string -> M string)
  (pdfUrl : string) (filename : option string) (error : string) :
  (forall u f w r w', again u f w = Some (r, w') -> Artifacts.settled env w r w') ->
  forall w r w',
    PDFUtils.catchBlock again env pdfUrl filename error w = Some (r, w') ->
    Artifacts.settled env w r w'.
Proof.
  intros Hagain w r w'. unfold PDFUtils.catchBlock. run_monad.
  assert (Hthrow : forall (before : list event) (e : string),
            Artifacts.writes before = 0%nat ->
            Artifacts.settled env w (Throw e)
              {| files := files w; log := log w ++ before |}).
  { intros before e Hzero. exists before. repeat split. exact Hzero. }
  destruct (PDFUtils.isPaywalledSource pdfUrl); run_monad;
    [|intros Heq; injection Heq as <- <-; apply Hthrow; count_writes].
  destruct (PDFUtils.extractTitleFromUrl pdfUrl filename) as [paperTitle|];
    run_monad;
    [|intros Heq; injection Heq as <- <-; apply Hthrow; count_writes].
  destruct (JS.truthy paperTitle); run_monad;
    [|intros Heq; injection Heq as <- <-; apply Hthrow; count_writes].
  match goal with
  | |- context [PDFUtils.findPaperOnArxiv env paperTitle ?w1] =>
      destruct (findPaperOnArxiv_quiet paperTitle w1)
        as (found & searched & Hsearch & Hquiet)
  end.
  rewrite Hsearch. cbn [files log].
  destruct found as [substitute|]; run_monad;
    [|intros Heq; injection Heq as <- <-; apply Hthrow; count_writes].
  match goal with
  | |- context [again substitute filename ?w2] =>
      destruct (again substitute filename w2) as [[nested w3]|] eqn:Hnested;
        [pose proof (Hagain _ _ _ _ _ Hnested) as Hdone | discriminate]
  end.
  destruct nested as [filepath|e]; run_monad;
    intros Heq; injection Heq as <- <-.
  - eapply settled_later; [| | |exact Hdone]; cbn [files log];
      [reflexivity | reflexivity | count_writes].
  - destruct Hdone as (events & Hevents & Hsame & Hzero). cbn [files log] in *.
    eexists. split.
    + cbn [log]. rewrite Hevents. rewrite <- !List.app_assoc. cbn [List.app].
      reflexivity.
    + split; [exact Hsame | count_writes].
Qed.

Lemma downloadPDF_settled (fuel : nat) :
  forall pdfUrl filename w r w',
    PDFUtils.downloadPDF fuel env pdfUrl filename w = Some (r, w') ->
    Artifacts.settled env w r w'.
Proof.
  induction fuel as [|fuel IH]; intros pdfUrl filename w r w'.
  - discriminate.
  - rewrite downloadPDF_step. run_monad.
    destruct (httpGet env pdfUrl) as [data|error] eqn:Hget.
    + cbv zeta. unfold FS.writeFileSync. run_monad.
      destruct (FS.lookup _ (files w)) as [[content|]|] eqn:Hlookup; run_monad.
      * intros Heq. injection Heq as <- <-. eexists. split; [reflexivity|].
        exists (PDFUtils.storedFilename (now env) pdfUrl filename), pdfUrl, data.
        destruct (storedFilename_shape (now env) pdfUrl filename) as [Hpdf Hsafe].
        repeat split; try assumption; try count_writes.
      * intros Hrun. apply catchBlock_settled in Hrun; [|exact IH].
        eapply settled_later; [| | |exact Hrun]; cbn [files log];
          [reflexivity | reflexivity | count_writes].
      * intros Heq. injection Heq as <- <-. eexists. split; [reflexivity|].
        exists (PDFUtils.storedFilename (now env) pdfUrl filename), pdfUrl, data.
        destruct (storedFilename_shape (now env) pdfUrl filename) as [Hpdf Hsafe].
        repeat split; try assumption; try count_writes.
    + intros Hrun. apply catchBlock_settled in Hrun; [|exact IH].
      eapply settled_later; [| | |exact Hrun]; cbn [files log];
        [reflexivity | reflexivity | count_writes].
Qed.

End Artifact.

Section Directory.

Lemma lookup_put_same (name data : string) (d : list (string * node)) :
  FS.lookup name (FS.put name data d) = Some (File data).
Proof.
  unfold FS.lookup. induction d as [|[n x] d IH]; cbn.
  - rewrite String.eqb_refl. reflexivity.
  - destruct (String.eqb n name) eqn:E; cbn; rewrite E; [reflexivity | exact IH].
Qed.

Lemma lookup_put_other (name other data : string) (d : list (string * node)) :
  other <> name -> FS.lookup other (FS.put name data d) = FS.lookup other d.
Proof.
  intros Hother. unfold FS.lookup. induction d as [|[n x] d IH]; cbn.
  - destruct (String.eqb name other) eqn:E; [|reflexivity].
    apply String.eqb_eq in E. congruence.
  - destruct (String.eqb n name) eqn:E; cbn.
    + apply String.eqb_eq in E. subst n.
      destruct (String.eqb name other) eqn:E'; [|reflexivity].
      apply String.eqb_eq in E'. congruence.
    + destruct (String.eqb n other); [reflexivity | exact IH].
Qed.

Lemma lookup_in (name : string) (x : node) (d : list (string * node)) :
  FS.lookup name d = Some x -> List.In name (List.map fst d).
Proof.
  unfold FS.lookup. induction d as [|[n y] d IH]; cbn; [discriminate|].
  destruct (String.eqb n name) eqn:E.
  - apply String.eqb_eq in E. auto.
  - intros H. right. exact (IH H).
Qed.

(** Writing keeps the names of the directory distinct. *)
Lemma put_nodup (name data : string) (d : list (string * node)) :
  List.NoDup (List.map fst d) -> List.NoDup (List.map fst (FS.put name data d)).
Proof.
  induction d as [|[n x] d IH]; intros Hnodup; cbn.
  - repeat constructor. intros [].
  - destruct (String.eqb n name) eqn:E; [exact Hnodup|].
    inversion Hnodup as [|? ? Hfresh Hrest]; subst. constructor; [|exact (IH Hrest)].
    cbn. intros Hin. apply Hfresh. clear IH Hnodup Hrest Hfresh.
    induction d as [|[m y] d IHd]; cbn in *.
    + destruct Hin as [Heq | []]. subst. rewrite String.eqb_refl in E. discriminate.
    + destruct (String.eqb m name) eqn:E'; cbn in Hin.
      * exact Hin.
      * destruct Hin as [Heq | Hin]; [left; exact Heq | right; exact (IHd Hin)].
Qed.

Lemma append_cancel (a b c : string) : a ++ b = a ++ c -> b = c.
Proof. induction a as [|x a IH]; cbn; intros H; [exact H | injection H as H; auto]. Qed.

Lemma pathJoin_eqb (dir n name : string) :
  String.eqb (pathJoin dir n) (pathJoin dir name) = String.eqb n name.
Proof.
  destruct (String.eqb n name) eqn:E.
  - apply String.eqb_eq in E. subst. apply String.eqb_refl.
  - apply String.eqb_neq. apply String.eqb_neq in E. intros H. apply E.
    unfold pathJoin in H. apply append_cancel in H. cbn in H. congruence.
Qed.

(** A path of the downloads directory exists, and holds the bytes of its
    entry, on the machine that sees the directory. *)
Lemma hostAfter_sees (env : Env) (installed : bool)
  (render : string -> option (list string)) (w : world) (name data : string) :
  FS.lookup name (files w) = Some (File data) ->
  existsSync (PDFUtils.hostAfter env installed render w)
             (pathJoin (downloadsDir env) name) = true
  /\ pdfPages (PDFUtils.hostAfter env installed render w)
              (pathJoin (downloadsDir env) name) = render data.
Proof.
  intros Hlookup. cbn [existsSync pdfPages PDFUtils.hostAfter].
  unfold PDFUtils.dataAt. unfold FS.lookup in Hlookup.
  induction (files w) as [|[n x] d IH]; cbn in *; [discriminate|].
  rewrite pathJoin_eqb. destruct (String.eqb n name) eqn:E.
  - cbn in Hlookup. injection Hlookup as ->. split; reflexivity.
  - destruct (IH Hlookup) as [Hex Hpages]. split; [exact Hex | exact Hpages].
Qed.

End Directory.

(** X8. A call of [downloadPDF] that throws leaves no file behind: the
    downloads directory is exactly as before the call and no write was
    made, whether the fallback was tried or not. *)
Theorem failed_download_leaves_no_file :
  forall (env : Env) (fuel : nat) (pdfUrl : string) (filename : option string)
         (w w' : world) (e : string),
    PDFUtils.downloadPDF fuel env pdfUrl filename w = Some (Throw e, w') ->
    files w' = files w
    /\ exists events,
         log w' = (log w ++ events)%list /\ Artifacts.writes events = 0%nat.
Proof.
  intros env fuel pdfUrl filename w w' e Hrun.
  destruct (downloadPDF_settled env fuel _ _ _ _ _ Hrun)
    as (events & Hevents & Hsame & Hzero).
  split; [exact Hsame|]. exists events. split; assumption.
Qed.

Lemma failed_download_leaves_no_file_witness :
  exists w',
    PDFUtils.downloadPDF 2 Demo.env "https://sciencedirect.com/paper123.pdf" None
      Demo.threeFiles
    = Some (Throw "Failed to download PDF: Request failed with status code 403", w')
    /\ files w' = files Demo.threeFiles.
Proof.
  eexists. split; [vm_compute; reflexivity|].
  refine (proj1 (failed_download_leaves_no_file Demo.env 2
                   "https://sciencedirect.com/paper123.pdf" None Demo.threeFiles _
                   "Failed to download PDF: Request failed with status code 403" _)).
  vm_compute. reflexivity.
Defined.

(** X9. A call of [downloadPDF] that returns has made exactly one write:
    the path returned is [downloadsDir/name] for a name ending in [.pdf]
    and made of safe characters, the entry of that name holds the bytes
    fetched from some URL (the requested one or the substitute), every
    other entry is as before, and [listDownloadedPDFs] lists the path. *)
Theorem returned_download_is_stored :
  forall (env : Env) (fuel : nat) (pdfUrl : string) (filename : option string)
         (w w' : world) (filepath : string),
    PDFUtils.downloadPDF fuel env pdfUrl filename w = Some (Return filepath, w') ->
    exists name url data events,
      filepath = pathJoin (downloadsDir env) name
      /\ JS.endsWith ".pdf" name = true
      /\ Artifacts.safeName name
      /\ httpGet env url = Return data
      /\ FS.lookup name (files w') = Some (File data)
      /\ (forall other, other <> name ->
            FS.lookup other (files w') = FS.lookup other (files w))
      /\ log w' = (log w ++ events)%list
      /\ Artifacts.writes events = 1%nat
      /\ List.In filepath (PDFUtils.listDownloadedPDFs env w').
Proof.
  intros env fuel pdfUrl filename w w' filepath Hrun.
  destruct (downloadPDF_settled env fuel _ _ _ _ _ Hrun)
    as (events & Hevents & name & url & data & Hp & Hget & Hpdf & Hsafe & Hput & Hone).
  exists name, url, data, events.
  assert (Hlookup : FS.lookup name (files w') = Some (File data))
    by (rewrite Hput; apply lookup_put_same).
  repeat split; try assumption.
  - intros other Hother. rewrite Hput. apply lookup_put_other. exact Hother.
  - subst filepath. unfold PDFUtils.listDownloadedPDFs.
    apply List.in_map, List.filter_In. split; [|exact Hpdf].
    exact (lookup_in name _ _ Hlookup).
Qed.

Lemma returned_download_is_stored_witness :
  exists w',
    PDFUtils.downloadPDF 2 Demo.env "https://sciencedirect.com/paper123.pdf"
      (Some "Attention Is All You Need") Demo.threeFiles
    = Some (Return "/tmp/science_mcp_downloads/Attention_Is_All_You_Need.pdf", w')
    /\ List.In "/tmp/science_mcp_downloads/Attention_Is_All_You_Need.pdf"
               (PDFUtils.listDownloadedPDFs Demo.env w').
Proof.
  eexists. split; [vm_compute; reflexivity|].
  destruct (returned_download_is_stored Demo.env 2
              "https://sciencedirect.com/paper123.pdf"
              (Some "Attention Is All You Need") Demo.threeFiles _
              "/tmp/science_mcp_downloads/Attention_Is_All_You_Need.pdf"
              ltac:(vm_compute; reflexivity))
    as (name & url & data & events & _ & _ & _ & _ & _ & _ & _ & _ & Hlisted).
  exact Hlisted.
Defined.

(** X10. When the primary fetch succeeds (and no directory stands under
    the name), [downloadPDF] writes the bytes under the stored name,
    replacing any file of that name, and returns the path: there is one
    fetch and no fallback, even for a URL the classifier judges
    paywalled. *)
Theorem fetched_download_skips_fallback :
  forall (env : Env) (fuel : nat) (pdfUrl : string) (filename : option string)
         (w : world) (data : string),
    httpGet env pdfUrl = Return data ->
    let name := PDFUtils.storedFilename (now env) pdfUrl filename in
    let filepath := pathJoin (downloadsDir env) name in
    FS.lookup name (files w) <> Some Directory ->
    PDFUtils.downloadPDF (S fuel) env pdfUrl filename w
    = Some (Return filepath,
            {| files := FS.put name data (files w);
               log := log w ++ [ Fetched pdfUrl; Wrote filepath;
                                 Stderr ("PDF downloaded successfully: " ++ filepath) ] |})
    /\ FS.lookup name (FS.put name data (files w)) = Some (File data)
    /\ Trace.resolverCalls
         [ Fetched pdfUrl; Wrote filepath;
           Stderr ("PDF downloaded successfully: " ++ filepath) ] = 0%nat.
Proof.
  intros env fuel pdfUrl filename w data Hget name filepath Hfree.
  split; [|split; [apply lookup_put_same | reflexivity]].
  rewrite downloadPDF_step. run_monad. rewrite Hget. cbv zeta.
  unfold FS.writeFileSync. run_monad. fold name. fold filepath.
  destruct (FS.lookup name (files w)) as [[content|]|]; run_monad;
    try reflexivity.
  contradiction Hfree. reflexivity.
Qed.

Lemma fetched_download_skips_fallback_witness :
  httpGet Demo.relayEnv Demo.attention = Return "%PDF-1.5 attention"
  /\ PDFUtils.downloadPDF 1 Demo.relayEnv Demo.attention (Some "a") Demo.threeFiles
     = Some (Return "/tmp/science_mcp_downloads/a.pdf",
             {| files := [ ("a.pdf", File "%PDF-1.5 attention");
                           ("b.pdf", File "%PDF-1.4 b");
                           ("notes.txt", File "notes") ];
                log := [ Fetched Demo.attention;
                         Wrote "/tmp/science_mcp_downloads/a.pdf";
                         Stderr "PDF downloaded successfully: /tmp/science_mcp_downloads/a.pdf" ] |}).
Proof.
  split; [reflexivity|].
  refine (proj1 (fetched_download_skips_fallback Demo.relayEnv 0 Demo.attention
                   (Some "a") Demo.threeFiles "%PDF-1.5 attention" eq_refl _)).
  discriminate.
Defined.

(** ** The Alternate-Source Resolver (lines 117-168) *)

(** X11. [findPaperOnArxiv] never throws and never touches the directory.
    It sends the quoted title first. When that pass has an entry it is
    the only query, and the result is the first PDF link of the first
    entry, or null when that entry has none (no second pass then). Only
    when the first pass has no entry is the de-punctuated title sent, and
    the result read from that feed. When a request fails the result is
    null. *)
Theorem resolver_two_passes :
  forall (env : Env) (title : string) (w : world),
    let first := "ti:" ++ String JSON.dquote title ++ String JSON.dquote EmptyString in
    let second := PDFUtils.fallbackQueryOf title in
    let linkOf entries :=
      match PDFUtils.pdfLinkOf entries with
      | Return link => link
      | Throw _ => None
      end in
    exists result events,
      PDFUtils.findPaperOnArxiv env title w
      = Some (Return result,
              {| files := files w; log := log w ++ Resolved title :: events |})
      /\ match arxivApi env first with
         | Return (entry :: entries) =>
             result = linkOf (entry :: entries)
             /\ Artifacts.queries events = 1%nat
             /\ List.In (Queried first) events
         | Return [] =>
             Artifacts.queries events = 2%nat
             /\ List.In (Queried first) events
             /\ List.In (Queried second) events
             /\ result = match arxivApi env second with
                         | Return entries => linkOf entries
                         | Throw _ => None
                         end
         | Throw _ =>
             result = None
             /\ Artifacts.queries events = 1%nat
         end.
Proof.
  intros env title w first second linkOf.
  unfold PDFUtils.findPaperOnArxiv. run_monad. fold first. fold second.
  destruct (arxivApi env first) as [[|entry entries]|e]; run_monad.
  - destruct (arxivApi env second) as [found|e]; run_monad.
    + unfold linkOf.
      destruct (PDFUtils.pdfLinkOf found) as [link|e]; run_monad;
        do 2 eexists; (split; [reflexivity|]);
        (split; [count_writes|]); cbn; auto.
    + do 2 eexists. split; [reflexivity|].
      split; [count_writes|]. cbn. auto.
  - unfold linkOf.
    destruct (PDFUtils.pdfLinkOf (entry :: entries)) as [link|e]; run_monad;
      do 2 eexists; (split; [reflexivity|]);
      (split; [reflexivity|]); (split; [count_writes|]); cbn; auto.
  - do 2 eexists. split; [reflexivity|]. split; [reflexivity | count_writes].
Qed.

(** ** [downloadAndReadPDF] (lines 270-274) *)


(** ** Page windows and chunks (lines 202-268) *)

Section Windows.

Variable h : Host.
Variable filepath : string.
Variable pages : list string.
Hypothesis file_exists : existsSync h filepath = true.
Hypothesis tool_installed : popplerInstalled h = true.
Hypothesis document : pdfPages h filepath = Some pages.

Let n := Z.of_nat (List.length pages).

(** The text of a window inside the document. *)
Lemma readPDFText_window (s e : Z) :
  1 <= s <= e -> e <= n ->
  PDFUtils.readPDFText h filepath (Some (inject_Z s)) (Some (inject_Z e))
  = Return (String.concat EmptyString (Poppler.pageRange s e pages)).
Proof.
  intros Hse He. unfold PDFUtils.readPDFText, Poppler.pdftotext.
  rewrite file_exists.
  cbn [negb PDFUtils.commandOf inputFile firstPage lastPage Poppler.intOption].
  rewrite tool_installed, !asInteger_inject, document. fold n.
  destruct (s <? 1) eqn:E1; [lia|].
  destruct (e <? 1) eqn:E2; [lia|].
  destruct (e >? n) eqn:E3; [lia|]. cbn [orb].
  destruct (e <? s) eqn:E4; [lia | reflexivity].
Qed.

(** An end page past the last page is the last page. *)
Lemma readPDFText_clamped (s e : Z) :
  1 <= s <= n -> n < e ->
  PDFUtils.readPDFText h filepath (Some (inject_Z s)) (Some (inject_Z e))
  = PDFUtils.readPDFText h filepath (Some (inject_Z s)) None.
Proof.
  intros Hs He. unfold PDFUtils.readPDFText, Poppler.pdftotext.
  rewrite file_exists.
  cbn [negb PDFUtils.commandOf inputFile firstPage lastPage Poppler.intOption].
  rewrite tool_installed, !asInteger_inject, document. fold n.
  destruct (e <? 1) eqn:E2; [lia|].
  destruct (e >? n) eqn:E3; [reflexivity | lia].
Qed.

(** An end page before the start page makes the tool fail: the
    placeholder, not an error. *)
Lemma readPDFText_reversed (s e : Z) :
  1 <= e < s -> e <= n ->
  PDFUtils.readPDFText h filepath (Some (inject_Z s)) (Some (inject_Z e))
  = Return PDFUtils.extractionFailedMessage.
Proof.
  intros Hes He. unfold PDFUtils.readPDFText, Poppler.pdftotext.
  rewrite file_exists.
  cbn [negb PDFUtils.commandOf inputFile firstPage lastPage Poppler.intOption].
  rewrite tool_installed, !asInteger_inject, document. fold n.
  destruct (s <? 1) eqn:E1; [lia|].
  destruct (e <? 1) eqn:E2; [lia|].
  destruct (e >? n) eqn:E3; [lia|]. cbn [orb].
  destruct (e <? s) eqn:E4; [reflexivity | lia].
Qed.

(** A page bound that is not an integer makes the tool fail too. *)
Lemma readPDFText_fractional (s e : Q) :
  JS.asInteger s = None \/ JS.asInteger e = None ->
  PDFUtils.readPDFText h filepath (Some s) (Some e)
  = Return PDFUtils.extractionFailedMessage.
Proof.
  intros Hfrac. unfold PDFUtils.readPDFText, Poppler.pdftotext.
  rewrite file_exists.
  cbn [negb PDFUtils.commandOf inputFile firstPage lastPage Poppler.intOption].
  rewrite tool_installed.
  destruct Hfrac as [-> | ->]; [reflexivity|].
  destruct (JS.asInteger s); reflexivity.
Qed.

Lemma concat_cons (x : string) (xs : list string) :
  String.concat EmptyString (x :: xs) = x ++ String.concat EmptyString xs.
Proof.
  destruct xs as [|y ys]; cbn; [|reflexivity].
  induction x as [|c x IH]; cbn; congruence.
Qed.

Lemma concat_app (xs ys : list string) :
  String.concat EmptyString (xs ++ ys)
  = String.concat EmptyString xs ++ String.concat EmptyString ys.
Proof.
  induction xs as [|x xs IH].
  - reflexivity.
  - change ((x :: xs) ++ ys)%list with (x :: (xs ++ ys))%list.
    rewrite !concat_cons, IH, append_assoc. reflexivity.
Qed.

(** From any start page, the chunks produced by the extraction loop at an
    integer chunk size add up to the text of the pages from that page
    on. *)
Lemma chunkLoop_adds_up (c : Z) (fuel : nat) :
  1 <= c ->
  forall (s : Z) (texts : list string),
    1 <= s ->
    PDFUtils.chunkLoop h filepath (inject_Z c) n fuel (inject_Z s)
    = Some (Return texts) ->
    String.concat EmptyString texts
    = String.concat EmptyString (List.skipn (Z.to_nat (s - 1)) pages).
Proof.
  intros Hc. induction fuel as [|fuel IH]; intros s texts Hs Hrun; [discriminate|].
  rewrite chunkLoop_integer_step in Hrun. destruct (s <=? n) eqn:Hsn.
  - apply Z.leb_le in Hsn.
    rewrite readPDFText_window in Hrun by lia.
    destruct (PDFUtils.chunkLoop h filepath (inject_Z c) n fuel (inject_Z (s + c)))
      as [[rest|e]|] eqn:Hrest; try discriminate.
    injection Hrun as <-.
    rewrite concat_cons, (IH (s + c) rest ltac:(lia) Hrest), <- concat_app. f_equal.
    unfold Poppler.pageRange.
    destruct (Z.le_gt_cases (s + c - 1) n) as [Hin | Hout].
    + rewrite Z.min_l by lia.
      replace (Z.to_nat (s + c - 1 - s + 1)) with (Z.to_nat c) by lia.
      replace (Z.to_nat (s + c - 1)) with (Z.to_nat c + Z.to_nat (s - 1))%nat by lia.
      rewrite <- List.skipn_skipn. apply List.firstn_skipn.
    + rewrite Z.min_r by lia.
      rewrite (List.skipn_all2 (n := Z.to_nat (s + c - 1))) by (unfold n in *; lia).
      rewrite List.app_nil_r.
      apply List.firstn_all2. rewrite List.length_skipn. unfold n in *. lia.
  - apply Z.leb_gt in Hsn. injection Hrun as <-.
    rewrite List.skipn_all2 by (unfold n in *; lia). reflexivity.
Qed.

(** On a document with at least one page, a chunked read at a chunk size
    above 0 returns its chunks with the page count. *)
Lemma readPDFTextChunked_chunks (c : Q) :
  (0 < c)%Q -> 1 <= n ->
  exists texts,
    PDFUtils.chunkLoop h filepath c n (PDFUtils.loopSteps c n) 1%Q = Some (Return texts)
    /\ PDFUtils.readPDFTextChunked h filepath c
       = Some (Return {| PDFUtils.chunks := texts; PDFUtils.totalPages := n |}).
Proof.
  intros Hc Hn.
  destruct (loopSteps_enough c n Hc Hn) as (m & Hm & Hsteps).
  pose proof (chunkLoop_returns h filepath c n _ Hc 1%Q m Hm Hsteps) as Hsome.
  pose proof (chunkLoop_no_throw h filepath c n (PDFUtils.loopSteps c n) file_exists 1%Q)
    as Hquiet.
  destruct (PDFUtils.chunkLoop h filepath c n (PDFUtils.loopSteps c n) 1%Q)
    as [[texts|e]|] eqn:Hloop; [|exfalso; exact (Hquiet e eq_refl) | congruence].
  exists texts. split; [reflexivity|].
  unfold PDFUtils.readPDFTextChunked, Poppler.pdfinfoPages.
  rewrite file_exists, tool_installed, document. cbn [negb]. fold n.
  destruct (n =? 0) eqn:E; [lia|]. rewrite Hloop. reflexivity.
Qed.

End Windows.



(** The chunk size is not checked to be an integer. On the five-page
    document read at chunk size 1.5 the loop asks the tool for the pages
    1 to 1.5, 2.5 to 4 and 4 to 4.5: each request is refused, and every
    chunk is the placeholder message. *)
Example fractional_chunks_are_placeholders :
  PDFUtils.readPDFTextChunked Demo.fiveHost Demo.paper (3 # 2)
  = Some (Return {| PDFUtils.chunks :=
                      [PDFUtils.extractionFailedMessage;
                       PDFUtils.extractionFailedMessage;
                       PDFUtils.extractionFailedMessage];
                    PDFUtils.totalPages := 5 |}).
Proof. reflexivity. Qed.



(** ** Edges of [readPDFTextChunked] and of the chunked handler *)

(** With a chunk size of 0 or less the start page of the extraction loop
    never passes the last page. *)
Lemma chunkLoop_never_ends (h : Host) (filepath : string) (c : Q) (T : Z)
  (fuel : nat) :
  existsSync h filepath = true ->
  (c <= 0)%Q ->
  forall s : Q, (s <= inject_Z T)%Q -> PDFUtils.chunkLoop h filepath c T fuel s = None.
Proof.
  intros Hexists Hc. induction fuel as [|fuel IH]; intros s Hs; [reflexivity|].
  cbn [PDFUtils.chunkLoop]. apply le_spec in Hs as Hle. rewrite Hle.
  destruct (readPDFText_total h filepath (Some s)
              (Some (JS.min (s + c - 1) (inject_Z T))) Hexists) as [text ->].
  rewrite IH by lra. reflexivity.
Qed.

(** X15. Errors and the degenerate chunk size of [readPDFTextChunked]. On a
    path that does not exist it throws not-found, wrapped as a chunked
    read failure, whatever the chunk size; when the page count cannot be
    read (tool absent, unreadable file) or is zero it throws too. With a
    chunk size of 0 or less on a document of at least one page it never
    returns: the start page of its loop does not advance. *)
Theorem chunked_read_edges :
  forall (h : Host) (filepath : string) (chunkSize : Q),
    (existsSync h filepath = false ->
     PDFUtils.readPDFTextChunked h filepath chunkSize
     = Some (Throw ("Failed to read PDF in chunks: PDF file not found: " ++ filepath)))
    /\ (existsSync h filepath = true ->
        (popplerInstalled h = false \/ pdfPages h filepath = None) ->
        exists e, PDFUtils.readPDFTextChunked h filepath chunkSize = Some (Throw e))
    /\ (existsSync h filepath = true ->
        popplerInstalled h = true ->
        pdfPages h filepath = Some [] ->
        PDFUtils.readPDFTextChunked h filepath chunkSize
        = Some (Throw "Failed to read PDF in chunks: Could not determine PDF page count"))
    /\ (existsSync h filepath = true ->
        popplerInstalled h = true ->
        forall pages, pdfPages h filepath = Some pages -> pages <> [] ->
        (chunkSize <= 0)%Q ->
        PDFUtils.readPDFTextChunked h filepath chunkSize = None
        /\ forall fuel,
             PDFUtils.chunkLoop h filepath chunkSize (Z.of_nat (List.length pages)) fuel 1
             = None).
Proof.
  intros h filepath c. unfold PDFUtils.readPDFTextChunked, Poppler.pdfinfoPages.
  split; [|split; [|split]].
  - intros ->. reflexivity.
  - intros -> [-> | Hnone]; cbn [negb]; [eexists; reflexivity|].
    rewrite Hnone. destruct (popplerInstalled h); eexists; reflexivity.
  - intros -> -> ->. reflexivity.
  - intros Hexists Hinst pages Hdoc Hnonempty Hc.
    assert (Hn : 1 <= Z.of_nat (List.length pages))
      by (destruct pages; [congruence | cbn [List.length]; lia]).
    assert (Hstart : (1 <= inject_Z (Z.of_nat (List.length pages)))%Q)
      by (change 1%Q with (inject_Z 1); rewrite <- Zle_Qle; exact Hn).
    split.
    + rewrite Hexists, Hinst, Hdoc. cbn [negb].
      destruct (Z.of_nat (List.length pages) =? 0) eqn:E; [lia|].
      rewrite (chunkLoop_never_ends h filepath c _ _ Hexists Hc 1%Q Hstart). reflexivity.
    + intros fuel. apply chunkLoop_never_ends; assumption.
Qed.

Lemma chunked_read_edges_witness :
  PDFUtils.readPDFTextChunked Demo.emptyHost Demo.paper 10
  = Some (Throw ("Failed to read PDF in chunks: PDF file not found: " ++ Demo.paper))
  /\ PDFUtils.readPDFTextChunked Demo.fiveHost Demo.paper 0 = None.
Proof.
  split.
  - exact (proj1 (chunked_read_edges Demo.emptyHost Demo.paper 10) eq_refl).
  - destruct (chunked_read_edges Demo.fiveHost Demo.paper 0) as (_ & _ & _ & Hloop).
    apply (Hloop eq_refl eq_refl Demo.fivePages eq_refl); [discriminate | cbv; discriminate].
Defined.

(** X16. Whatever the chunked handler returns for a requested chunk size
    above 0 is a plan that fits the budget: the serialized response has at
    most 60000 characters (15000 estimated tokens). The chunk size it
    reports is the starting size [min(chunkSize, 2)], which is the
    requested number itself, integer or not, when that is below 2, or
    else 1: above 0 and never more than 2. *)
Theorem returned_plan_fits_budget :
  forall (h : Host) (fuel : nat) (args : Server.ReadArgs) (r : Server.toolResult),
    Server.chunkedOf args = true ->
    (0 < Server.chunkSizeOf args)%Q ->
    Server.read_pdf_text h fuel args = Some r ->
    exists response,
      r = Server.Content response
      /\ JS.strlen (Server.textOf r) <= 60000
      /\ (Plan.numField "chunkSize" response = JS.min (Server.chunkSizeOf args) 2
          \/ Plan.numField "chunkSize" response = 1%Q)
      /\ (0 < Plan.numField "chunkSize" response)%Q
      /\ (Plan.numField "chunkSize" response <= 2)%Q.
Proof.
  intros h fuel args r Hchunked Hsize Hrun.
  destruct (first_page_fallback_unreachable h fuel args Hchunked Hsize r Hrun)
    as (size0 & response & _ & _ & ->).
  destruct (returned_plan_inv h fuel args response Hchunked Hsize Hrun)
    as (size & result & Hwhich & _ & -> & Hfits).
  exists (Server.chunkedResponse (Server.filepath args) size result).
  split; [reflexivity|]. split.
  - cbn [Server.textOf]. rewrite withinBudget_chars in Hfits.
    apply Z.leb_le. exact Hfits.
  - change (Plan.numField "chunkSize"
              (Server.chunkedResponse (Server.filepath args) size result))
      with size.
    split; [exact Hwhich|].
    destruct (min_bounds (Server.chunkSizeOf args) 2) as (_ & Hle2 & _ & Hglb).
    destruct Hwhich as [-> | ->].
    + split; [apply Hglb; [exact Hsize | reflexivity] | exact Hle2].
    + split; [reflexivity | discriminate].
Qed.

(** On the three-page document with [chunkSize = 1.5] the plan reports
    the chunk size 1.5. *)
Lemma returned_plan_fits_budget_witness :
  exists response,
    Server.read_pdf_text Demo.threeHost 1 (Demo.chunkedArgs (Some (3 # 2)))
    = Some (Server.Content response)
    /\ JS.strlen (Server.textOf (Server.Content response)) <= 60000
    /\ Plan.numField "chunkSize" response = (3 # 2).
Proof.
  eexists. split; [vm_compute; reflexivity|].
  destruct (returned_plan_fits_budget Demo.threeHost 1 (Demo.chunkedArgs (Some (3 # 2))) _
              eq_refl eq_refl ltac:(vm_compute; reflexivity))
    as (response & Heq & Hfits & _).
  split; [exact Hfits | reflexivity].
Defined.

(** While every pass asks for another one, the loop is still running. *)
Lemma chunkSearch_keeps_running (h : Host) (filepath : string) (fuel : nat) :
  (forall c, Server.loopBody h filepath c = Some (Server.Continues (Server.halved c))) ->
  forall c, (0 < c)%Q -> snd (Server.chunkSearch h filepath fuel c) = None.
Proof.
  intros Hall. induction fuel as [|fuel IH]; intros c Hc; [reflexivity|].
  cbn [Server.chunkSearch]. apply gt_spec in Hc as Hgt. rewrite Hgt.
  rewrite (Hall c).
  pose proof (halved_least c) as Hh.
  specialize (IH (Server.halved c) ltac:(lra)).
  destruct (Server.chunkSearch h filepath fuel (Server.halved c)). exact IH.
Qed.

(** X17. A chunked [read_pdf_text] with a requested chunk size of at least
    1 never returns, neither a result nor an error, when the file does
    not exist, the page count cannot be read (tool absent, unreadable
    file) or the document has no page: each pass catches the failure of
    [readPDFTextChunked] and tries again, at size 1 for ever. *)
Theorem chunked_read_of_unreadable_file_hangs :
  forall (h : Host) (args : Server.ReadArgs),
    Server.chunkedOf args = true ->
    (1 <= Server.chunkSizeOf args)%Q ->
    (existsSync h (Server.filepath args) = false
     \/ popplerInstalled h = false
     \/ pdfPages h (Server.filepath args) = None
     \/ pdfPages h (Server.filepath args) = Some []) ->
    forall fuel, Server.read_pdf_text h fuel args = None.
Proof.
  intros h args Hchunked Hsize Hbad fuel.
  assert (Hthrows : forall c, exists e,
            PDFUtils.readPDFTextChunked h (Server.filepath args) c = Some (Throw e)).
  { intros c. unfold PDFUtils.readPDFTextChunked, Poppler.pdfinfoPages.
    destruct (existsSync h (Server.filepath args)); cbn [negb];
      [|eexists; reflexivity].
    destruct Hbad as [Hbad | [Hbad | [Hbad | Hbad]]]; try discriminate;
      rewrite Hbad; try (eexists; reflexivity);
      destruct (popplerInstalled h); eexists; reflexivity. }
  assert (Hall : forall c,
            Server.loopBody h (Server.filepath args) c
            = Some (Server.Continues (Server.halved c))).
  { intros c. unfold Server.loopBody. destruct (Hthrows c) as [e ->]. reflexivity. }
  unfold Server.read_pdf_text. rewrite Hchunked.
  rewrite (chunkSearch_keeps_running h _ fuel Hall); [reflexivity|].
  destruct (min_bounds (Server.chunkSizeOf args) 2) as (_ & _ & _ & Hglb).
  apply Hglb; [lra | reflexivity].
Qed.

Lemma chunked_read_of_unreadable_file_hangs_witness :
  existsSync Demo.emptyHost (Server.filepath (Demo.chunkedArgs None)) = false
  /\ Server.read_pdf_text Demo.emptyHost 1000 (Demo.chunkedArgs None) = None.
Proof.
  split; [reflexivity|].
  apply chunked_read_of_unreadable_file_hangs;
    [reflexivity | cbv; discriminate | left; reflexivity].
Defined.

(** X18. When the response at chunk size 1 fits the budget, a chunked
    [read_pdf_text] with a requested chunk size of at least 1 returns a
    plan after at most two extraction attempts (at the starting size,
    then at size 1), and more passes allowed change nothing. *)
Theorem fitting_document_returns_in_two :
  forall (h : Host) (args : Server.ReadArgs) (single : JSON.value),
    Server.chunkedOf args = true ->
    (1 <= Server.chunkSizeOf args)%Q ->
    Server.loopBody h (Server.filepath args) 1 = Some (Server.Returns single) ->
    exists response,
      forall fuel,
        Server.read_pdf_text h (S (S fuel)) args = Some (Server.Content response)
        /\ (List.length (Server.attemptedSizes h (S (S fuel)) args) <= 2)%nat.
Proof.
  intros h args single Hchunked Hsize Hone.
  unfold Server.read_pdf_text, Server.attemptedSizes. rewrite Hchunked.
  destruct (min_bounds (Server.chunkSizeOf args) 2) as (_ & Hle2 & _ & Hglb).
  assert (Hstart : (0 < JS.min (Server.chunkSizeOf args) 2)%Q)
    by (apply Hglb; [lra | reflexivity]).
  set (start := JS.min (Server.chunkSizeOf args) 2) in *.
  apply gt_spec in Hstart as Hgt.
  pose proof (loopBody_ends h (Server.filepath args) start Hstart) as Hends.
  destruct (Server.loopBody h (Server.filepath args) start) as [[first|next]|] eqn:Hfirst;
    [| |congruence].
  - exists first. intros fuel.
    cbn [Server.chunkSearch]. rewrite Hgt, Hfirst. cbn. split; [reflexivity | lia].
  - apply loopBody_continues in Hfirst as Hnext. subst next.
    rewrite (halved_small start) in Hfirst by lra.
    exists single. intros fuel.
    cbn [Server.chunkSearch]. rewrite Hgt, Hfirst.
    change (JS.gt 1 0) with true. cbv iota. rewrite Hone. cbn.
    split; [reflexivity | lia].
Qed.

Lemma fitting_document_returns_in_two_witness :
  exists single response,
    Server.loopBody Demo.fiveHost Demo.paper 1 = Some (Server.Returns single)
    /\ Server.read_pdf_text Demo.fiveHost 2 (Demo.chunkedArgs (Some 10%Q))
       = Some (Server.Content response)
    /\ Server.read_pdf_text Demo.fiveHost 7 (Demo.chunkedArgs (Some 10%Q))
       = Some (Server.Content response).
Proof.
  eexists.
  destruct (fitting_document_returns_in_two Demo.fiveHost (Demo.chunkedArgs (Some 10%Q)) _
              eq_refl ltac:(cbv; discriminate) ltac:(vm_compute; reflexivity))
    as [response Hall].
  exists response. split; [vm_compute; reflexivity|].
  split; [exact (proj1 (Hall 0%nat)) | exact (proj1 (Hall 5%nat))].
Defined.

(** ** Cleanup that meets a directory (lines 291-302) *)

Section PartialCleanup.

Variable env : Env.

(** Unlinking the leading files of the listing leaves the rest of it. *)
Lemma forEach_unlink_prefix (before rest : list (string * node)) :
  forall past : list event,
    List.NoDup (List.map fst (before ++ rest)) ->
    List.Forall FS.isFile before ->
    forEach (List.map fst (before ++ rest)) (FS.unlinkSync env)
      {| files := before ++ rest; log := past |}
    = forEach (List.map fst rest) (FS.unlinkSync env)
        {| files := rest;
           log := past ++ List.map (fun name => Unlinked (pathJoin (downloadsDir env) name))
                                   (List.map fst before) |}.
Proof.
  induction before as [|[name x] before IH]; intros past Hnodup Hfiles.
  - cbn. rewrite List.app_nil_r. reflexivity.
  - cbn [List.app List.map fst] in Hnodup.
    inversion Hnodup as [|? ? Hfresh Hrest]; subst.
    inversion Hfiles as [|? ? Hfile Hothers]; subst.
    destruct x as [data|]; [|contradiction Hfile].
    cbn [List.app List.map fst forEach]. unfold bind at 1.
    rewrite (unlinkSync_head env name data (before ++ rest) past Hfresh).
    rewrite (IH _ Hrest Hothers). rewrite <- List.app_assoc. reflexivity.
Qed.

End PartialCleanup.

(** X19. [cleanup_downloads] stops at the first entry it cannot unlink.
    When the listing holds files, then a sub-directory, then anything
    else, the files before the sub-directory are removed, the
    sub-directory and everything listed after it stay, nothing is
    thrown, and the result is still the message that all downloads were
    cleaned up; stderr gets the error line instead of the count. *)
Theorem cleanup_stops_at_directory :
  forall (env : Env) (before after : list (string * node)) (dir : string)
         (past : list event),
    List.NoDup (List.map fst (before ++ (dir, Directory) :: after)) ->
    List.Forall FS.isFile before ->
    Server.cleanup_downloads env
      {| files := before ++ (dir, Directory) :: after; log := past |}
    = Some (Server.Content Server.cleanupResponse,
            {| files := (dir, Directory) :: after;
               log := past
                      ++ List.map (fun name => Unlinked (pathJoin (downloadsDir env) name))
                                  (List.map fst before)
                      ++ [Stderr "Error cleaning up downloads:"] |}).
Proof.
  intros env before after dir past Hnodup Hfiles.
  unfold Server.cleanup_downloads, PDFUtils.cleanupDownloads, tryCatch.
  unfold bind at 1. unfold FS.readdirSync. cbn [files log]. unfold bind at 1.
  rewrite (forEach_unlink_prefix env before _ past Hnodup Hfiles).
  cbn [List.map fst forEach]. unfold bind at 1. unfold FS.unlinkSync at 1.
  cbn [files log]. rewrite lookup_head.
  unfold consoleError, emit. cbn [files log].
  rewrite <- List.app_assoc. reflexivity.
Qed.

Lemma cleanup_stops_at_directory_witness :
  Server.cleanup_downloads Demo.env
    {| files := [ ("a.pdf", File "%PDF-1.4 a"); ("old", Directory);
                  ("b.pdf", File "%PDF-1.4 b") ];
       log := [] |}
  = Some (Server.Content Server.cleanupResponse,
          {| files := [ ("old", Directory); ("b.pdf", File "%PDF-1.4 b") ];
             log := [ Unlinked "/tmp/science_mcp_downloads/a.pdf";
                      Stderr "Error cleaning up downloads:" ] |}).
Proof.
  refine (cleanup_stops_at_directory Demo.env [("a.pdf", File "%PDF-1.4 a")]
            [("b.pdf", File "%PDF-1.4 b")] "old" [] _ _).
  - repeat constructor; cbn; intuition discriminate.
  - repeat constructor.
Defined.

(** ** The stored name (lines 40-64) *)

(** X20. Sanitizing a filename is idempotent, keeps its length, and leaves
    only characters of [[A-Za-z0-9._-]]: a sanitized name has no path
    separator. *)
Theorem sanitize_is_idempotent :
  forall name : string,
    PDFUtils.sanitize (PDFUtils.sanitize name) = PDFUtils.sanitize name
    /\ String.length (PDFUtils.sanitize name) = String.length name
    /\ Artifacts.safeName (PDFUtils.sanitize name)
    /\ JS.includes "/" (PDFUtils.sanitize name) = false.
Proof.
  intros name. split; [apply sanitize_idempotent|].
  split; [apply replaceAll_length|]. split; [apply sanitize_safe|].
  pose proof (sanitize_safe name) as Hsafe.
  induction (PDFUtils.sanitize name) as [|c s IH]; [reflexivity|].
  cbn in Hsafe. inversion Hsafe as [|? ? Hc Hrest]; subst.
  cbn [JS.includes]. rewrite (IH Hrest), orb_false_r.
  unfold JS.startsWith. cbn [String.prefix].
  destruct (Ascii.ascii_dec "/" c) as [<-|]; [discriminate Hc | reflexivity].
Qed.

Lemma pdf_name_given (s : string) :
  JS.endsWith ".pdf" s = true -> PDFUtils.given (Some s) = true.
Proof. destruct s; [discriminate | reflexivity]. Qed.

Lemma storedFilename_of_clean (now : Z) (pdfUrl s : string) :
  JS.endsWith ".pdf" s = true ->
  PDFUtils.sanitize s = s ->
  PDFUtils.storedFilename now pdfUrl (Some s) = s.
Proof.
  intros Hpdf Hclean. unfold PDFUtils.storedFilename.
  rewrite (pdf_name_given s Hpdf), Hpdf. exact Hclean.
Qed.

(** X21. The name a download is stored under always ends in [.pdf] and is
    made of safe characters; with a filename supplied it depends neither
    on the URL nor on the time; and storing under a name the derivation
    produced gives that name again, so the retry against the substitute
    URL writes the same file the caller asked for. *)
Theorem stored_name_is_stable :
  forall (now : Z) (pdfUrl : string) (filename : option string),
    let name := PDFUtils.storedFilename now pdfUrl filename in
    JS.endsWith ".pdf" name = true
    /\ Artifacts.safeName name
    /\ (PDFUtils.given filename = true ->
        forall now' pdfUrl', PDFUtils.storedFilename now' pdfUrl' filename = name)
    /\ (forall now' pdfUrl', PDFUtils.storedFilename now' pdfUrl' (Some name) = name).
Proof.
  intros now pdfUrl filename name.
  destruct (storedFilename_shape now pdfUrl filename) as [Hpdf Hsafe].
  split; [exact Hpdf|]. split; [exact Hsafe|]. split.
  - intros Hgiven now' pdfUrl'. unfold name, PDFUtils.storedFilename.
    rewrite Hgiven. reflexivity.
  - intros now' pdfUrl'.
    apply storedFilename_of_clean; [exact Hpdf|].
    unfold name, PDFUtils.storedFilename. apply sanitize_idempotent.
Qed.

Lemma stored_name_is_stable_witness :
  PDFUtils.given (Some "my paper (v2)") = true
  /\ PDFUtils.storedFilename 1 "https://acm.org/x" (Some "my paper (v2)")
     = "my_paper__v2_.pdf"
  /\ PDFUtils.storedFilename 2 Demo.attention (Some "my paper (v2)")
     = PDFUtils.storedFilename 1 "https://acm.org/x" (Some "my paper (v2)").
Proof.
  split; [reflexivity|]. split; [reflexivity|].
  destruct (stored_name_is_stable 1 "https://acm.org/x" (Some "my paper (v2)"))
    as (_ & _ & Hsame & _).
  exact (Hsame eq_refl 2 Demo.attention).
Defined.

(** ** The fallback, end to end (lines 74-97) *)

Lemma catchBlock_throws (again : string -> option string -> M string) (env : Env)
  (pdfUrl : string) (filename : option string) (error : string)
  (w w' : world) (e : string) :
  PDFUtils.catchBlock again env pdfUrl filename error w = Some (Throw e, w') ->
  e = "Failed to download PDF: " ++ error.
Proof.
  unfold PDFUtils.catchBlock. run_monad.
  destruct (PDFUtils.isPaywalledSource pdfUrl); run_monad; [|congruence].
  destruct (PDFUtils.extractTitleFromUrl pdfUrl filename) as [paperTitle|];
    run_monad; [|congruence].
  destruct (JS.truthy paperTitle); run_monad; [|congruence].
  match goal with
  | |- context [PDFUtils.findPaperOnArxiv env paperTitle ?w1] =>
      destruct (findPaperOnArxiv_quiet env paperTitle w1)
        as (found & searched & Hsearch & _)
  end.
  rewrite Hsearch. cbn [files log].
  destruct found as [substitute|]; run_monad; [|congruence].
  match goal with
  | |- context [again substitute filename ?w2] =>
      destruct (again substitute filename w2) as [[[filepath|nested] w3]|]
  end; run_monad; congruence.
Qed.

(** X22. When the fetch of the requested URL fails with [cause], every
    error [downloadPDF] throws is [Failed to download PDF: cause]: a
    failure of the resolver or of the substitute download is swallowed
    and the original cause is the one reported. *)
Theorem error_reports_original_cause :
  forall (env : Env) (fuel : nat) (pdfUrl : string) (filename : option string)
         (w w' : world) (cause e : string),
    httpGet env pdfUrl = Throw cause ->
    PDFUtils.downloadPDF fuel env pdfUrl filename w = Some (Throw e, w') ->
    e = "Failed to download PDF: " ++ cause.
Proof.
  intros env [|fuel] pdfUrl filename w w' cause e Hget; [discriminate|].
  rewrite downloadPDF_step. run_monad. rewrite Hget.
  apply catchBlock_throws.
Qed.

Lemma error_reports_original_cause_witness :
  httpGet Demo.env "https://ieee.org/Attention-Is-All-You-Need-Again"
  = Throw "Request failed with status code 403"
  /\ exists w',
       PDFUtils.downloadPDF 3 Demo.env "https://ieee.org/Attention-Is-All-You-Need-Again"
         None Demo.emptyWorld
       = Some (Throw "Failed to download PDF: Request failed with status code 403", w')
       /\ Trace.resolverCalls (log w') = 1%nat.
Proof.
  split; [reflexivity|].
  assert (Hrun : exists e w',
            PDFUtils.downloadPDF 3 Demo.env
              "https://ieee.org/Attention-Is-All-You-Need-Again" None Demo.emptyWorld
            = Some (Throw e, w') /\ Trace.resolverCalls (log w') = 1%nat).
  { do 2 eexists. split; [vm_compute; reflexivity | reflexivity]. }
  destruct Hrun as (e & w' & Hrun & Hcalls).
  exists w'. split; [|exact Hcalls].
  rewrite Hrun.
  rewrite (error_reports_original_cause Demo.env 3
             "https://ieee.org/Attention-Is-All-You-Need-Again" None Demo.emptyWorld w'
             "Request failed with status code 403" e eq_refl Hrun).
  reflexivity.
Defined.

(** X23. The fallback, when it works: the fetch of a URL judged paywalled
    fails, a title is inferred, the first pass of the resolver has an
    entry with a PDF link, and the fetch of that link succeeds. Then
    [downloadPDF] returns: the bytes of the substitute are stored under
    the name derived from the substitute URL and the caller's filename,
    after two fetches and one resolver call. *)
Theorem fallback_stores_substitute :
  forall (env : Env) (fuel : nat) (pdfUrl substitute title cause data : string)
         (filename : option string) (found : entry) (others : list entry)
         (w : world),
    httpGet env pdfUrl = Throw cause ->
    PDFUtils.isPaywalledSource pdfUrl = true ->
    PDFUtils.extractTitleFromUrl pdfUrl filename = Some title ->
    JS.truthy title = true ->
    arxivApi env ("ti:" ++ String JSON.dquote title ++ String JSON.dquote EmptyString)
    = Return (found :: others) ->
    PDFUtils.pdfLinkOf (found :: others) = Return (Some substitute) ->
    httpGet env substitute = Return data ->
    let name := PDFUtils.storedFilename (now env) substitute filename in
    FS.lookup name (files w) <> Some Directory ->
    exists events,
      PDFUtils.downloadPDF (S (S fuel)) env pdfUrl filename w
      = Some (Return (pathJoin (downloadsDir env) name),
              {| files := FS.put name data (files w); log := log w ++ events |})
      /\ Trace.fetches events = 2%nat
      /\ Trace.resolverCalls events = 1%nat
      /\ Artifacts.writes events = 1%nat.
Proof.
  intros env fuel pdfUrl substitute title cause data filename found others w
         Hget Hpay Htitle Htruthy Hfeed Hlink Hsub name Hfree.
  rewrite downloadPDF_step. run_monad. rewrite Hget.
  unfold PDFUtils.catchBlock. run_monad. rewrite Hpay. run_monad.
  rewrite Htitle, Htruthy. run_monad.
  unfold PDFUtils.findPaperOnArxiv. run_monad. rewrite Hfeed. run_monad.
  rewrite Hlink. run_monad.
  rewrite downloadPDF_step. run_monad. rewrite Hsub. cbv zeta.
  unfold FS.writeFileSync. run_monad. fold name.
  destruct (FS.lookup name (files w)) as [[content|]|]; run_monad;
    try (eexists; split; [reflexivity|]; repeat split; count_writes).
  contradiction Hfree. reflexivity.
Qed.

Lemma fallback_stores_substitute_witness :
  exists events,
    PDFUtils.downloadPDF 2 Demo.env "https://sciencedirect.com/paper123.pdf"
      (Some "Attention_Is_All_You_Need.pdf") Demo.threeFiles
    = Some (Return "/tmp/science_mcp_downloads/Attention_Is_All_You_Need.pdf",
            {| files := FS.put "Attention_Is_All_You_Need.pdf" "%PDF-1.5 attention"
                          (files Demo.threeFiles);
               log := log Demo.threeFiles ++ events |})
    /\ Trace.fetches events = 2%nat.
Proof.
  destruct (fallback_stores_substitute Demo.env 0
              "https://sciencedirect.com/paper123.pdf" Demo.attention
              "Attention Is All You Need" "Request failed with status code 403"
              "%PDF-1.5 attention" (Some "Attention_Is_All_You_Need.pdf")
              [("text/html", "http://arxiv.org/abs/1706.03762");
               ("application/pdf", Demo.attention)] [] Demo.threeFiles
              eq_refl eq_refl eq_refl eq_refl eq_refl eq_refl eq_refl
              ltac:(discriminate))
    as (events & Hrun & Hfetches & _).
  exists events. split; [exact Hrun | exact Hfetches].
Defined.

